(** * Caprio Fashion backend: a shallow embedding of [server.js] and [db.js]

    The development follows the layout of the repository:

    - [JS]        the JavaScript values the handlers manipulate (request
                  bodies, query strings, token payloads, response bodies);
    - [Libs]      the third-party packages the server calls ([bcrypt],
                  [jsonwebtoken], [JSON], number formatting), as an interface;
    - [Sqlite]    the storage engine behind [db.js]: the three tables of
                  [init-db.sql] and the statements the server issues, read
                  from their SQL text;
    - [runAsync], [allAsync], [getAsync]: the wrappers of [db.js];
    - the middleware, the route handlers and the route table of [server.js];
    - [Demo]      a small instance of the packages, for concrete runs;
    - the vocabulary of the properties, then the properties of the catalog
      query builder, the access guard, the credential store, the wishlist and
      the product listing.

    Scope.  A request is one that reached the router: [cors], the JSON body
    parser and the rate limiter run before it and are not modelled.  Requests
    are served one at a time: a handler runs to completion before the next
    request starts.  A text is the sequence of the bytes of its UTF-8 form.
    The segments of a path carry no percent-escape, and the line of a request
    is within the size Node accepts for a header, far below the 50 000 bytes
    SQLite allows a LIKE pattern. *)

From Stdlib Require Import List String Ascii Bool ZArith QArith Lia.
From Stdlib Require Import Sorted Permutation.

Set Warnings "-register-all".
Import ListNotations.

Local Open Scope Z_scope.
Local Open Scope string_scope.
Local Open Scope list_scope.

Infix "^^" := String.append (at level 60, right associativity) : string_scope.

(* ================================================================== *)
(** * JavaScript values *)
(* ================================================================== *)

Module JS.

(** Numbers are the finite doubles, read as rationals: the server only
    tests them against zero, compares them and hands them to the storage
    engine.  An object lists its own properties in insertion order. *)
Inductive value : Type :=
| Undefined
| Null
| Bool (b : bool)
| Num (n : Q)
| Str (s : string)
| Arr (items : list value)
| Obj (props : list (string * value)).

(** [if (v)], [!v], [a || b] *)
Definition truthy (v : value) : bool :=
  match v with
  | Undefined | Null => false
  | Bool b => b
  | Num n => negb (Qeq_bool n 0)
  | Str s => negb (s =? "")
  | Arr _ | Obj _ => true
  end.

Definition or_else (a b : value) : value := if truthy a then a else b.

Fixpoint assoc (k : string) (props : list (string * value)) : value :=
  match props with
  | [] => Undefined
  | (k', v) :: rest => if k' =? k then v else assoc k rest
  end.

(** [o.k] and the destructuring [const { k } = o] *)
Definition get (k : string) (o : value) : value :=
  match o with
  | Obj props => assoc k props
  | _ => Undefined
  end.

Fixpoint replace (k : string) (v : value) (props : list (string * value))
  : list (string * value) :=
  match props with
  | [] => [(k, v)]
  | (k', v') :: rest =>
      if k' =? k then (k, v) :: rest else (k', v') :: replace k v rest
  end.

(** [{ ...o, k: v }] *)
Definition set (k : string) (v : value) (o : value) : value :=
  match o with
  | Obj props => Obj (replace k v props)
  | _ => Obj [(k, v)]
  end.

(** [a === 'literal'] *)
Definition is_string (v : value) (lit : string) : bool :=
  match v with
  | Str s => s =? lit
  | _ => false
  end.

Definition startsWith (s pre : string) : bool := String.prefix pre s.

(** [s.split(' ')] *)
Fixpoint split_from (sep : ascii) (cur s : string) : list string :=
  match s with
  | EmptyString => [cur]
  | String c s' =>
      if Ascii.eqb c sep then cur :: split_from sep "" s'
      else split_from sep (cur ^^ String c "") s'
  end.

Definition split (sep : ascii) (s : string) : list string :=
  split_from sep "" s.

End JS.

(* ================================================================== *)
(** * Third-party packages *)
(* ================================================================== *)

(** What the server requires from [node_modules] and from the JavaScript
    runtime, kept abstract.

    - [bcrypt_hash_string data rounds entropy]: the salted hash of a string,
      the salt drawn from [entropy]; [bcrypt_compare_string data hash]: the
      native comparison of a string with a stored hash;
    - [jwt_sign payload secret expiresIn now] and [jwt_verify token secret now]
      ([None] when [jwt.verify] throws: malformed, bad signature or expired);
    - [sqlite_num_text] and [sqlite_text_num]: SQLite's rendering of a number
      as text and its reading of a text that looks like a number;
    - [driver_object_text]: the text the [sqlite3] driver binds for an array
      or object parameter. *)
Class Libs : Type := {
  bcrypt_hash_string : string -> Z -> string -> string;
  bcrypt_compare_string : string -> string -> bool;
  jwt_sign : JS.value -> string -> string -> Z -> string;
  jwt_verify : string -> string -> Z -> option JS.value;
  JSON_parse : string -> option JS.value;
  JSON_stringify : JS.value -> string;
  number_to_string : Q -> string;
  sqlite_num_text : Q -> string;
  sqlite_text_num : string -> option Q;
  driver_object_text : JS.value -> string
}.

Section ToString.
Context {L : Libs}.

(** [String(v)], the coercion of a template literal [`${v}`] *)
Fixpoint to_string (v : JS.value) : string :=
  match v with
  | JS.Undefined => "undefined"
  | JS.Null => "null"
  | JS.Bool true => "true"
  | JS.Bool false => "false"
  | JS.Num n => number_to_string n
  | JS.Str s => s
  | JS.Arr items =>
      String.concat ","
        (List.map (fun x => match x with
                            | JS.Undefined | JS.Null => ""
                            | _ => to_string x
                            end) items)
  | JS.Obj _ => "[object Object]"
  end.

End ToString.

(* ================================================================== *)
(** * Catalog query builder ([app.get('/api/products')], lines 101-112) *)
(* ================================================================== *)

Section QueryBuilder.
Context {L : Libs}.

Definition push {A} (l : list A) (xs : list A) : list A := l ++ xs.

(** The statement text and the parameter array handed to [allAsync]. *)
Definition build_products_query (query : JS.value) : string * list JS.value :=
  let category := JS.get "category" query in
  let age_group := JS.get "age_group" query in
  let q := JS.get "q" query in
  let sort := JS.get "sort" query in
  let sql := "SELECT * FROM products" in
  let conditions : list string := [] in
  let params : list JS.value := [] in
  let '(conditions, params) :=
    if JS.truthy category
    then (push conditions ["category = ?"], push params [category])
    else (conditions, params) in
  let '(conditions, params) :=
    if JS.truthy age_group
    then (push conditions ["age_group = ?"], push params [age_group])
    else (conditions, params) in
  let '(conditions, params) :=
    if JS.truthy q
    then (push conditions ["(name LIKE ? OR description LIKE ?)"],
          push params [JS.Str ("%" ^^ to_string q ^^ "%");
                       JS.Str ("%" ^^ to_string q ^^ "%")])
    else (conditions, params) in
  let sql :=
    if negb (Nat.eqb (List.length conditions) 0)
    then sql ^^ " WHERE " ^^ String.concat " AND " conditions
    else sql in
  let sql :=
    if JS.is_string sort "price_asc" then sql ^^ " ORDER BY price ASC"
    else if JS.is_string sort "price_desc" then sql ^^ " ORDER BY price DESC"
    else if JS.is_string sort "newest" then sql ^^ " ORDER BY created_at DESC"
    else sql ^^ " ORDER BY id DESC" in
  (sql, params).

(** The four order clauses the builder can emit. *)
Inductive sort_key : Type := SortPriceAsc | SortPriceDesc | SortNewest | SortDefault.

Definition sort_key_of (sort : JS.value) : sort_key :=
  if JS.is_string sort "price_asc" then SortPriceAsc
  else if JS.is_string sort "price_desc" then SortPriceDesc
  else if JS.is_string sort "newest" then SortNewest
  else SortDefault.

(** Which filters a request carries, and its order clause: everything the
    statement text is allowed to depend on. *)
Definition query_shape (query : JS.value) : bool * bool * bool * sort_key :=
  (JS.truthy (JS.get "category" query),
   JS.truthy (JS.get "age_group" query),
   JS.truthy (JS.get "q" query),
   sort_key_of (JS.get "sort" query)).

(** The filter values of a request, in binding order. *)
Definition filter_values (query : JS.value) : list JS.value :=
  let category := JS.get "category" query in
  let age_group := JS.get "age_group" query in
  let q := JS.get "q" query in
  (if JS.truthy category then [category] else []) ++
  (if JS.truthy age_group then [age_group] else []) ++
  (if JS.truthy q
   then [JS.Str ("%" ^^ to_string q ^^ "%"); JS.Str ("%" ^^ to_string q ^^ "%")]
   else []).

End QueryBuilder.

(* ================================================================== *)
(** * The storage engine behind [db.js] *)
(* ================================================================== *)

Module Sqlite.

(** Storage classes.  INTEGER and REAL are one numeric class here, compared
    by value; BLOB never reaches the tables, since every stored value comes
    from JSON or from a string. *)
Inductive value : Type :=
| Null
| Num (n : Q)
| Text (s : string).

(** [a = b] as a WHERE or UNIQUE test: true only for two non-NULL values of
    the same class that are equal (BINARY collation for text). *)
Definition eqb (a b : value) : bool :=
  match a, b with
  | Num x, Num y => Qeq_bool x y
  | Text s, Text t => (s =? t)%string
  | _, _ => false
  end.

(** The order of ORDER BY: NULL first, then numbers, then text. *)
Definition leb (a b : value) : bool :=
  match a, b with
  | Null, _ => true
  | Num _, Null => false
  | Num x, Num y => Qle_bool x y
  | Num _, Text _ => true
  | Text s, Text t => String.leb s t
  | Text _, _ => false
  end.

(** ** LIKE

    The LIKE of SQLite works on C strings: the pattern and the text both end
    at their first NUL.  It reads them one character at a time with
    [sqlite3Utf8Read]: a byte below 0xC0 is a character by itself, a byte from
    0xC0 on starts a character that takes in every continuation byte (0x80 to
    0xBF) that follows, and a value that is no character (below 0x80, a
    surrogate, U+FFFE, U+FFFF) is read as U+FFFD.  [%] matches any run of
    characters, [_] exactly one; any other character matches itself, the
    letters A-Z and a-z without regard to case.  The statements of the server
    carry no ESCAPE clause. *)
Definition continuation (n : N) : bool := ((128 <=? n) && (n <=? 191))%N.

(** The payload bits of a lead byte ([sqlite3Utf8Trans1]). *)
Definition lead (n : N) : N :=
  (if n <? 224 then n - 192
   else if n <? 240 then n - 224
   else if n <? 248 then n - 240
   else if n <? 252 then n - 248
   else if n <? 254 then n - 252
   else 0)%N.

Definition code (c : N) : N :=
  (if (c <? 128) || ((55296 <=? c) && (c <=? 57343)) || (c =? 65534) || (c =? 65535)
   then 65533 else c)%N.

(** The characters of a text up to its first NUL; [cur] is the value of the
    multi-byte character being read, a 32-bit unsigned integer. *)
Fixpoint chars_from (cur : option N) (s : string) : list N :=
  match s with
  | EmptyString => match cur with
                   | Some acc => [code acc]
                   | None => []
                   end
  | String b s' =>
      let n := N_of_ascii b in
      let fresh :=
        if (n =? 0)%N then []
        else if (n <? 192)%N then n :: chars_from None s'
        else chars_from (Some (lead n)) s' in
      match cur with
      | Some acc =>
          if continuation n
          then chars_from (Some ((acc * 64 + n mod 64) mod 4294967296)%N) s'
          else code acc :: fresh
      | None => fresh
      end
  end.

Definition chars (s : string) : list N := chars_from None s.

Definition lower (c : N) : N :=
  (if (65 <=? c) && (c <=? 90) then c + 32 else c)%N.

Definition same_char (c d : N) : bool :=
  ((c =? d) || ((c <? 128) && (d <? 128) && (lower c =? lower d)))%N.

Fixpoint like_chars (pat : list N) : list N -> bool :=
  match pat with
  | [] => fun s => match s with
                   | [] => true
                   | _ :: _ => false
                   end
  | c :: pat' =>
      if (c =? 37)%N then
        fix star (s : list N) : bool :=
          like_chars pat' s
          || match s with
             | [] => false
             | _ :: s' => star s'
             end
      else if (c =? 95)%N then
        fun s => match s with
                 | [] => false
                 | _ :: s' => like_chars pat' s'
                 end
      else
        fun s => match s with
                 | [] => false
                 | d :: s' => same_char c d && like_chars pat' s'
                 end
  end.

Definition like (pat s : string) : bool := like_chars (chars pat) (chars s).

(** ** Tables of [init-db.sql] *)

Record user : Type := {
  user_id : Z;
  user_name : value;
  user_email : value;
  user_password : value;
  user_is_admin : value;
  user_created_at : value
}.

Record product : Type := {
  product_id : Z;
  product_name : value;
  product_slug : value;
  product_description : value;
  product_price : value;
  product_rating : value;
  product_reviews : value;
  product_colors : value;
  product_images : value;
  product_category : value;
  product_age_group : value;
  product_created_at : value
}.

Record wishlist : Type := {
  wishlist_id : Z;
  wishlist_user_id : value;
  wishlist_product_id : value;
  wishlist_created_at : value
}.

(** The three tables in rowid order, the AUTOINCREMENT counters of
    [sqlite_sequence] and the connection's last inserted rowid. *)
Record database : Type := {
  users : list user;
  products : list product;
  wishlists : list wishlist;
  seq_users : Z;
  seq_products : Z;
  seq_wishlists : Z;
  last_rowid : Z
}.

Definition empty : database :=
  {| users := []; products := []; wishlists := [];
     seq_users := 0; seq_products := 0; seq_wishlists := 0; last_rowid := 0 |}.

(** AUTOINCREMENT: one more than the largest rowid the table ever held. *)
Definition next_rowid (seq : Z) (ids : list Z) : Z :=
  List.fold_left Z.max ids seq + 1.

(** ** Prepared statements *)

Inductive condition : Type :=
| CategoryEq
| AgeGroupEq
| NameOrDescriptionLike.

Inductive order_by : Type :=
| PriceAsc
| PriceDesc
| CreatedAtDesc
| IdDesc.

Inductive statement : Type :=
| SelectUserIdByEmail
| SelectUserByEmail
| SelectUserById
| InsertUser (admin : bool)
| SelectProducts (where_ : list condition) (order : order_by)
| SelectProductByIdOrSlug
| InsertProduct (or_ignore : bool)
| UpdateProduct
| DeleteProduct
| SelectWishlist
| InsertWishlist
| DeleteWishlist.

(** [strip pre s] is what follows [pre] in [s]. *)
Fixpoint strip (pre s : string) : option string :=
  match pre, s with
  | EmptyString, _ => Some s
  | String a pre', String b s' => if Ascii.eqb a b then strip pre' s' else None
  | String _ _, EmptyString => None
  end.

Definition parse_condition (s : string) : option (condition * string) :=
  match strip "category = ?" s with
  | Some rest => Some (CategoryEq, rest)
  | None =>
      match strip "age_group = ?" s with
      | Some rest => Some (AgeGroupEq, rest)
      | None =>
          match strip "(name LIKE ? OR description LIKE ?)" s with
          | Some rest => Some (NameOrDescriptionLike, rest)
          | None => None
          end
      end
  end.

(** [cond ( AND cond)*], then the rest of the text *)
Fixpoint parse_conditions (fuel : nat) (s : string)
  : option (list condition * string) :=
  match fuel with
  | O => None
  | S fuel' =>
      match parse_condition s with
      | None => None
      | Some (c, rest) =>
          match strip " AND " rest with
          | None => Some ([c], rest)
          | Some rest' =>
              match parse_conditions fuel' rest' with
              | Some (cs, rest'') => Some (c :: cs, rest'')
              | None => None
              end
          end
      end
  end.

Definition parse_order (s : string) : option order_by :=
  if (s =? " ORDER BY price ASC")%string then Some PriceAsc
  else if (s =? " ORDER BY price DESC")%string then Some PriceDesc
  else if (s =? " ORDER BY created_at DESC")%string then Some CreatedAtDesc
  else if (s =? " ORDER BY id DESC")%string then Some IdDesc
  else None.

(** [SELECT * FROM products [WHERE ...] ORDER BY ...] *)
Definition parse_select_products (sql : string) : option statement :=
  match strip "SELECT * FROM products" sql with
  | None => None
  | Some rest =>
      match strip " WHERE " rest with
      | None =>
          match parse_order rest with
          | Some o => Some (SelectProducts [] o)
          | None => None
          end
      | Some rest' =>
          match parse_conditions (String.length rest') rest' with
          | Some (cs, rest'') =>
              match parse_order rest'' with
              | Some o => Some (SelectProducts cs o)
              | None => None
              end
          | None => None
          end
      end
  end.

(** The statements of [server.js], by their text. *)
Definition prepare (sql : string) : option statement :=
  if (sql =? "SELECT id FROM users WHERE email = ?")%string
  then Some SelectUserIdByEmail
  else if (sql =? "SELECT * FROM users WHERE email = ?")%string
  then Some SelectUserByEmail
  else if (sql =? "SELECT id, name, email, is_admin, created_at FROM users WHERE id = ?")%string
  then Some SelectUserById
  else if (sql =? "INSERT INTO users (name, email, password, is_admin) VALUES (?,?,?,1)")%string
  then Some (InsertUser true)
  else if (sql =? "INSERT INTO users (name, email, password) VALUES (?,?,?)")%string
  then Some (InsertUser false)
  else if (sql =? "SELECT * FROM products WHERE id = ? OR slug = ?")%string
  then Some SelectProductByIdOrSlug
  else if (sql =? "INSERT INTO products (name, slug, description, price, colors, images, category, age_group) VALUES (?,?,?,?,?,?,?,?)")%string
  then Some (InsertProduct false)
  else if (sql =? "INSERT OR IGNORE INTO products (name, slug, description, price, colors, images, category, age_group) VALUES (?,?,?,?,?,?,?,?)")%string
  then Some (InsertProduct true)
  else if (sql =? "UPDATE products SET name=?, slug=?, description=?, price=?, colors=?, images=?, category=?, age_group=? WHERE id=?")%string
  then Some UpdateProduct
  else if (sql =? "DELETE FROM products WHERE id = ?")%string
  then Some DeleteProduct
  else if (sql =? "SELECT w.id, w.product_id, p.name, p.price, p.images FROM wishlists w JOIN products p ON p.id = w.product_id WHERE w.user_id = ?")%string
  then Some SelectWishlist
  else if (sql =? "INSERT OR IGNORE INTO wishlists (user_id, product_id) VALUES (?,?)")%string
  then Some InsertWishlist
  else if (sql =? "DELETE FROM wishlists WHERE user_id = ? AND product_id = ?")%string
  then Some DeleteWishlist
  else parse_select_products sql.

Definition arity (st : statement) : nat :=
  match st with
  | SelectUserIdByEmail | SelectUserByEmail | SelectUserById => 1
  | InsertUser _ => 3
  | SelectProducts cs _ =>
      List.fold_right
        (fun c n => match c with
                    | NameOrDescriptionLike => 2 + n
                    | _ => 1 + n
                    end)%nat 0%nat cs
  | SelectProductByIdOrSlug => 2
  | InsertProduct _ => 8
  | UpdateProduct => 9
  | DeleteProduct => 1
  | SelectWishlist => 1
  | InsertWishlist => 2
  | DeleteWishlist => 2
  end.

(** ** Ordering *)

Section Sort.
Context {A : Type} (le : A -> A -> bool).

Fixpoint insert_sorted (x : A) (l : list A) : list A :=
  match l with
  | [] => [x]
  | y :: l' => if le x y then x :: l else y :: insert_sorted x l'
  end.

Definition sort (l : list A) : list A :=
  List.fold_right insert_sorted [] l.

End Sort.

(** ** Execution *)

Record result : Type := {
  rows : list JS.value;
  lastID : Z;
  changes : Z
}.

Inductive outcome (A : Type) : Type :=
| Resolve (a : A)
| Reject (err : string).
Arguments Resolve {A} a.
Arguments Reject {A} err.

Section Engine.
Context {L : Libs}.

(** The driver's binding of a JavaScript parameter. *)
Definition bind (v : JS.value) : value :=
  match v with
  | JS.Undefined | JS.Null => Null
  | JS.Bool b => Num (if b then 1 else 0)
  | JS.Num n => Num n
  | JS.Str s => Text s
  | JS.Arr _ | JS.Obj _ => Text (driver_object_text v)
  end.

(** The driver's rendering of a column of a result row. *)
Definition to_js (v : value) : JS.value :=
  match v with
  | Null => JS.Null
  | Num n => JS.Num n
  | Text s => JS.Str s
  end.

(** Column affinity: a TEXT column turns numbers into text; an INTEGER or
    REAL column turns text that reads as a number into that number. *)
Definition text_affinity (v : value) : value :=
  match v with
  | Num n => Text (sqlite_num_text n)
  | _ => v
  end.

Definition numeric_affinity (v : value) : value :=
  match v with
  | Text s => match sqlite_text_num s with
              | Some n => Num n
              | None => v
              end
  | _ => v
  end.

Definition rowid (id : Z) : value := Num (inject_Z id).

(** The [i]-th parameter; a parameter left unbound is NULL. *)
Definition param (params : list value) (i : nat) : value :=
  List.nth i params Null.

(** [X LIKE P], true only when neither side is NULL *)
Definition like_value (pat subject : value) : bool :=
  match text_affinity pat, text_affinity subject with
  | Text p, Text s => like p s
  | _, _ => false
  end.

Definition user_row (u : user) : JS.value :=
  JS.Obj [("id", JS.Num (inject_Z (user_id u)));
          ("name", to_js (user_name u));
          ("email", to_js (user_email u));
          ("password", to_js (user_password u));
          ("is_admin", to_js (user_is_admin u));
          ("created_at", to_js (user_created_at u))].

Definition user_public_row (u : user) : JS.value :=
  JS.Obj [("id", JS.Num (inject_Z (user_id u)));
          ("name", to_js (user_name u));
          ("email", to_js (user_email u));
          ("is_admin", to_js (user_is_admin u));
          ("created_at", to_js (user_created_at u))].

Definition product_row (p : product) : JS.value :=
  JS.Obj [("id", JS.Num (inject_Z (product_id p)));
          ("name", to_js (product_name p));
          ("slug", to_js (product_slug p));
          ("description", to_js (product_description p));
          ("price", to_js (product_price p));
          ("rating", to_js (product_rating p));
          ("reviews", to_js (product_reviews p));
          ("colors", to_js (product_colors p));
          ("images", to_js (product_images p));
          ("category", to_js (product_category p));
          ("age_group", to_js (product_age_group p));
          ("created_at", to_js (product_created_at p))].

Definition wishlist_row (w : wishlist) (p : product) : JS.value :=
  JS.Obj [("id", JS.Num (inject_Z (wishlist_id w)));
          ("product_id", to_js (wishlist_product_id w));
          ("name", to_js (product_name p));
          ("price", to_js (product_price p));
          ("images", to_js (product_images p))].

(** The WHERE clause of the product listing: every condition true, each
    taking its parameters in order. *)
Fixpoint where_holds (cs : list condition) (params : list value) (p : product)
  : bool :=
  match cs with
  | [] => true
  | CategoryEq :: cs' =>
      eqb (text_affinity (param params 0)) (product_category p)
      && where_holds cs' (List.tl params) p
  | AgeGroupEq :: cs' =>
      eqb (text_affinity (param params 0)) (product_age_group p)
      && where_holds cs' (List.tl params) p
  | NameOrDescriptionLike :: cs' =>
      (like_value (param params 0) (product_name p)
       || like_value (param params 1) (product_description p))
      && where_holds cs' (List.tl (List.tl params)) p
  end.

Definition order_le (o : order_by) (a b : product) : bool :=
  match o with
  | PriceAsc => leb (product_price a) (product_price b)
  | PriceDesc => leb (product_price b) (product_price a)
  | CreatedAtDesc => leb (product_created_at b) (product_created_at a)
  | IdDesc => (product_id b <=? product_id a)%Z
  end.

Definition selected (db : database) (rs : list JS.value) : outcome result * database :=
  (Resolve {| rows := rs; lastID := last_rowid db; changes := 0 |}, db).

Definition changed (db : database) (n : nat) : outcome result * database :=
  (Resolve {| rows := []; lastID := last_rowid db; changes := Z.of_nat n |}, db).

Definition insert_user (admin : bool) (params : list value) (now : string)
  (db : database) : outcome result * database :=
  let name := text_affinity (param params 0) in
  let email := text_affinity (param params 1) in
  let password := text_affinity (param params 2) in
  if List.existsb (fun u => eqb email (user_email u)) (users db)
  then (Reject "SQLITE_CONSTRAINT: UNIQUE constraint failed: users.email", db)
  else
    let id := next_rowid (seq_users db) (List.map user_id (users db)) in
    let u := {| user_id := id; user_name := name; user_email := email;
                user_password := password;
                user_is_admin := Num (if admin then 1 else 0);
                user_created_at := Text now |} in
    changed {| users := users db ++ [u]; products := products db;
               wishlists := wishlists db; seq_users := id;
               seq_products := seq_products db;
               seq_wishlists := seq_wishlists db; last_rowid := id |} 1.

Definition product_of_params (id : Z) (params : list value)
  (rating reviews created_at : value) : product :=
  {| product_id := id;
     product_name := text_affinity (param params 0);
     product_slug := text_affinity (param params 1);
     product_description := text_affinity (param params 2);
     product_price := numeric_affinity (param params 3);
     product_rating := rating;
     product_reviews := reviews;
     product_colors := text_affinity (param params 4);
     product_images := text_affinity (param params 5);
     product_category := text_affinity (param params 6);
     product_age_group := text_affinity (param params 7);
     product_created_at := created_at |}.

Definition is_null (v : value) : bool :=
  match v with
  | Null => true
  | _ => false
  end.

(** The rowid of an insert is drawn before its constraints are checked.  A
    plain INSERT that fails is rolled back, counter included; a row that
    INSERT OR IGNORE skips leaves the counter on the rowid drawn for it. *)
Definition skipped_product (db : database) (id : Z) : database :=
  {| users := users db; products := products db; wishlists := wishlists db;
     seq_users := seq_users db; seq_products := id;
     seq_wishlists := seq_wishlists db; last_rowid := last_rowid db |}.

Definition insert_product (or_ignore : bool) (params : list value) (now : string)
  (db : database) : outcome result * database :=
  let id := next_rowid (seq_products db) (List.map product_id (products db)) in
  let p := product_of_params id params (Num 0) (Num 0) (Text now) in
  if is_null (product_name p)
  then if or_ignore then changed (skipped_product db id) 0
       else (Reject "SQLITE_CONSTRAINT: NOT NULL constraint failed: products.name", db)
  else if List.existsb (fun p' => eqb (product_slug p) (product_slug p')) (products db)
  then if or_ignore then changed (skipped_product db id) 0
       else (Reject "SQLITE_CONSTRAINT: UNIQUE constraint failed: products.slug", db)
  else
    changed {| users := users db; products := products db ++ [p];
               wishlists := wishlists db; seq_users := seq_users db;
               seq_products := id;
               seq_wishlists := seq_wishlists db; last_rowid := id |} 1.

Definition update_product (params : list value) (db : database)
  : outcome result * database :=
  let hit := fun p => eqb (rowid (product_id p)) (numeric_affinity (param params 8)) in
  let renew := fun p =>
    product_of_params (product_id p) params (product_rating p)
      (product_reviews p) (product_created_at p) in
  match List.filter hit (products db) with
  | [] => changed db 0
  | target :: _ =>
      if is_null (product_name (renew target))
      then (Reject "SQLITE_CONSTRAINT: NOT NULL constraint failed: products.name", db)
      else if List.existsb
                (fun p' => negb (hit p')
                           && eqb (product_slug (renew target)) (product_slug p'))
                (products db)
      then (Reject "SQLITE_CONSTRAINT: UNIQUE constraint failed: products.slug", db)
      else
        changed {| users := users db;
                   products := List.map (fun p => if hit p then renew p else p)
                                 (products db);
                   wishlists := wishlists db; seq_users := seq_users db;
                   seq_products := seq_products db;
                   seq_wishlists := seq_wishlists db;
                   last_rowid := last_rowid db |}
                (List.length (List.filter hit (products db)))
  end.

Definition delete_product (params : list value) (db : database)
  : outcome result * database :=
  let hit := fun p => eqb (rowid (product_id p)) (numeric_affinity (param params 0)) in
  changed {| users := users db;
             products := List.filter (fun p => negb (hit p)) (products db);
             wishlists := wishlists db; seq_users := seq_users db;
             seq_products := seq_products db;
             seq_wishlists := seq_wishlists db; last_rowid := last_rowid db |}
          (List.length (List.filter hit (products db))).

(** UNIQUE(user_id, product_id): a pair with a NULL never conflicts. *)
Definition same_pair (user_id product_id : value) (w : wishlist) : bool :=
  eqb user_id (wishlist_user_id w) && eqb product_id (wishlist_product_id w).

Definition skipped_wishlist (db : database) (id : Z) : database :=
  {| users := users db; products := products db; wishlists := wishlists db;
     seq_users := seq_users db; seq_products := seq_products db;
     seq_wishlists := id; last_rowid := last_rowid db |}.

Definition insert_wishlist (params : list value) (now : string) (db : database)
  : outcome result * database :=
  let user_id := numeric_affinity (param params 0) in
  let product_id := numeric_affinity (param params 1) in
  let id := next_rowid (seq_wishlists db) (List.map wishlist_id (wishlists db)) in
  if List.existsb (same_pair user_id product_id) (wishlists db)
  then changed (skipped_wishlist db id) 0
  else
    let w := {| wishlist_id := id; wishlist_user_id := user_id;
                wishlist_product_id := product_id;
                wishlist_created_at := Text now |} in
    changed {| users := users db; products := products db;
               wishlists := wishlists db ++ [w]; seq_users := seq_users db;
               seq_products := seq_products db;
               seq_wishlists := id; last_rowid := id |} 1.

Definition delete_wishlist (params : list value) (db : database)
  : outcome result * database :=
  let hit := same_pair (numeric_affinity (param params 0))
                       (numeric_affinity (param params 1)) in
  changed {| users := users db; products := products db;
             wishlists := List.filter (fun w => negb (hit w)) (wishlists db);
             seq_users := seq_users db; seq_products := seq_products db;
             seq_wishlists := seq_wishlists db; last_rowid := last_rowid db |}
          (List.length (List.filter hit (wishlists db))).

Definition select_wishlist (params : list value) (db : database) : list JS.value :=
  List.flat_map
    (fun w =>
       if eqb (numeric_affinity (param params 0)) (wishlist_user_id w)
       then List.map (wishlist_row w)
              (List.filter
                 (fun p => eqb (rowid (product_id p)) (wishlist_product_id w))
                 (products db))
       else [])
    (wishlists db).

(** One statement against the database, at time [now] (CURRENT_TIMESTAMP). *)
Definition exec (st : statement) (params : list value) (now : string)
  (db : database) : outcome result * database :=
  if (arity st <? List.length params)%nat
  then (Reject "SQLITE_RANGE: column index out of range", db)
  else
    match st with
    | SelectUserIdByEmail =>
        selected db
          (List.map (fun u => JS.Obj [("id", JS.Num (inject_Z (user_id u)))])
             (List.filter
                (fun u => eqb (text_affinity (param params 0)) (user_email u))
                (users db)))
    | SelectUserByEmail =>
        selected db
          (List.map user_row
             (List.filter
                (fun u => eqb (text_affinity (param params 0)) (user_email u))
                (users db)))
    | SelectUserById =>
        selected db
          (List.map user_public_row
             (List.filter
                (fun u => eqb (rowid (user_id u)) (numeric_affinity (param params 0)))
                (users db)))
    | InsertUser admin => insert_user admin params now db
    | SelectProducts cs o =>
        selected db
          (List.map product_row
             (sort (order_le o)
                (List.filter (where_holds cs params) (products db))))
    | SelectProductByIdOrSlug =>
        selected db
          (List.map product_row
             (List.filter
                (fun p => eqb (rowid (product_id p)) (numeric_affinity (param params 0))
                          || eqb (text_affinity (param params 1)) (product_slug p))
                (products db)))
    | InsertProduct or_ignore => insert_product or_ignore params now db
    | UpdateProduct => update_product params db
    | DeleteProduct => delete_product params db
    | SelectWishlist => selected db (select_wishlist params db)
    | InsertWishlist => insert_wishlist params now db
    | DeleteWishlist => delete_wishlist params db
    end.

End Engine.

End Sqlite.

(* ================================================================== *)
(** * [db.js] *)
(* ================================================================== *)

Section Db.
Context {L : Libs}.

Definition run_statement (sql : string) (params : list JS.value) (now : string)
  (db : Sqlite.database) : Sqlite.outcome Sqlite.result * Sqlite.database :=
  match Sqlite.prepare sql with
  | None => (Sqlite.Reject "SQLITE_ERROR", db)
  | Some st => Sqlite.exec st (List.map Sqlite.bind params) now db
  end.

(** [db.run]: resolves with the statement object ([this.lastID], [this.changes]) *)
Definition runAsync (sql : string) (params : list JS.value) (now : string)
  (db : Sqlite.database) : Sqlite.outcome JS.value * Sqlite.database :=
  match run_statement sql params now db with
  | (Sqlite.Resolve r, db') =>
      (Sqlite.Resolve
         (JS.Obj [("lastID", JS.Num (inject_Z (Sqlite.lastID r)));
                  ("changes", JS.Num (inject_Z (Sqlite.changes r)))]), db')
  | (Sqlite.Reject e, db') => (Sqlite.Reject e, db')
  end.

(** [db.all]: resolves with all the rows *)
Definition allAsync (sql : string) (params : list JS.value) (now : string)
  (db : Sqlite.database) : Sqlite.outcome (list JS.value) * Sqlite.database :=
  match run_statement sql params now db with
  | (Sqlite.Resolve r, db') => (Sqlite.Resolve (Sqlite.rows r), db')
  | (Sqlite.Reject e, db') => (Sqlite.Reject e, db')
  end.

(** [db.get]: resolves with the first row, or [undefined] *)
Definition getAsync (sql : string) (params : list JS.value) (now : string)
  (db : Sqlite.database) : Sqlite.outcome JS.value * Sqlite.database :=
  match run_statement sql params now db with
  | (Sqlite.Resolve r, db') =>
      (Sqlite.Resolve (List.hd JS.Undefined (Sqlite.rows r)), db')
  | (Sqlite.Reject e, db') => (Sqlite.Reject e, db')
  end.

End Db.

(* ================================================================== *)
(** * [server.js] *)
(* ================================================================== *)

(** ** Asynchronous code

    An [async] function runs against the database and either resolves or
    rejects; [await] sequences two of them, [try ... catch] recovers from a
    rejection.  A handler whose promise rejects outside any [try] leaves the
    request to the framework: the run ends in [Reject]. *)

Definition async (A : Type) : Type :=
  Sqlite.database -> Sqlite.outcome A * Sqlite.database.

Definition resolve {A} (a : A) : async A := fun db => (Sqlite.Resolve a, db).

Definition throw {A} (err : string) : async A := fun db => (Sqlite.Reject err, db).

Definition await {A B} (m : async A) (k : A -> async B) : async B :=
  fun db =>
    match m db with
    | (Sqlite.Resolve a, db') => k a db'
    | (Sqlite.Reject e, db') => (Sqlite.Reject e, db')
    end.

Definition try_catch {A} (m : async A) (handler : string -> async A) : async A :=
  fun db =>
    match m db with
    | (Sqlite.Resolve a, db') => (Sqlite.Resolve a, db')
    | (Sqlite.Reject e, db') => handler e db'
    end.

Notation "'let*' x ':=' m 'in' k" := (await m (fun x => k))
  (at level 10, x name, m at level 100, k at level 200).

Fixpoint for_each {A B} (f : A -> async B) (l : list A) : async (list B) :=
  match l with
  | [] => resolve []
  | x :: l' =>
      let* y := f x in
      let* ys := for_each f l' in
      resolve (y :: ys)
  end.

(** ** Requests and responses *)

Inductive method : Type := GET | POST | PUT | DELETE.

Record request : Type := {
  verb : method;
  path : list string;            (* the segments of the URL path *)
  authorization : option string; (* [req.headers.authorization] *)
  query : JS.value;              (* [req.query] *)
  body : JS.value;               (* [req.body] *)
  params : JS.value;             (* [req.params] *)
  user : JS.value                (* [req.user] *)
}.

Definition with_user (req : request) (payload : JS.value) : request :=
  {| verb := verb req; path := path req; authorization := authorization req;
     query := query req; body := body req; params := params req;
     user := payload |}.

Definition with_params (req : request) (ps : JS.value) : request :=
  {| verb := verb req; path := path req; authorization := authorization req;
     query := query req; body := body req; params := ps; user := user req |}.

(** [res.status(s).json(j)] *)
Record response : Type := {
  status : Z;
  json : JS.value
}.

Definition message (text : string) : JS.value := JS.Obj [("message", JS.Str text)].

Definition success : JS.value := JS.Obj [("success", JS.Bool true)].

(** What the process reads from its environment while it serves a request. *)
Record env : Type := {
  JWT_SECRET : string;
  clock : Z;
  CURRENT_TIMESTAMP : string;
  entropy : string
}.

(** A middleware either answers or calls [next()]. *)
Inductive step : Type :=
| Next (req : request)
| Done (res : response).

Definition stage : Type := request -> env -> async step.

Definition send (s : Z) (j : JS.value) : async step :=
  resolve (Done {| status := s; json := j |}).

Section Server.
Context {L : Libs}.

(** [bcrypt.hash(data, rounds)] and [bcrypt.compare(data, hash)] reject
    arguments that are not strings. *)
Definition bcrypt_hash (data : JS.value) (rounds : Z) (e : env) : async string :=
  match data with
  | JS.Str s => resolve (bcrypt_hash_string s rounds (entropy e))
  | _ => throw "data must be a string or Buffer and salt must either be a salt string or a number of rounds"
  end.

Definition bcrypt_compare (data hash : JS.value) : async bool :=
  match data, hash with
  | JS.Undefined, _ | JS.Null, _ | _, JS.Undefined | _, JS.Null =>
      throw "data and hash arguments required"
  | JS.Str d, JS.Str h => resolve (bcrypt_compare_string d h)
  | _, _ => throw "data and hash must be strings"
  end.

(** [const { ... } = v] throws on [undefined] and [null]. *)
Definition destructure (v : JS.value) : async JS.value :=
  match v with
  | JS.Undefined | JS.Null => throw "TypeError: Cannot destructure"
  | _ => resolve v
  end.

(** [v ? JSON.parse(v) : []] *)
Definition parse_or_empty (v : JS.value) : async JS.value :=
  if JS.truthy v
  then match JSON_parse (to_string v) with
       | Some j => resolve j
       | None => throw "SyntaxError"
       end
  else resolve (JS.Arr []).

(** *** Helper middleware *)

Definition authMiddleware : stage := fun req e =>
  match authorization req with
  | None => send 401 (message "Unauthorized")
  | Some auth =>
      if (auth =? "")%string || negb (JS.startsWith auth "Bearer ")
      then send 401 (message "Unauthorized")
      else
        let token := List.nth_error (JS.split " " auth) 1 in
        match token with
        | None => send 401 (message "Invalid token")
        | Some token =>
            match jwt_verify token (JWT_SECRET e) (clock e) with
            | Some payload => resolve (Next (with_user req payload))
            | None => send 401 (message "Invalid token")
            end
        end
  end.

Definition adminMiddleware : stage := fun req e =>
  if negb (JS.truthy (user req)) || negb (JS.truthy (JS.get "is_admin" (user req)))
  then send 403 (message "Admin only")
  else resolve (Next req).

(** *** Auth routes *)

Definition register : stage := fun req e =>
  let* b := destructure (body req) in
  let name := JS.get "name" b in
  let email := JS.get "email" b in
  let password := JS.get "password" b in
  if negb (JS.truthy email) || negb (JS.truthy password)
  then send 400 (message "Email and password required")
  else
    try_catch
      (let* exists_ := getAsync "SELECT id FROM users WHERE email = ?" [email]
                         (CURRENT_TIMESTAMP e) in
       if JS.truthy exists_ then send 400 (message "Email already registered")
       else
         let* hash := bcrypt_hash password 10 e in
         let* result := runAsync "INSERT INTO users (name, email, password) VALUES (?,?,?)"
                          [JS.or_else name (JS.Str ""); email; JS.Str hash]
                          (CURRENT_TIMESTAMP e) in
         let userId := JS.get "lastID" result in
         let token :=
           jwt_sign (JS.Obj [("id", userId); ("email", email); ("is_admin", JS.Num 0)])
             (JWT_SECRET e) "7d" (clock e) in
         send 200 (JS.Obj [("token", JS.Str token)]))
      (fun _ => send 500 (message "Server error")).

Definition login : stage := fun req e =>
  let* b := destructure (body req) in
  let email := JS.get "email" b in
  let password := JS.get "password" b in
  try_catch
    (let* user := getAsync "SELECT * FROM users WHERE email = ?" [email]
                    (CURRENT_TIMESTAMP e) in
     if negb (JS.truthy user) then send 400 (message "Invalid email/password")
     else
       let* ok := bcrypt_compare password (JS.get "password" user) in
       if negb ok then send 400 (message "Invalid email/password")
       else
         let token :=
           jwt_sign (JS.Obj [("id", JS.get "id" user);
                             ("email", JS.get "email" user);
                             ("is_admin", JS.get "is_admin" user)])
             (JWT_SECRET e) "7d" (clock e) in
         send 200 (JS.Obj [("token", JS.Str token)]))
    (fun _ => send 500 (message "Server error")).

Definition me : stage := fun req e =>
  let* user := getAsync "SELECT id, name, email, is_admin, created_at FROM users WHERE id = ?"
                 [JS.get "id" (user req)] (CURRENT_TIMESTAMP e) in
  send 200 (JS.Obj [("user", user)]).

(** *** Products *)

Definition list_products : stage := fun req e =>
  let '(sql, params) := build_products_query (query req) in
  try_catch
    (let* rows := allAsync sql params (CURRENT_TIMESTAMP e) in
     let* parsed :=
       for_each
         (fun r =>
            let* images := parse_or_empty (JS.get "images" r) in
            let* colors := parse_or_empty (JS.get "colors" r) in
            resolve (JS.set "colors" colors (JS.set "images" images r)))
         rows in
     send 200 (JS.Arr parsed))
    (fun _ => send 500 (message "Server error")).

Definition get_product : stage := fun req e =>
  let id := JS.get "id" (params req) in
  let* row := getAsync "SELECT * FROM products WHERE id = ? OR slug = ?" [id; id]
                (CURRENT_TIMESTAMP e) in
  if negb (JS.truthy row) then send 404 (message "Not found")
  else
    let* images := parse_or_empty (JS.get "images" row) in
    let row := JS.set "images" images row in
    let* colors := parse_or_empty (JS.get "colors" row) in
    let row := JS.set "colors" colors row in
    send 200 row.

(** *** Admin product CRUD *)

Definition product_params (b : JS.value) : list JS.value :=
  [JS.get "name" b; JS.get "slug" b; JS.get "description" b; JS.get "price" b;
   JS.Str (JSON_stringify (JS.or_else (JS.get "colors" b) (JS.Arr [])));
   JS.Str (JSON_stringify (JS.or_else (JS.get "images" b) (JS.Arr [])));
   JS.or_else (JS.get "category" b) (JS.Str "");
   JS.or_else (JS.get "age_group" b) (JS.Str "")].

Definition create_product : stage := fun req e =>
  let* b := destructure (body req) in
  try_catch
    (let stmt := "INSERT INTO products (name, slug, description, price, colors, images, category, age_group) VALUES (?,?,?,?,?,?,?,?)" in
     let* result := runAsync stmt (product_params b) (CURRENT_TIMESTAMP e) in
     send 200 (JS.Obj [("id", JS.get "lastID" result)]))
    (fun _ => send 500 (message "Server error")).

Definition update_product : stage := fun req e =>
  let id := JS.get "id" (params req) in
  let* b := destructure (body req) in
  try_catch
    (let* _ := runAsync "UPDATE products SET name=?, slug=?, description=?, price=?, colors=?, images=?, category=?, age_group=? WHERE id=?"
                 (product_params b ++ [id]) (CURRENT_TIMESTAMP e) in
     send 200 success)
    (fun _ => send 500 (message "Server error")).

Definition delete_product : stage := fun req e =>
  let id := JS.get "id" (params req) in
  try_catch
    (let* _ := runAsync "DELETE FROM products WHERE id = ?" [id]
                 (CURRENT_TIMESTAMP e) in
     send 200 success)
    (fun _ => send 500 (message "Server error")).

(** *** Wishlist *)

Definition list_wishlist : stage := fun req e =>
  let* rows := allAsync "SELECT w.id, w.product_id, p.name, p.price, p.images FROM wishlists w JOIN products p ON p.id = w.product_id WHERE w.user_id = ?"
                 [JS.get "id" (user req)] (CURRENT_TIMESTAMP e) in
  let* parsed :=
    for_each
      (fun r =>
         let* images := parse_or_empty (JS.get "images" r) in
         resolve (JS.Obj [("id", JS.get "id" r);
                          ("product_id", JS.get "product_id" r);
                          ("name", JS.get "name" r);
                          ("price", JS.get "price" r);
                          ("images", images)]))
      rows in
  send 200 (JS.Arr parsed).

Definition add_wishlist : stage := fun req e =>
  let* b := destructure (body req) in
  let product_id := JS.get "product_id" b in
  try_catch
    (let* _ := runAsync "INSERT OR IGNORE INTO wishlists (user_id, product_id) VALUES (?,?)"
                 [JS.get "id" (user req); product_id] (CURRENT_TIMESTAMP e) in
     send 200 success)
    (fun _ => send 500 (message "Server error")).

Definition remove_wishlist : stage := fun req e =>
  let pid := JS.get "product_id" (params req) in
  let* _ := runAsync "DELETE FROM wishlists WHERE user_id = ? AND product_id = ?"
              [JS.get "id" (user req); pid] (CURRENT_TIMESTAMP e) in
  send 200 success.

(** *** Seeded products for development (admin only) *)

Definition color (name hex : string) : JS.value :=
  JS.Obj [("name", JS.Str name); ("hex", JS.Str hex)].

Definition demo_products : list JS.value :=
  [JS.Obj [("name", JS.Str "Everest Adventure Hoodie");
           ("slug", JS.Str "everest-adventure-hoodie");
           ("description", JS.Str "Cozy hoodie built for play, with reinforced seams and soft fleece.");
           ("price", JS.Num 45);
           ("colors", JS.Arr [color "Navy" "#1f3b6f"; color "Heather Grey" "#bdbdbd";
                              color "Forest Green" "#2b6b4a"]);
           ("images", JS.Arr [JS.Str "https://images.unsplash.com/photo-1541099649105-f69ad21f3246?w=1000&q=80"]);
           ("category", JS.Str "Hoodies & Sweatshirts");
           ("age_group", JS.Str "Big Kid")];
   JS.Obj [("name", JS.Str "Cosmic Explorer Glow-in-the-Dark Tee");
           ("slug", JS.Str "cosmic-explorer-tee");
           ("description", JS.Str "Glow-in-the-dark organic tee for little astronauts.");
           ("price", JS.Num 28);
           ("colors", JS.Arr [color "Midnight Blue" "#0b2545"; color "Charcoal Grey" "#4b4b4b"]);
           ("images", JS.Arr [JS.Str "https://images.unsplash.com/photo-1541099649105-f69ad21f3246?w=900&q=80"]);
           ("category", JS.Str "Graphic Tees");
           ("age_group", JS.Str "Little Kid")]].

Definition seed_demo : stage := fun req e =>
  try_catch
    (let* _ :=
       for_each
         (fun p =>
            runAsync "INSERT OR IGNORE INTO products (name, slug, description, price, colors, images, category, age_group) VALUES (?,?,?,?,?,?,?,?)"
              [JS.get "name" p; JS.get "slug" p; JS.get "description" p;
               JS.get "price" p; JS.Str (JSON_stringify (JS.get "colors" p));
               JS.Str (JSON_stringify (JS.get "images" p));
               JS.get "category" p; JS.get "age_group" p]
              (CURRENT_TIMESTAMP e))
         demo_products in
     send 200 (JS.Obj [("seeded", JS.Bool true)]))
    (fun _ => send 500 (message "err")).

(** *** Startup: the administrator account *)

Definition bootstrap (adminEmail adminPassword : string) (e : env) : async unit :=
  let* user := getAsync "SELECT id FROM users WHERE email = ?" [JS.Str adminEmail]
                 (CURRENT_TIMESTAMP e) in
  if negb (JS.truthy user)
  then
    let* hash := bcrypt_hash (JS.Str adminPassword) 10 e in
    let* _ := runAsync "INSERT INTO users (name, email, password, is_admin) VALUES (?,?,?,1)"
                [JS.Str "Admin"; JS.Str adminEmail; JS.Str hash]
                (CURRENT_TIMESTAMP e) in
    resolve tt
  else resolve tt.

(** *** The application *)

Inductive segment : Type :=
| Lit (s : string)
| Param (name : string).

Record route : Type := {
  route_verb : method;
  route_path : list segment;
  route_stages : list stage
}.

Definition app : list route :=
  [ {| route_verb := POST; route_path := [Lit "api"; Lit "register"];
       route_stages := [register] |};
    {| route_verb := POST; route_path := [Lit "api"; Lit "login"];
       route_stages := [login] |};
    {| route_verb := GET; route_path := [Lit "api"; Lit "me"];
       route_stages := [authMiddleware; me] |};
    {| route_verb := GET; route_path := [Lit "api"; Lit "products"];
       route_stages := [list_products] |};
    {| route_verb := GET; route_path := [Lit "api"; Lit "products"; Param "id"];
       route_stages := [get_product] |};
    {| route_verb := POST; route_path := [Lit "api"; Lit "admin"; Lit "products"];
       route_stages := [authMiddleware; adminMiddleware; create_product] |};
    {| route_verb := PUT;
       route_path := [Lit "api"; Lit "admin"; Lit "products"; Param "id"];
       route_stages := [authMiddleware; adminMiddleware; update_product] |};
    {| route_verb := DELETE;
       route_path := [Lit "api"; Lit "admin"; Lit "products"; Param "id"];
       route_stages := [authMiddleware; adminMiddleware; delete_product] |};
    {| route_verb := GET; route_path := [Lit "api"; Lit "wishlist"];
       route_stages := [authMiddleware; list_wishlist] |};
    {| route_verb := POST; route_path := [Lit "api"; Lit "wishlist"];
       route_stages := [authMiddleware; add_wishlist] |};
    {| route_verb := DELETE;
       route_path := [Lit "api"; Lit "wishlist"; Param "product_id"];
       route_stages := [authMiddleware; remove_wishlist] |};
    {| route_verb := POST; route_path := [Lit "api"; Lit "admin"; Lit "seed-demo"];
       route_stages := [authMiddleware; adminMiddleware; seed_demo] |} ].

Definition method_eqb (a b : method) : bool :=
  match a, b with
  | GET, GET | POST, POST | PUT, PUT | DELETE, DELETE => true
  | _, _ => false
  end.

(** Routes are matched as express does with its default settings: without
    regard to the case of the letters A-Z, and with an optional slash at the
    end of the path.  The path of a request is its list of segments: the
    texts between the slashes, so that a slash at the end leaves an empty
    last segment. *)
Definition upper (c : ascii) : ascii :=
  let n := N_of_ascii c in
  if ((97 <=? n) && (n <=? 122))%N then ascii_of_N (n - 32) else c.

Fixpoint same_segment (a b : string) : bool :=
  match a, b with
  | EmptyString, EmptyString => true
  | String c a', String d b' => Ascii.eqb (upper c) (upper d) && same_segment a' b'
  | _, _ => false
  end.

(** The parameters a path binds when it matches a route's pattern. *)
Fixpoint match_path (pattern : list segment) (p : list string)
  : option (list (string * JS.value)) :=
  match pattern, p with
  | [], [] => Some []
  | [], x :: p' =>
      match p' with
      | [] => if (x =? "")%string then Some [] else None
      | _ :: _ => None
      end
  | Lit s :: pattern', x :: p' =>
      if same_segment s x then match_path pattern' p' else None
  | Param name :: pattern', x :: p' =>
      if (x =? "")%string then None
      else match match_path pattern' p' with
           | Some bound => Some ((name, JS.Str x) :: bound)
           | None => None
           end
  | _ :: _, [] => None
  end.

(** The stages of a route in order, each either answering or passing the
    request on; a request that falls off the end is not found. *)
Fixpoint run_stages (stages : list stage) (req : request) (e : env) : async response :=
  match stages with
  | [] => resolve {| status := 404; json := JS.Undefined |}
  | s :: rest =>
      let* r := s req e in
      match r with
      | Next req' => run_stages rest req' e
      | Done res => resolve res
      end
  end.

Fixpoint dispatch (routes : list route) (req : request) (e : env) : async response :=
  match routes with
  | [] => resolve {| status := 404; json := JS.Undefined |}
  | r :: routes' =>
      if method_eqb (route_verb r) (verb req)
      then match match_path (route_path r) (path req) with
           | Some bound => run_stages (route_stages r) (with_params req (JS.Obj bound)) e
           | None => dispatch routes' req e
           end
      else dispatch routes' req e
  end.

Definition serve (req : request) (e : env) : async response := dispatch app req e.

End Server.

(* ================================================================== *)
(** * A small instance of the packages, for concrete runs *)
(* ================================================================== *)

Module Demo.

(** A stand-in for [bcrypt]: the "hash" is the entropy, a separator and the
    data; comparison recomputes it from the text after the separator. *)
Fixpoint after_dollar (s : string) : string :=
  match s with
  | EmptyString => ""
  | String c s' => if Ascii.eqb c "$" then s' else after_dollar s'
  end.

(** Decimal digits, for texts that read as a whole number. *)
Fixpoint digits (s : string) (acc : Z) : option Z :=
  match s with
  | EmptyString => Some acc
  | String c s' =>
      let n := Z.of_N (N_of_ascii c) in
      if (48 <=? n)%Z && (n <=? 57)%Z then digits s' (10 * acc + (n - 48)) else None
  end.

Definition text_num (s : string) : option Q :=
  if (s =? "")%string then None
  else match digits s 0 with
       | Some z => Some (inject_Z z)
       | None => None
       end.

(** A stand-in for [jsonwebtoken] that knows three tokens. *)
Definition sign (payload : JS.value) (secret expiresIn : string) (now : Z) : string :=
  if JS.truthy (JS.get "is_admin" payload) then "admin.jwt" else "shopper.jwt".

Definition verify (token secret : string) (now : Z) : option JS.value :=
  if (token =? "admin.jwt")%string
  then Some (JS.Obj [("id", JS.Num 1); ("email", JS.Str "admin@caprio.com");
                     ("is_admin", JS.Num 1)])
  else if (token =? "shopper.jwt")%string
  then Some (JS.Obj [("id", JS.Num 2); ("email", JS.Str "alice@x.com");
                     ("is_admin", JS.Num 0)])
  else if (token =? "other.jwt")%string
  then Some (JS.Obj [("id", JS.Num 3); ("email", JS.Str "bob@x.com");
                     ("is_admin", JS.Num 0)])
  else None.

Definition libs : Libs := {|
  bcrypt_hash_string := fun data rounds entropy => entropy ^^ "$" ^^ data;
  bcrypt_compare_string := fun data hash => (after_dollar hash =? data)%string;
  jwt_sign := sign;
  jwt_verify := verify;
  JSON_parse := fun s => if (s =? "[]")%string then Some (JS.Arr []) else None;
  JSON_stringify := fun _ => "[]";
  number_to_string := fun _ => "0";
  sqlite_num_text := fun _ => "0";
  sqlite_text_num := text_num;
  driver_object_text := fun _ => "[object Object]"
|}.

Definition environment : env :=
  {| JWT_SECRET := "dev_secret_change_me"; clock := 1700000000;
     CURRENT_TIMESTAMP := "2023-11-14 22:13:20"; entropy := "salt" |}.

Definition request_to (v : method) (p : list string) (auth : option string)
  (q b : JS.value) : request :=
  {| verb := v; path := p; authorization := auth; query := q; body := b;
     params := JS.Obj []; user := JS.Undefined |}.

Definition tee (id : Z) (name description : string) (price : Q)
  (category created_at : string) : Sqlite.product :=
  {| Sqlite.product_id := id;
     Sqlite.product_name := Sqlite.Text name;
     Sqlite.product_slug := Sqlite.Text name;
     Sqlite.product_description := Sqlite.Text description;
     Sqlite.product_price := Sqlite.Num price;
     Sqlite.product_rating := Sqlite.Num 0;
     Sqlite.product_reviews := Sqlite.Num 0;
     Sqlite.product_colors := Sqlite.Text "[]";
     Sqlite.product_images := Sqlite.Text "[]";
     Sqlite.product_category := Sqlite.Text category;
     Sqlite.product_age_group := Sqlite.Text "Big Kid";
     Sqlite.product_created_at := Sqlite.Text created_at |}.

Definition catalog : Sqlite.database :=
  {| Sqlite.users := [];
     Sqlite.products :=
       [tee 1 "Everest Adventure Hoodie" "Cozy HOODIE built for play" 45
            "Hoodies" "2023-11-01 10:00:00";
        tee 2 "Plain tee" "Soft cotton" 28 "Tees" "2023-11-03 10:00:00";
        tee 3 "Rain jacket" "With a hood" 60 "Jackets" "2023-11-02 10:00:00"];
     Sqlite.wishlists := [];
     Sqlite.seq_users := 0; Sqlite.seq_products := 3;
     Sqlite.seq_wishlists := 0; Sqlite.last_rowid := 3 |}.

End Demo.

(* ================================================================== *)
(** * Vocabulary of the properties *)
(* ================================================================== *)

Section Vocabulary.
Context {L : Libs}.

(** The relation a boolean order decides. *)
Definition le_rel {A : Type} (le : A -> A -> bool) (a b : A) : Prop := le a b = true.

(** The routes the interface lists as requiring authentication, and those
    requiring the admin flag as well, by their paths. *)
Definition protected (r : route) : bool :=
  match route_path r with
  | Lit "api" :: Lit "me" :: _ => true
  | Lit "api" :: Lit "admin" :: _ => true
  | Lit "api" :: Lit "wishlist" :: _ => true
  | _ => false
  end.

Definition admin_only (r : route) : bool :=
  match route_path r with
  | Lit "api" :: Lit "admin" :: _ => true
  | _ => false
  end.

(** The three ways a request fails the authentication stage: no
    Authorization header, a header that is not [Bearer <token>], or a token
    that [jwt.verify] refuses. *)
Definition unauthenticated (req : request) (e : env) : Prop :=
  authorization req = None
  \/ exists auth, authorization req = Some auth
       /\ (JS.startsWith auth "Bearer " = false
           \/ forall token, List.nth_error (JS.split " " auth) 1 = Some token ->
                jwt_verify token (JWT_SECRET e) (clock e) = None).

(** The request carries a token that verifies, with these claims. *)
Definition authenticated_as (req : request) (e : env) (payload : JS.value) : Prop :=
  exists auth token,
    authorization req = Some auth
    /\ JS.startsWith auth "Bearer " = true
    /\ List.nth_error (JS.split " " auth) 1 = Some token
    /\ jwt_verify token (JWT_SECRET e) (clock e) = Some payload.

(** The first route of the table that matches, with the path parameters. *)
Fixpoint find_route (routes : list route) (v : method) (p : list string)
  : option (route * list (string * JS.value)) :=
  match routes with
  | [] => None
  | r :: routes' =>
      if method_eqb (route_verb r) v
      then match match_path (route_path r) p with
           | Some bound => Some (r, bound)
           | None => find_route routes' v p
           end
      else find_route routes' v p
  end.

(** The four admin endpoints of the interface. *)
Definition admin_endpoint (v : method) (p : list string) : Prop :=
  (v = POST /\ p = ["api"; "admin"; "products"])
  \/ (v = POST /\ p = ["api"; "admin"; "seed-demo"])
  \/ exists id, id <> "" /\ (v = PUT \/ v = DELETE)
                /\ p = ["api"; "admin"; "products"; id].

(** The stored form of an email parameter and the rows that carry it. *)
Definition stored_email (email : JS.value) : Sqlite.value :=
  Sqlite.text_affinity (Sqlite.bind email).

Definition has_email (email : JS.value) (u : Sqlite.user) : bool :=
  Sqlite.eqb (stored_email email) (Sqlite.user_email u).

Definition rows_with_email (email : JS.value) (db : Sqlite.database)
  : list Sqlite.user :=
  List.filter (has_email email) (Sqlite.users db).

(** The row a successful registration appends and the token it answers. *)
Definition registered_user (b : JS.value) (hash : string) (e : env)
  (db : Sqlite.database) : Sqlite.user :=
  {| Sqlite.user_id :=
       Sqlite.next_rowid (Sqlite.seq_users db)
         (List.map Sqlite.user_id (Sqlite.users db));
     Sqlite.user_name :=
       Sqlite.text_affinity (Sqlite.bind (JS.or_else (JS.get "name" b) (JS.Str "")));
     Sqlite.user_email := stored_email (JS.get "email" b);
     Sqlite.user_password := Sqlite.Text hash;
     Sqlite.user_is_admin := Sqlite.Num 0;
     Sqlite.user_created_at := Sqlite.Text (CURRENT_TIMESTAMP e) |}.

Definition with_new_user (db : Sqlite.database) (u : Sqlite.user) : Sqlite.database :=
  {| Sqlite.users := Sqlite.users db ++ [u];
     Sqlite.products := Sqlite.products db;
     Sqlite.wishlists := Sqlite.wishlists db;
     Sqlite.seq_users := Sqlite.user_id u;
     Sqlite.seq_products := Sqlite.seq_products db;
     Sqlite.seq_wishlists := Sqlite.seq_wishlists db;
     Sqlite.last_rowid := Sqlite.user_id u |}.

Definition registration_token (u : Sqlite.user) (email : JS.value) (e : env) : string :=
  jwt_sign (JS.Obj [("id", JS.Num (inject_Z (Sqlite.user_id u))); ("email", email);
                    ("is_admin", JS.Num 0)])
    (JWT_SECRET e) "7d" (clock e).

(** The runs of [register], by the branch taken. *)
Inductive register_run (req : request) (e : env) (db : Sqlite.database)
  : Sqlite.outcome step * Sqlite.database -> Prop :=
| register_no_body :
    body req = JS.Undefined \/ body req = JS.Null ->
    register_run req e db (Sqlite.Reject "TypeError: Cannot destructure", db)
| register_invalid :
    JS.truthy (JS.get "email" (body req)) && JS.truthy (JS.get "password" (body req))
    = false ->
    register_run req e db
      (Sqlite.Resolve
         (Done {| status := 400; json := message "Email and password required" |}), db)
| register_conflict :
    JS.truthy (JS.get "email" (body req)) = true ->
    JS.truthy (JS.get "password" (body req)) = true ->
    rows_with_email (JS.get "email" (body req)) db <> [] ->
    register_run req e db
      (Sqlite.Resolve
         (Done {| status := 400; json := message "Email already registered" |}), db)
| register_bad_password :
    JS.truthy (JS.get "email" (body req)) = true ->
    JS.truthy (JS.get "password" (body req)) = true ->
    rows_with_email (JS.get "email" (body req)) db = [] ->
    (forall s, JS.get "password" (body req) <> JS.Str s) ->
    register_run req e db
      (Sqlite.Resolve (Done {| status := 500; json := message "Server error" |}), db)
| register_created password :
    JS.truthy (JS.get "email" (body req)) = true ->
    JS.get "password" (body req) = JS.Str password ->
    password <> "" ->
    rows_with_email (JS.get "email" (body req)) db = [] ->
    let u := registered_user (body req)
               (bcrypt_hash_string password 10 (entropy e)) e db in
    register_run req e db
      (Sqlite.Resolve
         (Done {| status := 200;
                  json := JS.Obj [("token",
                            JS.Str (registration_token u (JS.get "email" (body req)) e))] |}),
       with_new_user db u).

(** The runs of [login], by the branch taken. *)
Inductive login_run (req : request) (e : env) (db : Sqlite.database)
  : Sqlite.outcome step * Sqlite.database -> Prop :=
| login_no_body :
    body req = JS.Undefined \/ body req = JS.Null ->
    login_run req e db (Sqlite.Reject "TypeError: Cannot destructure", db)
| login_unknown_email :
    rows_with_email (JS.get "email" (body req)) db = [] ->
    login_run req e db
      (Sqlite.Resolve
         (Done {| status := 400; json := message "Invalid email/password" |}), db)
| login_compare_throws u rest :
    rows_with_email (JS.get "email" (body req)) db = u :: rest ->
    (forall password hash,
        JS.get "password" (body req) = JS.Str password ->
        Sqlite.user_password u <> Sqlite.Text hash) ->
    login_run req e db
      (Sqlite.Resolve (Done {| status := 500; json := message "Server error" |}), db)
| login_wrong_password u rest password hash :
    rows_with_email (JS.get "email" (body req)) db = u :: rest ->
    JS.get "password" (body req) = JS.Str password ->
    Sqlite.user_password u = Sqlite.Text hash ->
    bcrypt_compare_string password hash = false ->
    login_run req e db
      (Sqlite.Resolve
         (Done {| status := 400; json := message "Invalid email/password" |}), db)
| login_verified u rest password hash :
    rows_with_email (JS.get "email" (body req)) db = u :: rest ->
    JS.get "password" (body req) = JS.Str password ->
    Sqlite.user_password u = Sqlite.Text hash ->
    bcrypt_compare_string password hash = true ->
    login_run req e db
      (Sqlite.Resolve
         (Done {| status := 200;
                  json := JS.Obj [("token",
                    JS.Str (jwt_sign
                              (JS.Obj [("id", JS.Num (inject_Z (Sqlite.user_id u)));
                                       ("email", Sqlite.to_js (Sqlite.user_email u));
                                       ("is_admin", Sqlite.to_js (Sqlite.user_is_admin u))])
                              (JWT_SECRET e) "7d" (clock e)))] |}), db).

(** The UNIQUE constraint on [users.email], as a property of the table. *)
Definition users_unique (db : Sqlite.database) : Prop :=
  forall v,
    (List.length (List.filter (fun u => Sqlite.eqb v (Sqlite.user_email u))
                    (Sqlite.users db)) <= 1)%nat.

(** The UNIQUE(user_id, product_id) constraint, as a property of the table. *)
Definition wishlist_unique (db : Sqlite.database) : Prop :=
  forall u p,
    (List.length (List.filter (Sqlite.same_pair u p) (Sqlite.wishlists db)) <= 1)%nat.

(** The user id of the verified claims and the product id of the body, as the
    INTEGER columns of the table store them. *)
Definition caller_id (req : request) : Sqlite.value :=
  Sqlite.numeric_affinity (Sqlite.bind (JS.get "id" (user req))).

Definition body_product (req : request) : Sqlite.value :=
  Sqlite.numeric_affinity (Sqlite.bind (JS.get "product_id" (body req))).

Definition owned_by (uid : Sqlite.value) (w : Sqlite.wishlist) : bool :=
  Sqlite.eqb uid (Sqlite.wishlist_user_id w).

Definition ok_success : response := {| status := 200; json := success |}.

(** An asynchronous computation that neither reads nor writes the database. *)
Definition pure {A} (m : async A) : Prop :=
  exists o, forall db, m db = (o, db).

(** The conditions and the order the statement text of a request spells. *)
Definition conditions_of (query : JS.value) : list Sqlite.condition :=
  (if JS.truthy (JS.get "category" query) then [Sqlite.CategoryEq] else [])
  ++ (if JS.truthy (JS.get "age_group" query) then [Sqlite.AgeGroupEq] else [])
  ++ (if JS.truthy (JS.get "q" query) then [Sqlite.NameOrDescriptionLike] else []).

Definition order_of (k : sort_key) : Sqlite.order_by :=
  match k with
  | SortPriceAsc => Sqlite.PriceAsc
  | SortPriceDesc => Sqlite.PriceDesc
  | SortNewest => Sqlite.CreatedAtDesc
  | SortDefault => Sqlite.IdDesc
  end.

(** What the WHERE clause of a request selects. *)
Definition selects (query : JS.value) (p : Sqlite.product) : bool :=
  (if JS.truthy (JS.get "category" query)
   then Sqlite.eqb (Sqlite.text_affinity (Sqlite.bind (JS.get "category" query)))
          (Sqlite.product_category p)
   else true)
  && (if JS.truthy (JS.get "age_group" query)
      then Sqlite.eqb (Sqlite.text_affinity (Sqlite.bind (JS.get "age_group" query)))
             (Sqlite.product_age_group p)
      else true)
  && (if JS.truthy (JS.get "q" query)
      then Sqlite.like_value (Sqlite.Text ("%" ^^ to_string (JS.get "q" query) ^^ "%"))
             (Sqlite.product_name p)
           || Sqlite.like_value (Sqlite.Text ("%" ^^ to_string (JS.get "q" query) ^^ "%"))
                (Sqlite.product_description p)
      else true).

(** The products a request lists, in the order it lists them. *)
Definition listed (query : JS.value) (db : Sqlite.database) : list Sqlite.product :=
  Sqlite.sort (Sqlite.order_le (order_of (sort_key_of (JS.get "sort" query))))
    (List.filter (selects query) (Sqlite.products db)).

(** The decoding of one row: [{ ...r, images: ..., colors: ... }]. *)
Definition decode_row (r : JS.value) : async JS.value :=
  let* images := parse_or_empty (JS.get "images" r) in
  let* colors := parse_or_empty (JS.get "colors" r) in
  resolve (JS.set "colors" colors (JS.set "images" images r)).

(** Containing [q] as a run of consecutive characters, letters A-Z and a-z
    compared without regard to case. *)
Fixpoint prefix_ignoring_case (q s : list N) : bool :=
  match q, s with
  | [], _ => true
  | _ :: _, [] => false
  | a :: q', b :: s' => Sqlite.same_char a b && prefix_ignoring_case q' s'
  end.

Fixpoint contains_ignoring_case (q s : list N) : bool :=
  prefix_ignoring_case q s
  || match s with
     | [] => false
     | _ :: s' => contains_ignoring_case q s'
     end.

(** Neither a LIKE wildcard nor a NUL among the bytes of [s]. *)
Fixpoint plain (s : string) : bool :=
  match s with
  | EmptyString => true
  | String c s' =>
      negb (Ascii.eqb c "%") && negb (Ascii.eqb c "_") && negb (Ascii.eqb c "000")
      && plain s'
  end.

(** A text of the characters 1 to 127 only, and such a text as the list of
    its characters. *)
Fixpoint ascii_only (s : string) : bool :=
  match s with
  | EmptyString => true
  | String c s' =>
      negb (N_of_ascii c =? 0)%N && (N_of_ascii c <? 128)%N && ascii_only s'
  end.

Fixpoint bytes (s : string) : list N :=
  match s with
  | EmptyString => []
  | String c s' => N_of_ascii c :: bytes s'
  end.

(** A filter that is absent or a string, as a query string gives it. *)
Definition text_or_absent (v : JS.value) : Prop :=
  v = JS.Undefined \/ exists s, v = JS.Str s.

(** [v LIKE '%q%'], and [v] containing [q], for a stored value: the
    characters of [q] in a row among the characters of [v], both as SQLite
    reads them, up to the first NUL. *)
Definition matches_text (q : string) (v : Sqlite.value) : bool :=
  Sqlite.like_value (Sqlite.Text ("%" ^^ q ^^ "%")) v.

Definition contains_text (q : string) (v : Sqlite.value) : bool :=
  match Sqlite.text_affinity v with
  | Sqlite.Text t => contains_ignoring_case (Sqlite.chars q) (Sqlite.chars t)
  | _ => false
  end.

(** The filters of a request, read on a product. *)
Definition satisfies (query : JS.value) (p : Sqlite.product) : Prop :=
  (forall c, JS.get "category" query = JS.Str c -> c <> "" ->
     Sqlite.product_category p = Sqlite.Text c)
  /\ (forall a, JS.get "age_group" query = JS.Str a -> a <> "" ->
        Sqlite.product_age_group p = Sqlite.Text a)
  /\ (forall s, JS.get "q" query = JS.Str s -> s <> "" ->
        matches_text s (Sqlite.product_name p) = true
        \/ matches_text s (Sqlite.product_description p) = true).

(** A row of the answer: the row of a product, [images] and [colors]
    replaced by their decodings. *)
Definition row_of (p : Sqlite.product) (r : JS.value) : Prop :=
  exists images colors,
    r = JS.set "colors" colors (JS.set "images" images (Sqlite.product_row p)).

(** A stored [images] or [colors] value the handler can decode. *)
Definition decodes (v : Sqlite.value) : Prop :=
  JS.truthy (Sqlite.to_js v) = false
  \/ exists j, JSON_parse (to_string (Sqlite.to_js v)) = Some j.

Definition stored_json_ok (db : Sqlite.database) : Prop :=
  forall p, In p (Sqlite.products db) ->
    decodes (Sqlite.product_images p) /\ decodes (Sqlite.product_colors p).

(** The order a sort key promises, on the products listed. *)
Definition ordered (k : sort_key) (ps : list Sqlite.product) : Prop :=
  match k with
  | SortPriceAsc =>
      Sorted (fun a b => Sqlite.leb (Sqlite.product_price a) (Sqlite.product_price b)
                         = true) ps
  | SortPriceDesc =>
      Sorted (fun a b => Sqlite.leb (Sqlite.product_price b) (Sqlite.product_price a)
                         = true) ps
  | SortNewest =>
      Sorted (fun a b => Sqlite.leb (Sqlite.product_created_at b)
                           (Sqlite.product_created_at a) = true) ps
  | SortDefault =>
      Sorted (fun a b => (Sqlite.product_id b <= Sqlite.product_id a)%Z) ps
  end.

(** ** Vocabulary of the further properties *)

(** How many times a character occurs in a text. *)
Fixpoint count_char (c : ascii) (s : string) : nat :=
  match s with
  | EmptyString => 0%nat
  | String d s' => ((if Ascii.eqb d c then 1 else 0) + count_char c s')%nat
  end.

(** A text with no space in it. *)
Fixpoint no_space (s : string) : bool :=
  match s with
  | EmptyString => true
  | String c s' => negb (Ascii.eqb c " ") && no_space s'
  end.

(** The same request with another Authorization header. *)
Definition with_authorization (req : request) (auth : option string) : request :=
  {| verb := verb req; path := path req; authorization := auth;
     query := query req; body := body req; params := params req;
     user := user req |}.

(** The endpoints the route table leaves open. *)
Definition public_endpoint (v : method) (p : list string) : Prop :=
  (v = POST /\ p = ["api"; "register"])
  \/ (v = POST /\ p = ["api"; "login"])
  \/ (v = GET /\ p = ["api"; "products"])
  \/ exists id, id <> "" /\ v = GET /\ p = ["api"; "products"; id].

(** The product id of the path, as the INTEGER column stores it. *)
Definition path_product (req : request) : Sqlite.value :=
  Sqlite.numeric_affinity (Sqlite.bind (JS.get "product_id" (params req))).

(** [WHERE id = ? OR slug = ?], both parameters being [id]. *)
Definition product_hit (id : JS.value) (p : Sqlite.product) : bool :=
  Sqlite.eqb (Sqlite.rowid (Sqlite.product_id p))
    (Sqlite.numeric_affinity (Sqlite.bind id))
  || Sqlite.eqb (Sqlite.text_affinity (Sqlite.bind id)) (Sqlite.product_slug p).

(** [WHERE id = ?] on the products table. *)
Definition product_with_id (id : JS.value) (p : Sqlite.product) : bool :=
  Sqlite.eqb (Sqlite.rowid (Sqlite.product_id p))
    (Sqlite.numeric_affinity (Sqlite.bind id)).

(** An asynchronous computation that keeps a property of the database. *)
Definition keeps {A} (I : Sqlite.database -> Prop) (m : async A) : Prop :=
  forall db, I db -> I (snd (m db)).

(** A stage that does not look at the Authorization header. *)
Definition ignores_authorization (h : stage) : Prop :=
  forall req auth e, h (with_authorization req auth) e = h req e.


(** The statements that only read; those that leave the products table
    alone; those that leave the stored users alone or add one who is no
    administrator. *)
Definition reads (st : Sqlite.statement) : bool :=
  match st with
  | Sqlite.SelectUserIdByEmail | Sqlite.SelectUserByEmail | Sqlite.SelectUserById
  | Sqlite.SelectProducts _ _ | Sqlite.SelectProductByIdOrSlug
  | Sqlite.SelectWishlist => true
  | _ => false
  end.

Definition spares_products (st : Sqlite.statement) : bool :=
  match st with
  | Sqlite.InsertProduct _ | Sqlite.UpdateProduct | Sqlite.DeleteProduct => false
  | _ => true
  end.

Definition spares_admins (st : Sqlite.statement) : bool :=
  match st with
  | Sqlite.InsertUser true => false
  | _ => true
  end.

(** The users table is the list [before] followed by rows without the admin
    flag. *)
Definition grown_by_shoppers (before : list Sqlite.user) (db : Sqlite.database)
  : Prop :=
  exists added,
    Sqlite.users db = before ++ added
    /\ Forall (fun u => Sqlite.user_is_admin u = Sqlite.Num 0) added.

(** The request carries a token that verifies and whose claims have the admin
    flag. *)
Definition administrator (req : request) (e : env) : Prop :=
  exists payload,
    authenticated_as req e payload
    /\ JS.truthy (JS.get "is_admin" payload) = true.


(** Two databases with the same rows in every table; the AUTOINCREMENT
    counters may differ. *)
Definition same_rows (a b : Sqlite.database) : Prop :=
  Sqlite.users a = Sqlite.users b
  /\ Sqlite.products a = Sqlite.products b
  /\ Sqlite.wishlists a = Sqlite.wishlists b.

(** A path whose first segment is not [api], in any case of its letters. *)
Definition outside_api (p : list string) : bool :=
  match p with
  | [] => true
  | first :: _ => negb (same_segment "api" first)
  end.


(** A character that is no wildcard. *)
Definition literal (c : N) : bool := (negb (c =? 37) && negb (c =? 95))%N.

End Vocabulary.

(* ================================================================== *)
(** * Properties of the catalog query builder *)
(* ================================================================== *)

Section QueryBuilderFacts.
Context {L : Libs}.

Lemma build_products_query_params (query : JS.value) :
  snd (build_products_query query) = filter_values query.
Proof.
  unfold build_products_query, filter_values, push.
  destruct (JS.truthy (JS.get "category" query));
    destruct (JS.truthy (JS.get "age_group" query));
    destruct (JS.truthy (JS.get "q" query)); reflexivity.
Qed.

Lemma build_products_query_text (query1 query2 : JS.value) :
  query_shape query1 = query_shape query2 ->
  fst (build_products_query query1) = fst (build_products_query query2).
Proof.
  unfold query_shape, sort_key_of, build_products_query, push.
  intros H. injection H as Hc Ha Hq Hs.
  rewrite Hc, Ha, Hq.
  destruct (JS.truthy (JS.get "category" query2));
    destruct (JS.truthy (JS.get "age_group" query2));
    destruct (JS.truthy (JS.get "q" query2)); cbn [fst List.length Nat.eqb negb app];
    destruct (JS.is_string (JS.get "sort" query1) "price_asc"),
             (JS.is_string (JS.get "sort" query2) "price_asc"),
             (JS.is_string (JS.get "sort" query1) "price_desc"),
             (JS.is_string (JS.get "sort" query2) "price_desc"),
             (JS.is_string (JS.get "sort" query1) "newest"),
             (JS.is_string (JS.get "sort" query2) "newest");
    (discriminate Hs || reflexivity).
Qed.

End QueryBuilderFacts.

(** C1. The statement text of the product listing depends only on which
    filters the request carries and on which order clause its [sort] selects:
    two requests with the same shape produce the same text, whatever their
    filter values; the values themselves (category, age_group and the two
    wildcard-wrapped copies of q) are exactly the bound parameter list. *)
Theorem products_query_text_independent_of_values :
  forall (L : Libs) (query1 query2 : JS.value),
    query_shape query1 = query_shape query2 ->
    fst (build_products_query query1) = fst (build_products_query query2)
    /\ snd (build_products_query query1) = filter_values query1
    /\ snd (build_products_query query2) = filter_values query2.
Proof.
  intros L query1 query2 Hshape.
  split; [apply build_products_query_text; exact Hshape|].
  split; apply build_products_query_params.
Qed.

Lemma products_query_text_independent_of_values_witness :
  let benign := JS.Obj [("category", JS.Str "Tees"); ("q", JS.Str "hood")] in
  let hostile := JS.Obj [("category", JS.Str "x' OR '1'='1");
                         ("q", JS.Str "'; DROP TABLE users; --");
                         ("sort", JS.Str "id; DELETE FROM products")] in
  query_shape benign = query_shape hostile
  /\ fst (build_products_query (L := Demo.libs) hostile)
     = "SELECT * FROM products WHERE category = ? AND (name LIKE ? OR description LIKE ?) ORDER BY id DESC"
  /\ snd (build_products_query (L := Demo.libs) hostile)
     = [JS.Str "x' OR '1'='1"; JS.Str "%'; DROP TABLE users; --%";
        JS.Str "%'; DROP TABLE users; --%"].
Proof.
  intros benign hostile.
  split; [reflexivity|].
  pose proof (products_query_text_independent_of_values Demo.libs benign hostile
                eq_refl) as [Htext [_ Hparams]].
  split.
  - rewrite <- Htext. reflexivity.
  - rewrite Hparams. reflexivity.
Defined.

(* ================================================================== *)
(** * Properties of the access guard *)
(* ================================================================== *)

Section GuardFacts.
Context {L : Libs}.

Lemma authMiddleware_rejects (req : request) (e : env) (db : Sqlite.database) :
  unauthenticated req e ->
  exists text,
    authMiddleware req e db
    = (Sqlite.Resolve (Done {| status := 401; json := message text |}), db).
Proof.
  unfold unauthenticated, authMiddleware.
  intros [Hnone | (auth & Hauth & Hbad)].
  - rewrite Hnone. eexists; reflexivity.
  - rewrite Hauth.
    destruct (String.eqb auth "") eqn:Hempty; [eexists; reflexivity|].
    destruct (JS.startsWith auth "Bearer ") eqn:Hpre; cbn [negb orb].
    + destruct Hbad as [Hbad | Hbad]; [discriminate|].
      destruct (List.nth_error (JS.split " " auth) 1) as [token|] eqn:Htok;
        [|eexists; reflexivity].
      rewrite (Hbad token eq_refl). eexists; reflexivity.
    + eexists; reflexivity.
Qed.

Lemma authMiddleware_accepts (req : request) (e : env) (db : Sqlite.database)
  (payload : JS.value) :
  authenticated_as req e payload ->
  authMiddleware req e db = (Sqlite.Resolve (Next (with_user req payload)), db).
Proof.
  unfold authenticated_as, authMiddleware.
  intros (auth & token & Hauth & Hpre & Htok & Hok).
  rewrite Hauth.
  destruct (String.eqb auth "") eqn:Hempty.
  - apply String.eqb_eq in Hempty. subst auth. discriminate Hpre.
  - rewrite Hpre, Htok, Hok. reflexivity.
Qed.

Lemma adminMiddleware_rejects (req : request) (e : env) (db : Sqlite.database) :
  JS.truthy (JS.get "is_admin" (user req)) = false ->
  adminMiddleware req e db
  = (Sqlite.Resolve (Done {| status := 403; json := message "Admin only" |}), db).
Proof.
  unfold adminMiddleware. intros ->.
  rewrite Bool.orb_true_r. reflexivity.
Qed.

Lemma run_stages_cons (s : stage) (rest : list stage) (req : request) (e : env)
  (db : Sqlite.database) :
  run_stages (s :: rest) req e db
  = match s req e db with
    | (Sqlite.Resolve (Next req'), db') => run_stages rest req' e db'
    | (Sqlite.Resolve (Done res), db') => (Sqlite.Resolve res, db')
    | (Sqlite.Reject err, db') => (Sqlite.Reject err, db')
    end.
Proof.
  cbn [run_stages]. unfold await.
  destruct (s req e db) as [[[req'|res]|err] db']; reflexivity.
Qed.

(** Failing the authentication stage answers 401 whatever follows it. *)
Lemma auth_stage_stops (rest : list stage) (req : request) (e : env)
  (db : Sqlite.database) :
  unauthenticated req e ->
  exists text,
    run_stages (authMiddleware :: rest) req e db
    = (Sqlite.Resolve {| status := 401; json := message text |}, db).
Proof.
  intros H. destruct (authMiddleware_rejects req e db H) as [text Heq].
  exists text. rewrite run_stages_cons, Heq. reflexivity.
Qed.

Lemma auth_stage_passes (rest : list stage) (req : request) (e : env)
  (db : Sqlite.database) (payload : JS.value) :
  authenticated_as req e payload ->
  run_stages (authMiddleware :: rest) req e db
  = run_stages rest (with_user req payload) e db.
Proof.
  intros H. rewrite run_stages_cons, (authMiddleware_accepts req e db payload H).
  reflexivity.
Qed.

(** A verified token without the admin flag answers 403 whatever follows
    the two stages. *)
Lemma admin_stage_stops (rest : list stage) (req : request) (e : env)
  (db : Sqlite.database) (payload : JS.value) :
  authenticated_as req e payload ->
  JS.truthy (JS.get "is_admin" payload) = false ->
  run_stages (authMiddleware :: adminMiddleware :: rest) req e db
  = (Sqlite.Resolve {| status := 403; json := message "Admin only" |}, db).
Proof.
  intros Hauth Hflag.
  rewrite (auth_stage_passes _ req e db payload Hauth).
  rewrite run_stages_cons, adminMiddleware_rejects by exact Hflag.
  reflexivity.
Qed.

(** The claims the server signs for a user who is not an administrator, at
    registration and at login, lack the admin flag. *)
Lemma issued_claims_lack_admin_flag :
  (forall id email,
      JS.truthy (JS.get "is_admin"
                   (JS.Obj [("id", id); ("email", email); ("is_admin", JS.Num 0)]))
      = false)
  /\ (forall u,
        Sqlite.user_is_admin u = Sqlite.Num 0 ->
        JS.truthy (JS.get "is_admin"
                     (JS.Obj [("id", JS.get "id" (Sqlite.user_row u));
                              ("email", JS.get "email" (Sqlite.user_row u));
                              ("is_admin", JS.get "is_admin" (Sqlite.user_row u))]))
        = false).
Proof.
  split; [reflexivity|]. intros u Hu. cbn. rewrite Hu. reflexivity.
Qed.

End GuardFacts.

(** ** Routing *)

Section RoutingFacts.
Context {L : Libs}.

Lemma dispatch_find_route (routes : list route) (req : request) (e : env) :
  dispatch routes req e
  = match find_route routes (verb req) (path req) with
    | Some (r, bound) =>
        run_stages (route_stages r) (with_params req (JS.Obj bound)) e
    | None => resolve {| status := 404; json := JS.Undefined |}
    end.
Proof.
  induction routes as [|r routes IH]; [reflexivity|].
  cbn [dispatch find_route].
  destruct (method_eqb (route_verb r) (verb req)); [|exact IH].
  destruct (match_path (route_path r) (path req)); [reflexivity|exact IH].
Qed.

Lemma find_admin_route (v : method) (p : list string) :
  admin_endpoint v p ->
  exists handler bound r,
    find_route app v p = Some (r, bound)
    /\ route_stages r = [authMiddleware; adminMiddleware; handler].
Proof.
  intros [[-> ->] | [[-> ->] | (id & Hid & Hv & ->)]].
  - do 3 eexists. split; reflexivity.
  - do 3 eexists. split; reflexivity.
  - apply String.eqb_neq in Hid.
    destruct Hv as [-> | ->]; do 3 eexists;
      (split; [cbn; rewrite Hid; reflexivity | reflexivity]).
Qed.

End RoutingFacts.

(** C6. On every protected route the authentication stage comes first.  A
    request with no Authorization header, with a header that does not begin
    with [Bearer ], or with a token that fails verification is answered 401
    with the database untouched, and this whatever stages follow the guard:
    the handler does not run.  On a valid token the stages that follow run on
    the request with the verified claims attached as [req.user]. *)
Theorem auth_gate :
  forall (L : Libs) (r : route),
    In r app -> protected r = true ->
    exists handlers,
      route_stages r = authMiddleware :: handlers
      /\ (forall req e db,
            unauthenticated req e ->
            (exists text,
                run_stages (route_stages r) req e db
                = (Sqlite.Resolve {| status := 401; json := message text |}, db))
            /\ (forall rest, exists text,
                   run_stages (authMiddleware :: rest) req e db
                   = (Sqlite.Resolve {| status := 401; json := message text |}, db)))
      /\ (forall req e db payload,
            authenticated_as req e payload ->
            user (with_user req payload) = payload
            /\ run_stages (route_stages r) req e db
               = run_stages handlers (with_user req payload) e db).
Proof.
  intros L r Hin Hprot.
  assert (Hshape : exists handlers, route_stages r = authMiddleware :: handlers).
  { cbn in Hin.
    repeat (destruct Hin as [<- | Hin];
            [first [discriminate Hprot | eexists; reflexivity]|]).
    destruct Hin. }
  destruct Hshape as [handlers Hshape].
  exists handlers. split; [exact Hshape|]. split.
  - intros req e db Hbad. split.
    + rewrite Hshape. apply auth_stage_stops. exact Hbad.
    + intros rest. apply auth_stage_stops. exact Hbad.
  - intros req e db payload Hok. split; [reflexivity|].
    rewrite Hshape. apply auth_stage_passes. exact Hok.
Qed.

Lemma auth_gate_witness :
  let wishlist_route :=
    {| route_verb := POST; route_path := [Lit "api"; Lit "wishlist"];
       route_stages := [authMiddleware (L := Demo.libs);
                        add_wishlist (L := Demo.libs)] |} in
  let forged := Demo.request_to POST ["api"; "wishlist"] (Some "Bearer forged.jwt")
                  (JS.Obj []) (JS.Obj [("product_id", JS.Num 2)]) in
  In wishlist_route (app (L := Demo.libs))
  /\ protected wishlist_route = true
  /\ unauthenticated (L := Demo.libs) forged Demo.environment
  /\ exists text,
       run_stages (route_stages wishlist_route) forged Demo.environment Demo.catalog
       = (Sqlite.Resolve {| status := 401; json := message text |}, Demo.catalog).
Proof.
  intros wishlist_route forged.
  assert (Hin : In wishlist_route (app (L := Demo.libs))).
  { do 9 right. left. reflexivity. }
  assert (Hbad : unauthenticated (L := Demo.libs) forged Demo.environment).
  { right. exists "Bearer forged.jwt". split; [reflexivity|].
    right. intros token Htok. injection Htok as <-. reflexivity. }
  split; [exact Hin|]. split; [reflexivity|]. split; [exact Hbad|].
  destruct (auth_gate Demo.libs wishlist_route Hin eq_refl)
    as (handlers & _ & Hstop & _).
  exact (proj1 (Hstop forged Demo.environment Demo.catalog Hbad)).
Defined.

(** C2. A request to one of the four admin endpoints that carries a valid
    token whose claims lack the admin flag is answered 403 with the database
    untouched; the answer is the same whatever stages follow the two guards,
    so the handler does not run; and every admin route of the application is
    made of the two guards followed by its handler. *)
Theorem admin_gate :
  forall (L : Libs) (req : request) (e : env) (db : Sqlite.database)
         (payload : JS.value),
    admin_endpoint (verb req) (path req) ->
    authenticated_as req e payload ->
    JS.truthy (JS.get "is_admin" payload) = false ->
    serve req e db
    = (Sqlite.Resolve {| status := 403; json := message "Admin only" |}, db)
    /\ (forall rest ps,
          run_stages (authMiddleware :: adminMiddleware :: rest)
            (with_params req ps) e db
          = (Sqlite.Resolve {| status := 403; json := message "Admin only" |}, db))
    /\ (forall r, In r app -> admin_only r = true ->
          exists handler,
            route_stages r = [authMiddleware; adminMiddleware; handler]).
Proof.
  intros L req e db payload Hroute Hauth Hflag.
  split; [|split].
  - unfold serve. rewrite dispatch_find_route.
    destruct (find_admin_route _ _ Hroute) as (handler & bound & r & Hfind & Hst).
    rewrite Hfind, Hst.
    apply admin_stage_stops with (payload := payload); assumption.
  - intros rest ps.
    apply admin_stage_stops with (payload := payload); assumption.
  - intros r Hin Hadmin. cbn in Hin.
    repeat (destruct Hin as [<- | Hin];
            [first [discriminate Hadmin | eexists; reflexivity]|]).
    destruct Hin.
Qed.

Lemma admin_gate_witness :
  let shopper := Demo.request_to DELETE ["api"; "admin"; "products"; "2"]
                   (Some "Bearer shopper.jwt") (JS.Obj []) (JS.Obj []) in
  admin_endpoint (verb shopper) (path shopper)
  /\ serve (L := Demo.libs) shopper Demo.environment Demo.catalog
     = (Sqlite.Resolve {| status := 403; json := message "Admin only" |},
        Demo.catalog).
Proof.
  intros shopper.
  assert (Hroute : admin_endpoint (verb shopper) (path shopper)).
  { right. right. exists "2". split; [discriminate|]. split; [right|]; reflexivity. }
  assert (Hauth : authenticated_as (L := Demo.libs) shopper Demo.environment
                    (JS.Obj [("id", JS.Num 2); ("email", JS.Str "alice@x.com");
                             ("is_admin", JS.Num 0)])).
  { exists "Bearer shopper.jwt", "shopper.jwt". repeat split. }
  split; [exact Hroute|].
  exact (proj1 (admin_gate Demo.libs shopper Demo.environment Demo.catalog _
                  Hroute Hauth eq_refl)).
Defined.

(* ================================================================== *)
(** * Properties of the storage engine *)
(* ================================================================== *)

Section StorageFacts.

Lemma eqb_refl (v : Sqlite.value) : v <> Sqlite.Null -> Sqlite.eqb v v = true.
Proof.
  destruct v as [|n|s]; cbn; intros H.
  - congruence.
  - apply Qeq_bool_refl.
  - apply String.eqb_refl.
Qed.

Lemma eqb_sym (a b : Sqlite.value) : Sqlite.eqb a b = Sqlite.eqb b a.
Proof.
  destruct a, b; cbn; try reflexivity.
  - apply Qeq_bool_comm.
  - apply String.eqb_sym.
Qed.

Lemma eqb_trans (a b c : Sqlite.value) :
  Sqlite.eqb a b = true -> Sqlite.eqb b c = true -> Sqlite.eqb a c = true.
Proof.
  destruct a, b, c; cbn; try discriminate.
  - apply Qeq_bool_trans.
  - intros H1 H2. apply String.eqb_eq in H1, H2. subst. apply String.eqb_refl.
Qed.

Lemma same_pair_refl (u p : Sqlite.value) (w : Sqlite.wishlist) :
  u <> Sqlite.Null -> p <> Sqlite.Null ->
  Sqlite.wishlist_user_id w = u -> Sqlite.wishlist_product_id w = p ->
  Sqlite.same_pair u p w = true.
Proof.
  intros Hu Hp Hwu Hwp. unfold Sqlite.same_pair.
  rewrite Hwu, Hwp, !eqb_refl by assumption. reflexivity.
Qed.

Lemma users_unique_empty : users_unique Sqlite.empty.
Proof. intros v. cbn. lia. Qed.

Lemma wishlist_unique_empty : wishlist_unique Sqlite.empty.
Proof. intros u p. cbn. lia. Qed.

Lemma filter_length_le {A} (f g : A -> bool) (l : list A) :
  (List.length (List.filter f (List.filter g l)) <= List.length (List.filter f l))%nat.
Proof.
  induction l as [|x l IH]; cbn [List.filter List.length]; [lia|].
  destruct (g x); cbn [List.filter]; destruct (f x); cbn [List.length]; lia.
Qed.

Lemma filter_none {A} (f : A -> bool) (l : list A) :
  (forall x, In x l -> f x = false) -> List.filter f l = [].
Proof.
  induction l as [|x l IH]; cbn; intros H; [reflexivity|].
  rewrite (H x) by (left; reflexivity). apply IH. intros y Hy. apply H. right. exact Hy.
Qed.

Lemma fold_left_max_ge (ids : list Z) (seq : Z) :
  (seq <= List.fold_left Z.max ids seq)%Z
  /\ forall id, In id ids -> (id <= List.fold_left Z.max ids seq)%Z.
Proof.
  revert seq. induction ids as [|x ids IH]; intros seq; cbn.
  - split; [lia | intros id []].
  - destruct (IH (Z.max seq x)) as [Hseq Hin]. split; [lia|].
    intros id [<- | Hid]; [lia | apply Hin; exact Hid].
Qed.

Lemma next_rowid_fresh (seq : Z) (ids : list Z) :
  (seq < Sqlite.next_rowid seq ids)%Z
  /\ forall id, In id ids -> (id < Sqlite.next_rowid seq ids)%Z.
Proof.
  unfold Sqlite.next_rowid. destruct (fold_left_max_ge ids seq) as [Hseq Hin].
  split; [lia|]. intros id Hid. specialize (Hin id Hid). lia.
Qed.

Section WithLibs.
Context {L : Libs}.

Lemma insert_wishlist_unique (params : list Sqlite.value) (now : string)
  (db : Sqlite.database) :
  wishlist_unique db ->
  wishlist_unique (snd (Sqlite.insert_wishlist params now db)).
Proof.
  intros Huniq. unfold Sqlite.insert_wishlist.
  destruct (List.existsb _ (Sqlite.wishlists db)) eqn:Hex; [exact Huniq|].
  intros u p. cbn [snd Sqlite.changed Sqlite.wishlists].
  rewrite List.filter_app, List.length_app. cbn [List.filter].
  match goal with |- context [Sqlite.same_pair u p ?w] => set (new := w) end.
  destruct (Sqlite.same_pair u p new) eqn:Hnew; cbn [List.length]; [|specialize (Huniq u p); lia].
  rewrite filter_none; [cbn; lia|].
  intros w Hw. destruct (Sqlite.same_pair u p w) eqn:Hpair; [|reflexivity].
  exfalso.
  assert (Hold : Sqlite.same_pair (Sqlite.wishlist_user_id new)
                   (Sqlite.wishlist_product_id new) w = true).
  { unfold Sqlite.same_pair in *.
    apply Bool.andb_true_iff in Hnew, Hpair.
    destruct Hnew as [Hnu Hnp], Hpair as [Hwu Hwp].
    apply Bool.andb_true_iff. split.
    - apply eqb_trans with (b := u); [rewrite eqb_sym; exact Hnu | exact Hwu].
    - apply eqb_trans with (b := p); [rewrite eqb_sym; exact Hnp | exact Hwp]. }
  assert (Hfound : List.existsb
                     (Sqlite.same_pair (Sqlite.wishlist_user_id new)
                        (Sqlite.wishlist_product_id new)) (Sqlite.wishlists db) = true).
  { apply List.existsb_exists. exists w. split; assumption. }
  subst new. cbn [Sqlite.wishlist_user_id Sqlite.wishlist_product_id] in Hfound.
  rewrite Hfound in Hex. discriminate Hex.
Qed.

Lemma delete_wishlist_unique (params : list Sqlite.value) (db : Sqlite.database) :
  wishlist_unique db ->
  wishlist_unique (snd (Sqlite.delete_wishlist params db)).
Proof.
  intros Huniq u p. cbn [Sqlite.delete_wishlist snd Sqlite.changed Sqlite.wishlists].
  etransitivity; [apply filter_length_le | apply Huniq].
Qed.

Lemma insert_user_unique (admin : bool) (params : list Sqlite.value) (now : string)
  (db : Sqlite.database) :
  users_unique db ->
  users_unique (snd (Sqlite.insert_user admin params now db)).
Proof.
  intros Huniq. unfold Sqlite.insert_user.
  destruct (List.existsb _ (Sqlite.users db)) eqn:Hex; [exact Huniq|].
  intros v. cbn [snd Sqlite.changed Sqlite.users].
  rewrite List.filter_app, List.length_app. cbn [List.filter Sqlite.user_email].
  destruct (Sqlite.eqb v (Sqlite.text_affinity (Sqlite.param params 1))) eqn:Hnew;
    cbn [List.length]; [|specialize (Huniq v); lia].
  rewrite filter_none; [cbn; lia|].
  intros u Hu. destruct (Sqlite.eqb v (Sqlite.user_email u)) eqn:Hv; [|reflexivity].
  exfalso.
  assert (Hfound : List.existsb
                     (fun u' => Sqlite.eqb (Sqlite.text_affinity (Sqlite.param params 1))
                                  (Sqlite.user_email u')) (Sqlite.users db) = true).
  { apply List.existsb_exists. exists u. split; [exact Hu|].
    apply eqb_trans with (b := v); [rewrite eqb_sym; exact Hnew | exact Hv]. }
  rewrite Hfound in Hex. discriminate Hex.
Qed.

(** Every statement of the server keeps the two constraints. *)
Lemma exec_users_unique (st : Sqlite.statement) (params : list Sqlite.value)
  (now : string) (db : Sqlite.database) :
  users_unique db ->
  users_unique (snd (Sqlite.exec st params now db)).
Proof.
  intros Huniq. unfold Sqlite.exec.
  destruct (Nat.ltb _ _); [exact Huniq|].
  destruct st; try exact Huniq.
  - apply insert_user_unique. exact Huniq.
  - unfold Sqlite.insert_product.
    destruct (Sqlite.is_null _); [destruct or_ignore; exact Huniq|].
    destruct (List.existsb _ _); [destruct or_ignore; exact Huniq|]. exact Huniq.
  - unfold Sqlite.update_product.
    destruct (List.filter _ _); [exact Huniq|].
    destruct (Sqlite.is_null _); [exact Huniq|].
    destruct (List.existsb _ _); exact Huniq.
  - unfold Sqlite.insert_wishlist. destruct (List.existsb _ _); exact Huniq.
Qed.

Lemma exec_wishlist_unique (st : Sqlite.statement) (params : list Sqlite.value)
  (now : string) (db : Sqlite.database) :
  wishlist_unique db ->
  wishlist_unique (snd (Sqlite.exec st params now db)).
Proof.
  intros Huniq. unfold Sqlite.exec.
  destruct (Nat.ltb _ _); [exact Huniq|].
  destruct st; try exact Huniq.
  - unfold Sqlite.insert_user. destruct (List.existsb _ _); exact Huniq.
  - unfold Sqlite.insert_product.
    destruct (Sqlite.is_null _); [destruct or_ignore; exact Huniq|].
    destruct (List.existsb _ _); [destruct or_ignore; exact Huniq|]. exact Huniq.
  - unfold Sqlite.update_product.
    destruct (List.filter _ _); [exact Huniq|].
    destruct (Sqlite.is_null _); [exact Huniq|].
    destruct (List.existsb _ _); exact Huniq.
  - apply insert_wishlist_unique. exact Huniq.
  - apply delete_wishlist_unique. exact Huniq.
Qed.

End WithLibs.

End StorageFacts.

(* ================================================================== *)
(** * Properties of the credential store *)
(* ================================================================== *)

Section CredentialFacts.
Context {L : Libs}.

Lemma getAsync_user_id (email : JS.value) (now : string) (db : Sqlite.database) :
  getAsync "SELECT id FROM users WHERE email = ?" [email] now db
  = (Sqlite.Resolve
       (List.hd JS.Undefined
          (List.map (fun u => JS.Obj [("id", JS.Num (inject_Z (Sqlite.user_id u)))])
             (rows_with_email email db))), db).
Proof. reflexivity. Qed.

Lemma getAsync_user (email : JS.value) (now : string) (db : Sqlite.database) :
  getAsync "SELECT * FROM users WHERE email = ?" [email] now db
  = (Sqlite.Resolve
       (List.hd JS.Undefined (List.map Sqlite.user_row (rows_with_email email db))),
     db).
Proof. reflexivity. Qed.

Lemma runAsync_insert_user (name email password : JS.value) (now : string)
  (db : Sqlite.database) :
  runAsync "INSERT INTO users (name, email, password) VALUES (?,?,?)"
    [name; email; password] now db
  = match Sqlite.insert_user false
            [Sqlite.bind name; Sqlite.bind email; Sqlite.bind password] now db with
    | (Sqlite.Resolve r, db') =>
        (Sqlite.Resolve
           (JS.Obj [("lastID", JS.Num (inject_Z (Sqlite.lastID r)));
                    ("changes", JS.Num (inject_Z (Sqlite.changes r)))]), db')
    | (Sqlite.Reject err, db') => (Sqlite.Reject err, db')
    end.
Proof. reflexivity. Qed.

Lemma existsb_filter_nil {A} (f : A -> bool) (l : list A) :
  List.existsb f l = false <-> List.filter f l = [].
Proof.
  induction l as [|x l IH]; cbn; [tauto|].
  destruct (f x); cbn; [split; discriminate | exact IH].
Qed.

Lemma truthy_first_row {A} (row : A -> list (string * JS.value)) (l : list A) :
  JS.truthy (List.hd JS.Undefined (List.map (fun x => JS.Obj (row x)) l))
  = negb (Nat.eqb (List.length l) 0).
Proof. destruct l; reflexivity. Qed.

Lemma destructure_object (v : JS.value) (db : Sqlite.database) :
  v <> JS.Undefined -> v <> JS.Null ->
  destructure v db = (Sqlite.Resolve v, db).
Proof. destruct v; intros H1 H2; try reflexivity; congruence. Qed.

Lemma register_cases (req : request) (e : env) (db : Sqlite.database) :
  register_run req e db (register req e db).
Proof.
  destruct (body req) eqn:Hb;
    try (unfold register, await; rewrite Hb; cbn [destructure throw];
         apply register_no_body; auto; fail).
  all: unfold register, await;
    rewrite destructure_object by (rewrite Hb; discriminate).
  all: destruct (JS.truthy (JS.get "email" (body req))) eqn:Hemail;
    [|apply register_invalid; rewrite Hemail; reflexivity].
  all: destruct (JS.truthy (JS.get "password" (body req))) eqn:Hpw;
    [|apply register_invalid; rewrite Hemail, Hpw; reflexivity].
  all: cbn [negb orb]; unfold try_catch, await.
  all: rewrite getAsync_user_id, truthy_first_row.
  all: destruct (rows_with_email (JS.get "email" (body req)) db) eqn:Hrows;
    [|apply register_conflict; auto; rewrite Hrows; discriminate].
  all: cbn [List.length Nat.eqb negb].
  all: destruct (JS.get "password" (body req)) as [| |pb|pn|ps|pa|po] eqn:Hpass;
    try (apply register_bad_password;
         [exact Hemail | rewrite Hpass; exact Hpw | exact Hrows
         | rewrite Hpass; discriminate]).
  all: cbn [bcrypt_hash resolve].
  all: rewrite runAsync_insert_user; unfold Sqlite.insert_user.
  all: cbn [Sqlite.param List.nth].
  all: apply existsb_filter_nil in Hrows; unfold has_email, stored_email in Hrows.
  all: rewrite Hrows.
  all: assert (Hne : ps <> "") by (intros ->; discriminate Hpw).
  all: exact (register_created req e db ps Hemail Hpass Hne
                (proj1 (existsb_filter_nil _ _) Hrows)).
Qed.

End CredentialFacts.

Section RegistrationFacts.
Context {L : Libs}.

(** A present email is stored as a non-NULL value, equal to itself. *)
Lemma stored_email_refl (email : JS.value) :
  JS.truthy email = true ->
  Sqlite.eqb (stored_email email) (stored_email email) = true.
Proof.
  unfold stored_email.
  destruct email as [| |b|n|s|items|props]; cbn; try discriminate; intros _;
    apply String.eqb_refl.
Qed.

Lemma rows_with_email_new_user (email : JS.value) (db : Sqlite.database)
  (u : Sqlite.user) :
  JS.truthy email = true ->
  rows_with_email email db = [] ->
  Sqlite.user_email u = stored_email email ->
  rows_with_email email (with_new_user db u) = [u].
Proof.
  intros Htruthy Hnone Hu.
  unfold rows_with_email in *. cbn [with_new_user Sqlite.users].
  rewrite List.filter_app, Hnone. cbn [List.filter app].
  unfold has_email. rewrite Hu, stored_email_refl by exact Htruthy. reflexivity.
Qed.

(** After a registration request that carries an email and a password, the
    table holds exactly one row for the email: the one it found or the one it
    created. *)
Lemma first_registration_stores (req : request) (e : env) (db : Sqlite.database)
  (password : string) :
  users_unique db ->
  JS.truthy (JS.get "email" (body req)) = true ->
  JS.get "password" (body req) = JS.Str password ->
  password <> "" ->
  List.length (rows_with_email (JS.get "email" (body req)) (snd (register req e db)))
  = 1%nat.
Proof.
  intros Huniq Hemail Hpw Hne.
  assert (Htruthy : JS.truthy (JS.get "password" (body req)) = true).
  { rewrite Hpw. cbn. apply Bool.negb_true_iff. apply String.eqb_neq. exact Hne. }
  pose proof (register_cases req e db) as Hcase.
  inversion Hcase as [Hbody Heq | Hbad Heq | H1 H2 Hrows Heq | H1 H2 Hrows H3 Heq
                     | pw H1 H2 H3 Hrows u Heq]; cbn [snd].
  - exfalso.
    destruct Hbody as [Hb | Hb]; rewrite Hb in Hemail; discriminate Hemail.
  - exfalso. rewrite Hemail, Htruthy in Hbad. discriminate Hbad.
  - specialize (Huniq (stored_email (JS.get "email" (body req)))).
    unfold rows_with_email, has_email in *.
    destruct (List.filter _ (Sqlite.users db)) as [|u' rest]; [congruence|].
    cbn [List.length] in *. lia.
  - exfalso. exact (H3 password Hpw).
  - rewrite (rows_with_email_new_user _ db u Hemail Hrows eq_refl). reflexivity.
Qed.

End RegistrationFacts.

(** C9. Whatever the request body holds, a registration either leaves the
    users table as it is or appends one row whose [is_admin] is 0, and a
    token is answered only with claims whose [is_admin] is 0. *)
Theorem registration_never_creates_admin :
  forall (L : Libs) (req : request) (e : env) (db db' : Sqlite.database)
         (out : Sqlite.outcome step),
    register req e db = (out, db') ->
    (Sqlite.users db' = Sqlite.users db
     \/ exists u, Sqlite.users db' = Sqlite.users db ++ [u]
                  /\ Sqlite.user_is_admin u = Sqlite.Num 0)
    /\ (forall res, out = Sqlite.Resolve (Done res) ->
          (status res = 200 /\
           exists id email,
             json res
             = JS.Obj [("token",
                 JS.Str (jwt_sign (JS.Obj [("id", id); ("email", email);
                                           ("is_admin", JS.Num 0)])
                           (JWT_SECRET e) "7d" (clock e)))])
          \/ (status res <> 200 /\ exists text, json res = message text)).
Proof.
  intros L req e db db' out Hrun.
  pose proof (register_cases req e db) as Hcase. rewrite Hrun in Hcase.
  inversion Hcase; subst; (split; [|intros res Hres; inversion Hres; subst; clear Hres]).
  all: try (left; reflexivity).
  all: try (right; split; [discriminate | eexists; reflexivity]).
  - right. eexists. split; reflexivity.
  - left. split; [reflexivity|]. do 2 eexists. reflexivity.
Qed.

Lemma registration_never_creates_admin_witness :
  let eager := Demo.request_to POST ["api"; "register"] None (JS.Obj [])
                 (JS.Obj [("name", JS.Str "Mallory"); ("email", JS.Str "m@x.com");
                          ("password", JS.Str "pw123456");
                          ("is_admin", JS.Num 1)]) in
  let run := register (L := Demo.libs) eager Demo.environment Demo.catalog in
  List.map Sqlite.user_is_admin (Sqlite.users (snd run)) = [Sqlite.Num 0]
  /\ (Sqlite.users (snd run) = Sqlite.users Demo.catalog
      \/ exists u, Sqlite.users (snd run) = Sqlite.users Demo.catalog ++ [u]
                   /\ Sqlite.user_is_admin u = Sqlite.Num 0).
Proof.
  intros eager run.
  split; [reflexivity|].
  exact (proj1 (registration_never_creates_admin Demo.libs eager Demo.environment
                  Demo.catalog (snd run) (fst run) eq_refl)).
Defined.

(** C5, as the code has it.  Two registration requests with the same email,
    the first carrying a password (a non-empty string), on a users table
    whose emails are unique: the second is answered 400 without a token and
    leaves the database as the first left it, with [Email already registered]
    when it carries a password and with [Email and password required] when it
    does not; the users table then holds exactly one row for that email. *)
Theorem second_registration_conflicts :
  forall (L : Libs) (req1 req2 : request) (e1 e2 : env) (db : Sqlite.database)
         (password1 : string),
    users_unique db ->
    JS.truthy (JS.get "email" (body req1)) = true ->
    JS.get "password" (body req1) = JS.Str password1 ->
    password1 <> "" ->
    JS.get "email" (body req2) = JS.get "email" (body req1) ->
    let db1 := snd (register req1 e1 db) in
    exists text,
      register req2 e2 db1
      = (Sqlite.Resolve (Done {| status := 400; json := message text |}), db1)
      /\ (JS.truthy (JS.get "password" (body req2)) = true ->
          text = "Email already registered")
      /\ (JS.truthy (JS.get "password" (body req2)) = false ->
          text = "Email and password required")
      /\ List.length (rows_with_email (JS.get "email" (body req1)) db1) = 1%nat.
Proof.
  intros L req1 req2 e1 e2 db password1 Huniq Hemail Hpw1 Hne Hsame db1.
  pose proof (first_registration_stores req1 e1 db password1 Huniq Hemail Hpw1 Hne)
    as Hone.
  fold db1 in Hone.
  pose proof (register_cases req2 e2 db1) as Hcase.
  assert (Hrows2 : rows_with_email (JS.get "email" (body req2)) db1 <> []).
  { rewrite Hsame. intros Hnil. rewrite Hnil in Hone. discriminate Hone. }
  rewrite <- Hsame in Hemail.
  inversion Hcase as [Hbody Heq | Hbad Heq | H1 H2 Hrows Heq | H1 H2 Hrows H3 Heq
                     | pw H1 H2 H3 Hrows u Heq].
  - exfalso.
    destruct Hbody as [Hb | Hb]; rewrite Hb in Hemail; discriminate Hemail.
  - rewrite Hemail in Hbad. cbn [andb] in Hbad.
    exists "Email and password required".
    split; [reflexivity|]. split; [|split].
    + intros Hpw. rewrite Hpw in Hbad. discriminate Hbad.
    + reflexivity.
    + exact Hone.
  - exists "Email already registered".
    split; [reflexivity|]. split; [|split].
    + reflexivity.
    + intros Hpw. rewrite Hpw in H2. discriminate H2.
    + exact Hone.
  - exfalso. exact (Hrows2 Hrows).
  - exfalso. exact (Hrows2 Hrows).
Qed.

Lemma second_registration_conflicts_witness :
  let first := Demo.request_to POST ["api"; "register"] None (JS.Obj [])
                 (JS.Obj [("name", JS.Str "Alice"); ("email", JS.Str "alice@x.com");
                          ("password", JS.Str "pw123456")]) in
  let second := Demo.request_to POST ["api"; "register"] None (JS.Obj [])
                  (JS.Obj [("email", JS.Str "alice@x.com");
                           ("password", JS.Str "another")]) in
  let db1 := snd (register (L := Demo.libs) first Demo.environment Demo.catalog) in
  users_unique Demo.catalog
  /\ fst (register (L := Demo.libs) first Demo.environment Demo.catalog)
     = Sqlite.Resolve
         (Done {| status := 200; json := JS.Obj [("token", JS.Str "shopper.jwt")] |})
  /\ exists text,
       register (L := Demo.libs) second Demo.environment db1
       = (Sqlite.Resolve (Done {| status := 400; json := message text |}), db1)
       /\ (JS.truthy (JS.get "password" (body second)) = true ->
           text = "Email already registered")
       /\ (JS.truthy (JS.get "password" (body second)) = false ->
           text = "Email and password required")
       /\ List.length (rows_with_email (L := Demo.libs)
                         (JS.get "email" (body first)) db1) = 1%nat.
Proof.
  intros first second db1.
  assert (Huniq : users_unique Demo.catalog) by (intros v; cbn; lia).
  split; [exact Huniq|]. split; [reflexivity|].
  apply (second_registration_conflicts Demo.libs first second Demo.environment
           Demo.environment Demo.catalog "pw123456" Huniq).
  - reflexivity.
  - reflexivity.
  - discriminate.
  - reflexivity.
Defined.

(** C5 as stated fails: a registration request without a password is refused
    and stores nothing, so a second request with the same email and a password
    is answered 200 with a token. *)
Lemma registration_after_refused_attempt_succeeds :
  let first := Demo.request_to POST ["api"; "register"] None (JS.Obj [])
                 (JS.Obj [("email", JS.Str "alice@x.com")]) in
  let second := Demo.request_to POST ["api"; "register"] None (JS.Obj [])
                  (JS.Obj [("email", JS.Str "alice@x.com");
                           ("password", JS.Str "pw123456")]) in
  let run1 := register (L := Demo.libs) first Demo.environment Sqlite.empty in
  let run2 := register (L := Demo.libs) second Demo.environment (snd run1) in
  JS.get "email" (body first) = JS.get "email" (body second)
  /\ fst run1
     = Sqlite.Resolve
         (Done {| status := 400; json := message "Email and password required" |})
  /\ fst run2
     = Sqlite.Resolve
         (Done {| status := 200; json := JS.Obj [("token", JS.Str "shopper.jwt")] |})
  /\ ~ (exists text,
          fst run2
          = Sqlite.Resolve (Done {| status := 400; json := message text |})).
Proof.
  intros first second run1 run2.
  split; [reflexivity|]. split; [reflexivity|]. split; [reflexivity|].
  intros [text H]. discriminate H.
Qed.

Section LoginFacts.
Context {L : Libs}.

Lemma login_cases (req : request) (e : env) (db : Sqlite.database) :
  login_run req e db (login req e db).
Proof.
  destruct (body req) eqn:Hb;
    try (unfold login, await; rewrite Hb; cbn [destructure throw];
         apply login_no_body; auto; fail).
  all: unfold login, await;
    rewrite destructure_object by (rewrite Hb; discriminate).
  all: unfold try_catch, await; rewrite getAsync_user.
  all: destruct (rows_with_email (JS.get "email" (body req)) db) as [|u rest] eqn:Hrows;
    [apply login_unknown_email; exact Hrows|].
  all: cbn [List.map List.hd Sqlite.user_row JS.truthy negb JS.get JS.assoc String.eqb
            Ascii.eqb Bool.eqb].
  all: destruct (JS.get "password" (body req)) as [| |pb|pn|pw|pa|po] eqn:Hpass;
    destruct (Sqlite.user_password u) as [|hn|hash] eqn:Hhash;
    cbn [Sqlite.to_js bcrypt_compare throw resolve send];
    try (apply (login_compare_throws req e db u rest Hrows);
         intros password hash' Hp Hh; congruence).
  all: destruct (bcrypt_compare_string pw hash) eqn:Hcmp; cbn [negb].
  all: first [ exact (login_verified req e db u rest pw hash Hrows Hpass Hhash Hcmp)
             | exact (login_wrong_password req e db u rest pw hash Hrows Hpass Hhash Hcmp) ].
Qed.

End LoginFacts.

(** C7, where the code departs from it.  A login request for a stored email
    whose password is missing (or is not a string) is not answered 400:
    [bcrypt.compare] rejects its arguments, the [catch] clause answers 500
    [Server error].  No token is issued and the database is untouched. *)
Theorem login_without_password_is_server_error :
  forall (L : Libs) (req : request) (e : env) (db : Sqlite.database)
         (u : Sqlite.user) (rest : list Sqlite.user),
    rows_with_email (JS.get "email" (body req)) db = u :: rest ->
    (forall password, JS.get "password" (body req) <> JS.Str password) ->
    login req e db
    = (Sqlite.Resolve (Done {| status := 500; json := message "Server error" |}), db).
Proof.
  intros L req e db u rest Hrows Hpw.
  pose proof (login_cases req e db) as Hcase.
  inversion Hcase as [Hbody Heq | Hnone Heq | u' rest' Hrows' Hthrow Heq
                     | u' rest' pw hash Hrows' Hpass Hhash Hcmp Heq
                     | u' rest' pw hash Hrows' Hpass Hhash Hcmp Heq].
  - exfalso. unfold rows_with_email in Hrows.
    assert (Hin : In u (List.filter (has_email (JS.get "email" (body req)))
                          (Sqlite.users db))) by (rewrite Hrows; left; reflexivity).
    apply List.filter_In in Hin. destruct Hin as [_ Hhas].
    destruct Hbody as [Hb | Hb]; rewrite Hb in Hhas; discriminate Hhas.
  - rewrite Hnone in Hrows. discriminate Hrows.
  - reflexivity.
  - exfalso. exact (Hpw pw Hpass).
  - exfalso. exact (Hpw pw Hpass).
Qed.

Lemma login_without_password_is_server_error_witness :
  let db := snd (register (L := Demo.libs)
                   (Demo.request_to POST ["api"; "register"] None (JS.Obj [])
                      (JS.Obj [("email", JS.Str "alice@x.com");
                               ("password", JS.Str "pw123456")]))
                   Demo.environment Sqlite.empty) in
  let attempt := Demo.request_to POST ["api"; "login"] None (JS.Obj [])
                   (JS.Obj [("email", JS.Str "alice@x.com")]) in
  List.length (rows_with_email (L := Demo.libs) (JS.get "email" (body attempt)) db)
  = 1%nat
  /\ JS.get "password" (body attempt) = JS.Undefined
  /\ login (L := Demo.libs) attempt Demo.environment db
     = (Sqlite.Resolve (Done {| status := 500; json := message "Server error" |}), db).
Proof.
  intros db attempt.
  split; [reflexivity|]. split; [reflexivity|].
  apply (login_without_password_is_server_error Demo.libs attempt Demo.environment db
           {| Sqlite.user_id := 1; Sqlite.user_name := Sqlite.Text "";
              Sqlite.user_email := Sqlite.Text "alice@x.com";
              Sqlite.user_password := Sqlite.Text "salt$pw123456";
              Sqlite.user_is_admin := Sqlite.Num 0;
              Sqlite.user_created_at := Sqlite.Text "2023-11-14 22:13:20" |} []).
  - reflexivity.
  - intros password H. discriminate H.
Defined.

(** The part of C7 the code does satisfy: a login is answered with a token
    exactly when the email selects a stored user and the password is a string
    that [bcrypt] matches against that user's stored hash. *)
Lemma login_issues_token_iff (L : Libs) (req : request) (e : env)
  (db : Sqlite.database) :
  (exists res db', login req e db = (Sqlite.Resolve (Done res), db')
                   /\ status res = 200)
  <-> (exists u rest password hash,
          rows_with_email (JS.get "email" (body req)) db = u :: rest
          /\ JS.get "password" (body req) = JS.Str password
          /\ Sqlite.user_password u = Sqlite.Text hash
          /\ bcrypt_compare_string password hash = true).
Proof.
  pose proof (login_cases req e db) as Hcase. split.
  - intros (res & db' & Hrun & Hstatus). rewrite Hrun in Hcase.
    inversion Hcase; subst; try discriminate Hstatus.
    do 4 eexists. repeat split; eassumption.
  - intros (u & rest & password & hash & Hrows & Hpass & Hhash & Hcmp).
    inversion Hcase as [Hbody Heq | Hnone Heq | u' rest' Hrows' Hthrow Heq
                       | u' rest' pw h Hrows' Hpass' Hhash' Hcmp' Heq
                       | u' rest' pw h Hrows' Hpass' Hhash' Hcmp' Heq].
    + exfalso. unfold rows_with_email in Hrows.
      assert (Hin : In u (List.filter (has_email (JS.get "email" (body req)))
                            (Sqlite.users db))) by (rewrite Hrows; left; reflexivity).
      apply List.filter_In in Hin. destruct Hin as [_ Hhas].
      destruct Hbody as [Hb | Hb]; rewrite Hb in Hhas; discriminate Hhas.
    + rewrite Hnone in Hrows. discriminate Hrows.
    + exfalso. rewrite Hrows in Hrows'. injection Hrows' as <- <-.
      exact (Hthrow password hash Hpass Hhash).
    + exfalso. rewrite Hrows in Hrows'. injection Hrows' as <- <-.
      congruence.
    + do 2 eexists. split; reflexivity.
Qed.

(* ================================================================== *)
(** * Properties of the wishlist *)
(* ================================================================== *)

Section WishlistFacts.
Context {L : Libs}.

Lemma body_product_needs_body (req : request) :
  body_product req <> Sqlite.Null ->
  body req <> JS.Undefined /\ body req <> JS.Null.
Proof.
  unfold body_product. intros H.
  split; intros Hb; rewrite Hb in H; apply H; reflexivity.
Qed.

Lemma runAsync_insert_wishlist (uid pid : JS.value) (now : string)
  (db : Sqlite.database) :
  runAsync "INSERT OR IGNORE INTO wishlists (user_id, product_id) VALUES (?,?)"
    [uid; pid] now db
  = match Sqlite.insert_wishlist [Sqlite.bind uid; Sqlite.bind pid] now db with
    | (Sqlite.Resolve r, db') =>
        (Sqlite.Resolve
           (JS.Obj [("lastID", JS.Num (inject_Z (Sqlite.lastID r)));
                    ("changes", JS.Num (inject_Z (Sqlite.changes r)))]), db')
    | (Sqlite.Reject err, db') => (Sqlite.Reject err, db')
    end.
Proof. reflexivity. Qed.

Lemma allAsync_select_wishlist (uid : JS.value) (now : string) (db : Sqlite.database) :
  allAsync "SELECT w.id, w.product_id, p.name, p.price, p.images FROM wishlists w JOIN products p ON p.id = w.product_id WHERE w.user_id = ?"
    [uid] now db
  = (Sqlite.Resolve (Sqlite.select_wishlist [Sqlite.bind uid] db), db).
Proof. reflexivity. Qed.

Lemma insert_wishlist_resolves (params : list Sqlite.value) (now : string)
  (db : Sqlite.database) :
  exists r, Sqlite.insert_wishlist params now db
            = (Sqlite.Resolve r, snd (Sqlite.insert_wishlist params now db)).
Proof.
  unfold Sqlite.insert_wishlist.
  destruct (List.existsb _ _); eexists; reflexivity.
Qed.

(** [add_wishlist] with a body: always answered [success]; the database is
    the one the INSERT OR IGNORE leaves, with the caller's id from the token
    as its first parameter. *)
Lemma add_wishlist_run (req : request) (e : env) (db : Sqlite.database) :
  body req <> JS.Undefined -> body req <> JS.Null ->
  add_wishlist req e db
  = (Sqlite.Resolve (Done ok_success),
     snd (Sqlite.insert_wishlist
            [Sqlite.bind (JS.get "id" (user req));
             Sqlite.bind (JS.get "product_id" (body req))]
            (CURRENT_TIMESTAMP e) db)).
Proof.
  intros H1 H2. unfold add_wishlist, await.
  rewrite destructure_object by assumption.
  unfold try_catch, await. rewrite runAsync_insert_wishlist.
  destruct (insert_wishlist_resolves
              [Sqlite.bind (JS.get "id" (user req));
               Sqlite.bind (JS.get "product_id" (body req))]
              (CURRENT_TIMESTAMP e) db) as [r Hr].
  rewrite Hr. reflexivity.
Qed.

Lemma add_wishlist_no_body (req : request) (e : env) (db : Sqlite.database) :
  body req = JS.Undefined \/ body req = JS.Null ->
  snd (add_wishlist req e db) = db.
Proof.
  intros [H | H]; unfold add_wishlist, await; rewrite H; reflexivity.
Qed.

Lemma remove_wishlist_run (req : request) (e : env) (db : Sqlite.database) :
  remove_wishlist req e db
  = (Sqlite.Resolve (Done ok_success),
     snd (Sqlite.delete_wishlist
            [Sqlite.bind (JS.get "id" (user req));
             Sqlite.bind (JS.get "product_id" (params req))] db)).
Proof. reflexivity. Qed.

Lemma existsb_filter_length {A} (f : A -> bool) (l : list A) :
  List.existsb f l = true -> (1 <= List.length (List.filter f l))%nat.
Proof.
  intros H. destruct (List.filter f l) eqn:Hf; [|cbn; lia].
  apply existsb_filter_nil in Hf. congruence.
Qed.

(** After INSERT OR IGNORE of a pair without NULL, the table holds exactly
    one row for it. *)
Lemma insert_wishlist_count (params : list Sqlite.value) (now : string)
  (db : Sqlite.database) :
  let u := Sqlite.numeric_affinity (Sqlite.param params 0) in
  let p := Sqlite.numeric_affinity (Sqlite.param params 1) in
  u <> Sqlite.Null -> p <> Sqlite.Null -> wishlist_unique db ->
  List.length
    (List.filter (Sqlite.same_pair u p)
       (Sqlite.wishlists (snd (Sqlite.insert_wishlist params now db)))) = 1%nat.
Proof.
  intros u p Hu Hp Huniq. unfold Sqlite.insert_wishlist. fold u p.
  destruct (List.existsb (Sqlite.same_pair u p) (Sqlite.wishlists db)) eqn:Hex.
  - cbn [snd Sqlite.changed Sqlite.skipped_wishlist Sqlite.wishlists].
    apply existsb_filter_length in Hex.
    specialize (Huniq u p). lia.
  - cbn [snd Sqlite.changed Sqlite.wishlists].
    rewrite List.filter_app, (proj1 (existsb_filter_nil _ _) Hex).
    cbn [List.filter app]. rewrite same_pair_refl by (assumption || reflexivity).
    reflexivity.
Qed.

(** An INSERT OR IGNORE of a pair that is stored skips the row and leaves
    the counter on the rowid it drew. *)
Lemma insert_wishlist_present (params : list Sqlite.value) (now : string)
  (db : Sqlite.database) :
  List.existsb
    (Sqlite.same_pair (Sqlite.numeric_affinity (Sqlite.param params 0))
       (Sqlite.numeric_affinity (Sqlite.param params 1))) (Sqlite.wishlists db) = true ->
  snd (Sqlite.insert_wishlist params now db)
  = Sqlite.skipped_wishlist db
      (Sqlite.next_rowid (Sqlite.seq_wishlists db)
         (List.map Sqlite.wishlist_id (Sqlite.wishlists db))).
Proof. unfold Sqlite.insert_wishlist. intros ->. reflexivity. Qed.

End WishlistFacts.

(** C8. Adding the same (user, product) pair twice: both requests are
    answered [success], the second adds, removes and changes no row of any
    table, and the wishlists table holds exactly one row for the pair.  What
    the second request does leave behind is the AUTOINCREMENT counter of the
    wishlists table, moved past the rowid drawn for the row it skipped.  The
    user id is the one of the verified claims, the product id the one of the
    body; the table satisfies its UNIQUE constraint to begin with. *)
Theorem wishlist_add_idempotent :
  forall (L : Libs) (req1 req2 : request) (e1 e2 : env) (db : Sqlite.database),
    wishlist_unique db ->
    caller_id req1 <> Sqlite.Null ->
    body_product req1 <> Sqlite.Null ->
    caller_id req2 = caller_id req1 ->
    body_product req2 = body_product req1 ->
    let run1 := add_wishlist req1 e1 db in
    let run2 := add_wishlist req2 e2 (snd run1) in
    fst run1 = Sqlite.Resolve (Done ok_success)
    /\ fst run2 = Sqlite.Resolve (Done ok_success)
    /\ same_rows (snd run2) (snd run1)
    /\ (Sqlite.seq_wishlists (snd run1) < Sqlite.seq_wishlists (snd run2))%Z
    /\ List.length
         (List.filter (Sqlite.same_pair (caller_id req1) (body_product req1))
            (Sqlite.wishlists (snd run2))) = 1%nat.
Proof.
  intros L req1 req2 e1 e2 db Huniq Hu Hp Hu2 Hp2 run1 run2.
  destruct (body_product_needs_body req1 Hp) as [Hb1 Hb1'].
  assert (Hp' : body_product req2 <> Sqlite.Null) by (rewrite Hp2; exact Hp).
  destruct (body_product_needs_body req2 Hp') as [Hb2 Hb2'].
  pose proof (insert_wishlist_count
                [Sqlite.bind (JS.get "id" (user req1));
                 Sqlite.bind (JS.get "product_id" (body req1))]
                (CURRENT_TIMESTAMP e1) db Hu Hp Huniq) as Hcount.
  cbn [Sqlite.param List.nth] in Hcount.
  fold (caller_id req1) (body_product req1) in Hcount.
  assert (Hdb1 : snd run1
                 = snd (Sqlite.insert_wishlist
                          [Sqlite.bind (JS.get "id" (user req1));
                           Sqlite.bind (JS.get "product_id" (body req1))]
                          (CURRENT_TIMESTAMP e1) db)).
  { subst run1. rewrite add_wishlist_run by assumption. reflexivity. }
  rewrite <- Hdb1 in Hcount.
  assert (Hdb2 : snd run2
                 = Sqlite.skipped_wishlist (snd run1)
                     (Sqlite.next_rowid (Sqlite.seq_wishlists (snd run1))
                        (List.map Sqlite.wishlist_id (Sqlite.wishlists (snd run1))))).
  { subst run2. rewrite add_wishlist_run by assumption. cbn [snd].
    apply insert_wishlist_present. cbn [Sqlite.param List.nth].
    fold (caller_id req2) (body_product req2). rewrite Hu2, Hp2.
    destruct (List.existsb _ _) eqn:Hex; [reflexivity|].
    apply existsb_filter_nil in Hex. rewrite Hex in Hcount. discriminate Hcount. }
  split; [subst run1; rewrite add_wishlist_run by assumption; reflexivity|].
  split; [subst run2; rewrite add_wishlist_run by assumption; reflexivity|].
  rewrite Hdb2. cbn [Sqlite.skipped_wishlist Sqlite.seq_wishlists Sqlite.wishlists].
  split; [split; [|split]; reflexivity|]. split; [|exact Hcount].
  exact (proj1 (next_rowid_fresh _ _)).
Qed.

Lemma wishlist_add_idempotent_witness :
  let shopper := JS.Obj [("id", JS.Num 2); ("email", JS.Str "alice@x.com");
                         ("is_admin", JS.Num 0)] in
  let add := with_user
               (Demo.request_to POST ["api"; "wishlist"] (Some "Bearer shopper.jwt")
                  (JS.Obj []) (JS.Obj [("product_id", JS.Num 3)]))
               shopper in
  let run1 := add_wishlist (L := Demo.libs) add Demo.environment Demo.catalog in
  let run2 := add_wishlist (L := Demo.libs) add Demo.environment (snd run1) in
  wishlist_unique Demo.catalog
  /\ caller_id (L := Demo.libs) add = Sqlite.Num 2
  /\ body_product (L := Demo.libs) add = Sqlite.Num 3
  /\ fst run1 = Sqlite.Resolve (Done ok_success)
  /\ fst run2 = Sqlite.Resolve (Done ok_success)
  /\ same_rows (snd run2) (snd run1)
  /\ (Sqlite.seq_wishlists (snd run1) < Sqlite.seq_wishlists (snd run2))%Z
  /\ List.length
       (List.filter (Sqlite.same_pair (Sqlite.Num 2) (Sqlite.Num 3))
          (Sqlite.wishlists (snd run2))) = 1%nat.
Proof.
  intros shopper add run1 run2.
  assert (Huniq : wishlist_unique Demo.catalog) by (intros u p; cbn; lia).
  split; [exact Huniq|]. split; [reflexivity|]. split; [reflexivity|].
  apply (wishlist_add_idempotent Demo.libs add add Demo.environment Demo.environment
           Demo.catalog Huniq).
  - discriminate.
  - discriminate.
  - reflexivity.
  - reflexivity.
Defined.

Section IsolationFacts.
Context {L : Libs}.

Lemma pure_resolve {A} (a : A) : pure (resolve a).
Proof. exists (Sqlite.Resolve a). reflexivity. Qed.

Lemma pure_throw {A} (err : string) : pure (throw (A := A) err).
Proof. exists (Sqlite.Reject err). reflexivity. Qed.

Lemma pure_await {A B} (m : async A) (k : A -> async B) :
  pure m -> (forall a, pure (k a)) -> pure (await m k).
Proof.
  intros [o Hm] Hk. destruct o as [a|err].
  - destruct (Hk a) as [o' Hk']. exists o'. intros db.
    unfold await. rewrite Hm. apply Hk'.
  - exists (Sqlite.Reject err). intros db. unfold await. rewrite Hm. reflexivity.
Qed.

Lemma pure_for_each {A B} (f : A -> async B) (l : list A) :
  (forall x, pure (f x)) -> pure (for_each f l).
Proof.
  intros Hf. induction l as [|x l IH]; cbn [for_each].
  - apply pure_resolve.
  - apply pure_await; [apply Hf|]. intros y.
    apply pure_await; [exact IH|]. intros ys. apply pure_resolve.
Qed.

Lemma pure_parse_or_empty (v : JS.value) : pure (parse_or_empty v).
Proof.
  unfold parse_or_empty. destruct (JS.truthy v); [|apply pure_resolve].
  destruct (JSON_parse (to_string v)); [apply pure_resolve | apply pure_throw].
Qed.

(** The wishlist query reads the wishlists table through the caller's rows
    only. *)
Lemma select_wishlist_own (params : list Sqlite.value) (db : Sqlite.database) :
  Sqlite.select_wishlist params db
  = List.flat_map
      (fun w =>
         List.map (Sqlite.wishlist_row w)
           (List.filter
              (fun p => Sqlite.eqb (Sqlite.rowid (Sqlite.product_id p))
                          (Sqlite.wishlist_product_id w))
              (Sqlite.products db)))
      (List.filter
         (owned_by (Sqlite.numeric_affinity (Sqlite.param params 0)))
         (Sqlite.wishlists db)).
Proof.
  unfold Sqlite.select_wishlist, owned_by.
  induction (Sqlite.wishlists db) as [|w ws IH]; [reflexivity|].
  cbn [List.flat_map List.filter]. rewrite IH.
  destruct (Sqlite.eqb _ (Sqlite.wishlist_user_id w)); reflexivity.
Qed.

(** [list_wishlist] leaves the database as it is, and its answer is a
    function of the rows the query selects. *)
Lemma list_wishlist_run (req : request) (e : env) :
  exists answer : list JS.value -> Sqlite.outcome step,
    forall db,
      list_wishlist req e db
      = (answer (Sqlite.select_wishlist [Sqlite.bind (JS.get "id" (user req))] db), db).
Proof.
  assert (Hrest : forall rows : list JS.value,
             pure (let* parsed :=
                     for_each
                       (fun r =>
                          let* images := parse_or_empty (JS.get "images" r) in
                          resolve (JS.Obj [("id", JS.get "id" r);
                                           ("product_id", JS.get "product_id" r);
                                           ("name", JS.get "name" r);
                                           ("price", JS.get "price" r);
                                           ("images", images)]))
                       rows in
                   send 200 (JS.Arr parsed))).
  { intros rows. apply pure_await.
    - apply pure_for_each. intros r. apply pure_await.
      + apply pure_parse_or_empty.
      + intros images. apply pure_resolve.
    - intros parsed. apply pure_resolve. }
  unfold pure in Hrest.
  (* choose the answer row list by row list *)
  exists (fun rows =>
            fst ((let* parsed :=
                    for_each
                      (fun r =>
                         let* images := parse_or_empty (JS.get "images" r) in
                         resolve (JS.Obj [("id", JS.get "id" r);
                                          ("product_id", JS.get "product_id" r);
                                          ("name", JS.get "name" r);
                                          ("price", JS.get "price" r);
                                          ("images", images)]))
                      rows in
                  send 200 (JS.Arr parsed)) Sqlite.empty)).
  intros db. unfold list_wishlist. unfold await at 1.
  rewrite allAsync_select_wishlist.
  destruct (Hrest (Sqlite.select_wishlist [Sqlite.bind (JS.get "id" (user req))] db))
    as [o Ho].
  rewrite (Ho db), (Ho Sqlite.empty). reflexivity.
Qed.

Lemma filter_filter_disjoint {A} (f g : A -> bool) (l : list A) :
  (forall x, f x = true -> g x = true) ->
  List.filter (fun x => negb (g x)) (List.filter (fun x => negb (f x)) l)
  = List.filter (fun x => negb (g x)) l.
Proof.
  intros Hfg. induction l as [|x l IH]; [reflexivity|].
  cbn [List.filter]. destruct (f x) eqn:Hf; cbn [negb List.filter].
  - rewrite (Hfg x Hf). cbn [negb]. exact IH.
  - rewrite IH. reflexivity.
Qed.

End IsolationFacts.

Section IsolationProofs.
Context {L : Libs}.

Lemma filter_filter_sub {A} (f g : A -> bool) (l : list A) :
  (forall x, g x = true -> f x = true) ->
  List.filter g (List.filter f l) = List.filter g l.
Proof.
  intros Hgf. induction l as [|x l IH]; [reflexivity|].
  cbn [List.filter]. destruct (f x) eqn:Hf; cbn [List.filter].
  - rewrite IH. reflexivity.
  - destruct (g x) eqn:Hg; [|exact IH].
    rewrite (Hgf x Hg) in Hf. discriminate Hf.
Qed.

(** A row of another user is not a row of the caller. *)
Lemma other_user_not_mine (uid other : Sqlite.value) (w : Sqlite.wishlist) :
  Sqlite.eqb uid other = false ->
  owned_by other w = true -> negb (owned_by uid w) = true.
Proof.
  unfold owned_by. intros Hdiff Hother.
  destruct (Sqlite.eqb uid (Sqlite.wishlist_user_id w)) eqn:Hmine; [|reflexivity].
  exfalso. rewrite eqb_sym in Hother.
  rewrite (eqb_trans _ _ _ Hmine Hother) in Hdiff. discriminate Hdiff.
Qed.

Lemma others_to_other_user (uid other : Sqlite.value) (ws ws' : list Sqlite.wishlist) :
  Sqlite.eqb uid other = false ->
  List.filter (fun w => negb (owned_by uid w)) ws'
  = List.filter (fun w => negb (owned_by uid w)) ws ->
  List.filter (owned_by other) ws' = List.filter (owned_by other) ws.
Proof.
  intros Hdiff Hothers.
  rewrite <- (filter_filter_sub (fun w => negb (owned_by uid w)) (owned_by other) ws'),
          <- (filter_filter_sub (fun w => negb (owned_by uid w)) (owned_by other) ws)
    by (intros w; apply other_user_not_mine; exact Hdiff).
  rewrite Hothers. reflexivity.
Qed.

Lemma insert_wishlist_frame (params : list Sqlite.value) (now : string)
  (db : Sqlite.database) :
  let uid := Sqlite.numeric_affinity (Sqlite.param params 0) in
  let db' := snd (Sqlite.insert_wishlist params now db) in
  uid <> Sqlite.Null ->
  List.filter (fun w => negb (owned_by uid w)) (Sqlite.wishlists db')
  = List.filter (fun w => negb (owned_by uid w)) (Sqlite.wishlists db)
  /\ forall w, In w (Sqlite.wishlists db') ->
       In w (Sqlite.wishlists db) \/ Sqlite.wishlist_user_id w = uid.
Proof.
  intros uid db' Huid. subst db'. unfold Sqlite.insert_wishlist. fold uid.
  destruct (List.existsb _ _); cbn [snd Sqlite.changed Sqlite.wishlists].
  - split; [reflexivity|]. intros w Hw. left. exact Hw.
  - split.
    + rewrite List.filter_app. cbn [List.filter].
      unfold owned_by at 2. cbn [Sqlite.wishlist_user_id].
      rewrite eqb_refl by exact Huid. cbn [negb]. apply List.app_nil_r.
    + intros w Hw. apply List.in_app_or in Hw. destruct Hw as [Hw | [<- | []]].
      * left. exact Hw.
      * right. reflexivity.
Qed.

Lemma delete_wishlist_frame (params : list Sqlite.value) (db : Sqlite.database) :
  let uid := Sqlite.numeric_affinity (Sqlite.param params 0) in
  let db' := snd (Sqlite.delete_wishlist params db) in
  List.filter (fun w => negb (owned_by uid w)) (Sqlite.wishlists db')
  = List.filter (fun w => negb (owned_by uid w)) (Sqlite.wishlists db)
  /\ (forall w, In w (Sqlite.wishlists db') -> In w (Sqlite.wishlists db))
  /\ (forall w, In w (Sqlite.wishlists db) ->
        In w (Sqlite.wishlists db') \/ owned_by uid w = true).
Proof.
  intros uid db'. subst db'.
  cbn [Sqlite.delete_wishlist snd Sqlite.changed Sqlite.wishlists]. fold uid.
  assert (Hhit : forall w,
             Sqlite.same_pair uid (Sqlite.numeric_affinity (Sqlite.param params 1)) w
             = true -> owned_by uid w = true).
  { intros w H. unfold Sqlite.same_pair in H. apply Bool.andb_true_iff in H.
    exact (proj1 H). }
  split; [|split].
  - apply (filter_filter_disjoint
             (Sqlite.same_pair uid (Sqlite.numeric_affinity (Sqlite.param params 1)))
             (owned_by uid)). exact Hhit.
  - intros w Hw. apply List.filter_In in Hw. exact (proj1 Hw).
  - intros w Hw.
    destruct (Sqlite.same_pair uid
                (Sqlite.numeric_affinity (Sqlite.param params 1)) w) eqn:Hpair.
    + right. apply Hhit. exact Hpair.
    + left. apply List.filter_In. split; [exact Hw|]. rewrite Hpair. reflexivity.
Qed.

End IsolationProofs.

(** C10. The wishlist handlers take the user id from the verified claims
    ([req.user.id]) and nothing else.  For a caller whose claims carry an id:
    listing leaves the database as it is and its answer depends on the
    wishlists table through the caller's own rows only; adding and removing
    leave the rows of every other user as they were (in particular those of
    any user with a different id); a row that appears belongs to the caller,
    and a row that disappears belonged to the caller. *)
Theorem wishlist_isolated :
  forall (L : Libs) (req : request) (e : env) (db : Sqlite.database),
    caller_id req <> Sqlite.Null ->
    let mine := owned_by (caller_id req) in
    let others := fun w => negb (mine w) in
    (snd (list_wishlist req e db) = db
     /\ forall db2,
          Sqlite.products db2 = Sqlite.products db ->
          List.filter mine (Sqlite.wishlists db2)
          = List.filter mine (Sqlite.wishlists db) ->
          fst (list_wishlist req e db2) = fst (list_wishlist req e db))
    /\ (let db' := snd (add_wishlist req e db) in
        List.filter others (Sqlite.wishlists db')
        = List.filter others (Sqlite.wishlists db)
        /\ (forall other, Sqlite.eqb (caller_id req) other = false ->
              List.filter (owned_by other) (Sqlite.wishlists db')
              = List.filter (owned_by other) (Sqlite.wishlists db))
        /\ forall w, In w (Sqlite.wishlists db') ->
             In w (Sqlite.wishlists db)
             \/ Sqlite.wishlist_user_id w = caller_id req)
    /\ (let db' := snd (remove_wishlist req e db) in
        List.filter others (Sqlite.wishlists db')
        = List.filter others (Sqlite.wishlists db)
        /\ (forall other, Sqlite.eqb (caller_id req) other = false ->
              List.filter (owned_by other) (Sqlite.wishlists db')
              = List.filter (owned_by other) (Sqlite.wishlists db))
        /\ (forall w, In w (Sqlite.wishlists db') -> In w (Sqlite.wishlists db))
        /\ forall w, In w (Sqlite.wishlists db) ->
             In w (Sqlite.wishlists db') \/ mine w = true).
Proof.
  intros L req e db Hid mine others.
  split; [|split].
  - destruct (list_wishlist_run req e) as [answer Hrun]. split.
    + rewrite Hrun. reflexivity.
    + intros db2 Hproducts Hmine. rewrite !Hrun. cbn [fst].
      rewrite !select_wishlist_own. cbn [Sqlite.param List.nth].
      fold (caller_id req). fold mine. rewrite Hproducts, Hmine. reflexivity.
  - intros db'.
    assert (Hframe :
              List.filter others (Sqlite.wishlists db')
              = List.filter others (Sqlite.wishlists db)
              /\ forall w, In w (Sqlite.wishlists db') ->
                   In w (Sqlite.wishlists db)
                   \/ Sqlite.wishlist_user_id w = caller_id req).
    { destruct (body req) eqn:Hb;
        try (subst db'; rewrite add_wishlist_no_body by auto;
             split; [reflexivity | intros w Hw; left; exact Hw]).
      all: subst db'; rewrite add_wishlist_run by (rewrite Hb; discriminate).
      all: cbn [snd].
      all: apply (insert_wishlist_frame
                    [Sqlite.bind (JS.get "id" (user req));
                     Sqlite.bind (JS.get "product_id" (body req))]
                    (CURRENT_TIMESTAMP e) db Hid). }
    destruct Hframe as [Hothers Hnew].
    split; [exact Hothers|]. split; [|exact Hnew].
    intros other Hdiff.
    apply (others_to_other_user (caller_id req) other); assumption.
  - intros db'. subst db'. rewrite remove_wishlist_run. cbn [snd].
    destruct (delete_wishlist_frame
                [Sqlite.bind (JS.get "id" (user req));
                 Sqlite.bind (JS.get "product_id" (params req))] db)
      as (Hothers & Hsub & Hgone).
    split; [exact Hothers|]. split; [|split; [exact Hsub | exact Hgone]].
    intros other Hdiff.
    apply (others_to_other_user (caller_id req) other); assumption.
Qed.

Lemma wishlist_isolated_witness :
  let entry := fun id uid pid =>
    {| Sqlite.wishlist_id := id; Sqlite.wishlist_user_id := Sqlite.Num uid;
       Sqlite.wishlist_product_id := Sqlite.Num pid;
       Sqlite.wishlist_created_at := Sqlite.Text "2023-11-10 09:00:00" |} in
  let db :=
    {| Sqlite.users := []; Sqlite.products := Sqlite.products Demo.catalog;
       Sqlite.wishlists := [entry 1 3%Q 1%Q; entry 2 2%Q 1%Q; entry 3 3%Q 2%Q];
       Sqlite.seq_users := 0; Sqlite.seq_products := 3;
       Sqlite.seq_wishlists := 3; Sqlite.last_rowid := 3 |} in
  let alice := JS.Obj [("id", JS.Num 2); ("email", JS.Str "alice@x.com");
                       ("is_admin", JS.Num 0)] in
  let remove :=
    with_user
      {| verb := DELETE; path := ["api"; "wishlist"; "1"];
         authorization := Some "Bearer shopper.jwt"; query := JS.Obj [];
         body := JS.Obj [("user_id", JS.Num 3)];
         params := JS.Obj [("product_id", JS.Str "1"); ("user_id", JS.Str "3")];
         user := JS.Undefined |} alice in
  let db' := snd (remove_wishlist (L := Demo.libs) remove Demo.environment db) in
  caller_id (L := Demo.libs) remove = Sqlite.Num 2
  /\ List.filter (owned_by (Sqlite.Num 3)) (Sqlite.wishlists db')
     = [entry 1 3%Q 1%Q; entry 3 3%Q 2%Q].
Proof.
  intros entry db alice remove db'.
  split; [reflexivity|].
  assert (Hid : caller_id (L := Demo.libs) remove <> Sqlite.Null) by discriminate.
  destruct (wishlist_isolated Demo.libs remove Demo.environment db Hid)
    as (_ & _ & Hremove).
  destruct Hremove as (_ & Hother & _).
  exact (Hother (Sqlite.Num 3) eq_refl).
Defined.

(* ================================================================== *)
(** * Properties of the product listing *)
(* ================================================================== *)

Section OrderFacts.

Lemma leb_total (a b : Sqlite.value) :
  Sqlite.leb a b = true \/ Sqlite.leb b a = true.
Proof.
  destruct a as [|x|s], b as [|y|t]; cbn; auto.
  - destruct (Qlt_le_dec x y) as [Hlt | Hle].
    + left. apply Qle_bool_iff. apply Qlt_le_weak. exact Hlt.
    + right. apply Qle_bool_iff. exact Hle.
  - apply String.leb_total.
Qed.

Section Sorting.
Context {A : Type} (le : A -> A -> bool).
Hypothesis le_total : forall a b, le a b = true \/ le b a = true.

Let R := le_rel le.

Lemma insert_sorted_In (x y : A) (l : list A) :
  In y (Sqlite.insert_sorted le x l) <-> y = x \/ In y l.
Proof.
  induction l as [|z l IH]; cbn.
  - split; intros [H | H]; auto.
  - destruct (le x z); cbn.
    + split; intros [H | H]; auto.
    + rewrite IH. split; intros [H | [H | H]]; auto.
Qed.

Lemma sort_In (y : A) (l : list A) : In y (Sqlite.sort le l) <-> In y l.
Proof.
  induction l as [|x l IH]; cbn; [tauto|].
  rewrite insert_sorted_In, IH. split; intros [H | H]; auto.
Qed.

Lemma insert_sorted_HdRel (a x : A) (l : list A) :
  R a x -> HdRel R a l -> HdRel R a (Sqlite.insert_sorted le x l).
Proof.
  intros Hax Hal. destruct l as [|z l]; cbn.
  - constructor. exact Hax.
  - destruct (le x z); constructor; [exact Hax|].
    inversion Hal. assumption.
Qed.

Lemma insert_sorted_Sorted (x : A) (l : list A) :
  Sorted R l -> Sorted R (Sqlite.insert_sorted le x l).
Proof.
  induction l as [|z l IH]; cbn; intros Hs.
  - repeat constructor.
  - destruct (le x z) eqn:Hxz.
    + constructor; [exact Hs|]. constructor. exact Hxz.
    + inversion Hs as [|? ? Hs' Hhd]; subst.
      constructor; [apply IH; exact Hs'|].
      apply insert_sorted_HdRel; [|exact Hhd].
      destruct (le_total z x) as [H | H]; [exact H|].
      unfold R. congruence.
Qed.

Lemma sort_Sorted (l : list A) : Sorted R (Sqlite.sort le l).
Proof.
  induction l as [|x l IH]; cbn; [constructor|].
  apply insert_sorted_Sorted. exact IH.
Qed.

End Sorting.

Lemma order_le_total (o : Sqlite.order_by) (a b : Sqlite.product) :
  Sqlite.order_le o a b = true \/ Sqlite.order_le o b a = true.
Proof.
  destruct o; cbn; try apply leb_total.
  destruct (Z.leb_spec (Sqlite.product_id b) (Sqlite.product_id a)); [left; reflexivity|].
  right. apply Z.leb_le. lia.
Qed.

End OrderFacts.

Section ListingFacts.
Context {L : Libs}.

(** The engine reads every text the builder emits as the statement meant. *)
Lemma prepare_products_query (query : JS.value) :
  Sqlite.prepare (fst (build_products_query query))
  = Some (Sqlite.SelectProducts (conditions_of query)
            (order_of (sort_key_of (JS.get "sort" query)))).
Proof.
  unfold build_products_query, conditions_of, sort_key_of, push.
  destruct (JS.truthy (JS.get "category" query));
    destruct (JS.truthy (JS.get "age_group" query));
    destruct (JS.truthy (JS.get "q" query));
    destruct (JS.is_string (JS.get "sort" query) "price_asc");
    destruct (JS.is_string (JS.get "sort" query) "price_desc");
    destruct (JS.is_string (JS.get "sort" query) "newest");
    vm_compute; reflexivity.
Qed.

Lemma products_query_arity (query : JS.value) :
  Nat.ltb
    (Sqlite.arity (Sqlite.SelectProducts (conditions_of query)
                     (order_of (sort_key_of (JS.get "sort" query)))))
    (List.length (List.map Sqlite.bind (snd (build_products_query query))))
  = false.
Proof.
  rewrite build_products_query_params. unfold conditions_of, filter_values.
  destruct (JS.truthy (JS.get "category" query));
    destruct (JS.truthy (JS.get "age_group" query));
    destruct (JS.truthy (JS.get "q" query)); reflexivity.
Qed.

Lemma where_holds_selects (query : JS.value) (p : Sqlite.product) :
  Sqlite.where_holds (conditions_of query)
    (List.map Sqlite.bind (snd (build_products_query query))) p
  = selects query p.
Proof.
  rewrite build_products_query_params. unfold conditions_of, filter_values, selects.
  destruct (JS.truthy (JS.get "category" query));
    destruct (JS.truthy (JS.get "age_group" query));
    destruct (JS.truthy (JS.get "q" query));
    cbn -[Sqlite.like_value Sqlite.eqb Sqlite.text_affinity to_string String.append];
    rewrite ?Bool.andb_true_r, ?Bool.andb_true_l; try reflexivity;
    rewrite ?Bool.andb_assoc; reflexivity.
Qed.

Lemma allAsync_products (query : JS.value) (now : string) (db : Sqlite.database) :
  allAsync (fst (build_products_query query)) (snd (build_products_query query)) now db
  = (Sqlite.Resolve (List.map Sqlite.product_row (listed query db)), db).
Proof.
  unfold allAsync, run_statement. rewrite prepare_products_query.
  unfold Sqlite.exec. rewrite products_query_arity.
  unfold Sqlite.selected, listed. cbn [Sqlite.rows].
  rewrite (List.filter_ext _ _ (where_holds_selects query)). reflexivity.
Qed.

Lemma pure_decode_row (r : JS.value) : pure (decode_row r).
Proof.
  unfold decode_row. apply pure_await; [apply pure_parse_or_empty|]. intros images.
  apply pure_await; [apply pure_parse_or_empty|]. intros colors. apply pure_resolve.
Qed.

(** [list_products], in one step: the rows of [listed], decoded; 500 when a
    stored text does not decode. *)
Lemma list_products_run (req : request) (e : env) (db : Sqlite.database) :
  list_products req e db
  = match for_each decode_row (List.map Sqlite.product_row (listed (query req) db)) db with
    | (Sqlite.Resolve parsed, _) =>
        (Sqlite.Resolve (Done {| status := 200; json := JS.Arr parsed |}), db)
    | (Sqlite.Reject _, _) =>
        (Sqlite.Resolve (Done {| status := 500; json := message "Server error" |}), db)
    end.
Proof.
  unfold list_products.
  rewrite (surjective_pairing (build_products_query (query req))).
  unfold try_catch. unfold await at 1. rewrite allAsync_products.
  fold decode_row. unfold await.
  destruct (pure_for_each decode_row
              (List.map Sqlite.product_row (listed (query req) db)) pure_decode_row)
    as [o Ho].
  rewrite Ho. destruct o; reflexivity.
Qed.

End ListingFacts.

(** ** LIKE and substrings *)

Section LikeFacts.
Local Open Scope N_scope.

Lemma N_of_ascii_zero (c : ascii) : (N_of_ascii c =? 0) = Ascii.eqb c "000".
Proof.
  destruct (Ascii.eqb_spec c "000") as [-> | Hne]; [reflexivity|].
  apply N.eqb_neq. intros H. apply Hne.
  rewrite <- (ascii_N_embedding c), H. reflexivity.
Qed.

Lemma N_of_ascii_is (c d : ascii) : (N_of_ascii c =? N_of_ascii d) = Ascii.eqb c d.
Proof.
  destruct (Ascii.eqb_spec c d) as [-> | Hne]; [apply N.eqb_refl|].
  apply N.eqb_neq. intros H. apply Hne.
  rewrite <- (ascii_N_embedding c), H. apply ascii_N_embedding.
Qed.

Lemma code_high (acc : N) : 128 <= Sqlite.code acc.
Proof.
  unfold Sqlite.code. destruct (acc <? 128) eqn:Hlow; cbn [orb]; [lia|].
  apply N.ltb_ge in Hlow.
  destruct (_ || _ || _); lia.
Qed.

Lemma literal_code (acc : N) : literal (Sqlite.code acc) = true.
Proof.
  pose proof (code_high acc) as H. unfold literal.
  destruct (N.eqb_spec (Sqlite.code acc) 37) as [E|_]; [lia|].
  destruct (N.eqb_spec (Sqlite.code acc) 95) as [E|_]; [lia|]. reflexivity.
Qed.

(** What follows a NUL is not read. *)
Lemma chars_from_nul (cur : option N) (q r : string) :
  Sqlite.chars_from cur (q ^^ String "000" r) = Sqlite.chars_from cur q.
Proof.
  revert cur. induction q as [|b q IH]; intros cur.
  - destruct cur; reflexivity.
  - cbn [String.append Sqlite.chars_from]. destruct cur; rewrite !IH; reflexivity.
Qed.

(** The characters of a text without NUL, followed by [%]. *)
Lemma chars_from_percent (cur : option N) (q : string) :
  plain q = true ->
  Sqlite.chars_from cur (q ^^ "%") = Sqlite.chars_from cur q ++ [37].
Proof.
  revert cur. induction q as [|b q IH]; intros cur Hplain.
  - destruct cur; reflexivity.
  - cbn [plain] in Hplain. apply Bool.andb_true_iff in Hplain.
    destruct Hplain as [Hb Hplain]. apply Bool.andb_true_iff in Hb.
    destruct Hb as [_ Hnul]. apply Bool.negb_true_iff in Hnul.
    cbn [String.append Sqlite.chars_from]. rewrite N_of_ascii_zero, Hnul.
    destruct cur as [acc|]; rewrite !IH by exact Hplain.
    + destruct (Sqlite.continuation (N_of_ascii b)); [reflexivity|].
      destruct (N_of_ascii b <? 192); reflexivity.
    + destruct (N_of_ascii b <? 192); reflexivity.
Qed.

(** No character of a text without [%] and [_] is a wildcard. *)
Lemma chars_from_literal (cur : option N) (q : string) :
  plain q = true -> List.forallb literal (Sqlite.chars_from cur q) = true.
Proof.
  revert cur. induction q as [|b q IH]; intros cur Hplain.
  - destruct cur; cbn [Sqlite.chars_from List.forallb]; [|reflexivity].
    rewrite literal_code. reflexivity.
  - cbn [plain] in Hplain. apply Bool.andb_true_iff in Hplain.
    destruct Hplain as [Hb Hplain]. apply Bool.andb_true_iff in Hb.
    destruct Hb as [Hb Hnul]. apply Bool.andb_true_iff in Hb.
    destruct Hb as [Hpct Hund]. apply Bool.negb_true_iff in Hnul.
    assert (Hlit : literal (N_of_ascii b) = true).
    { unfold literal. change 37 with (N_of_ascii "%"). change 95 with (N_of_ascii "_").
      rewrite !N_of_ascii_is, Hpct, Hund. reflexivity. }
    cbn [Sqlite.chars_from]. rewrite N_of_ascii_zero, Hnul.
    destruct cur as [acc|].
    + destruct (Sqlite.continuation (N_of_ascii b)); [apply IH; exact Hplain|].
      cbn [List.forallb]. rewrite literal_code. cbn [andb].
      destruct (N_of_ascii b <? 192); [|apply IH; exact Hplain].
      cbn [List.forallb]. rewrite Hlit. apply IH. exact Hplain.
    + destruct (N_of_ascii b <? 192); [|apply IH; exact Hplain].
      cbn [List.forallb]. rewrite Hlit. apply IH. exact Hplain.
Qed.

(** A text of the characters 1 to 127 is read byte by byte. *)
Lemma chars_ascii (s : string) : ascii_only s = true -> Sqlite.chars s = bytes s.
Proof.
  unfold Sqlite.chars. induction s as [|b s IH]; intros H; [reflexivity|].
  cbn [ascii_only] in H. apply Bool.andb_true_iff in H. destruct H as [Hb Hs].
  apply Bool.andb_true_iff in Hb. destruct Hb as [Hnul Hlow].
  apply Bool.negb_true_iff in Hnul. apply N.ltb_lt in Hlow.
  cbn [Sqlite.chars_from bytes]. rewrite Hnul.
  assert (H192 : (N_of_ascii b <? 192) = true) by (apply N.ltb_lt; lia).
  rewrite H192, IH by exact Hs. reflexivity.
Qed.

Lemma like_chars_star (p s : list N) :
  Sqlite.like_chars (37 :: p) s
  = Sqlite.like_chars p s
    || match s with
       | [] => false
       | _ :: s' => Sqlite.like_chars (37 :: p) s'
       end.
Proof. destruct s; reflexivity. Qed.

Lemma like_chars_percent (s : list N) : Sqlite.like_chars [37] s = true.
Proof.
  induction s as [|c s IH]; [reflexivity|].
  rewrite like_chars_star, IH. apply Bool.orb_true_r.
Qed.

Lemma like_chars_literal (c : N) (p s : list N) :
  literal c = true ->
  Sqlite.like_chars (c :: p) s
  = match s with
    | [] => false
    | d :: s' => Sqlite.same_char c d && Sqlite.like_chars p s'
    end.
Proof.
  unfold literal. intros H. apply Bool.andb_true_iff in H. destruct H as [H1 H2].
  apply Bool.negb_true_iff in H1, H2.
  cbn [Sqlite.like_chars]. rewrite H1, H2. destruct s; reflexivity.
Qed.

Lemma like_chars_prefix (q s : list N) :
  List.forallb literal q = true ->
  Sqlite.like_chars (q ++ [37]) s = prefix_ignoring_case q s.
Proof.
  revert s. induction q as [|c q IH]; intros s Hlit.
  - change ([] ++ [37]) with [37]. rewrite like_chars_percent.
    destruct s; reflexivity.
  - cbn [List.forallb] in Hlit. apply Bool.andb_true_iff in Hlit.
    destruct Hlit as [Hc Hq].
    change ((c :: q) ++ [37]) with (c :: (q ++ [37])).
    rewrite like_chars_literal by exact Hc.
    destruct s as [|d s]; [reflexivity|].
    cbn [prefix_ignoring_case]. rewrite IH by exact Hq. reflexivity.
Qed.

(** Between two [%], characters that are no wildcards are searched for. *)
Lemma like_chars_contains (q s : list N) :
  List.forallb literal q = true ->
  Sqlite.like_chars (37 :: q ++ [37]) s = contains_ignoring_case q s.
Proof.
  intros Hlit. induction s as [|c s IH].
  - rewrite like_chars_star, like_chars_prefix by exact Hlit. reflexivity.
  - rewrite like_chars_star, like_chars_prefix, IH by exact Hlit. reflexivity.
Qed.

(** For a text with neither wildcard nor NUL, [LIKE '%q%'] is substring
    search among the characters. *)
Lemma like_contains (q t : string) :
  plain q = true ->
  Sqlite.like ("%" ^^ q ^^ "%") t
  = contains_ignoring_case (Sqlite.chars q) (Sqlite.chars t).
Proof.
  intros Hplain. unfold Sqlite.like.
  assert (Hpat : Sqlite.chars ("%" ^^ q ^^ "%") = 37 :: Sqlite.chars q ++ [37]).
  { unfold Sqlite.chars. cbn [String.append Sqlite.chars_from].
    rewrite chars_from_percent by exact Hplain. reflexivity. }
  rewrite Hpat. apply like_chars_contains. apply chars_from_literal. exact Hplain.
Qed.

(** A NUL in [q] ends the pattern: what follows it, the closing [%]
    included, is not part of it. *)
Lemma like_nul (q r t : string) :
  Sqlite.like ("%" ^^ (q ^^ String "000" r) ^^ "%") t = Sqlite.like ("%" ^^ q) t.
Proof.
  unfold Sqlite.like. f_equal. unfold Sqlite.chars.
  cbn [String.append Sqlite.chars_from].
  replace ((q ^^ String "000" r) ^^ "%") with (q ^^ String "000" (r ^^ "%")).
  - rewrite chars_from_nul. reflexivity.
  - induction q as [|b q IH]; cbn [String.append]; [reflexivity|].
    rewrite IH. reflexivity.
Qed.

Lemma prefix_ignoring_case_spec (q s : list N) :
  prefix_ignoring_case q s = true
  <-> exists mid post,
        s = mid ++ post /\ Forall2 (fun a b => Sqlite.same_char a b = true) q mid.
Proof.
  revert s. induction q as [|a q IH]; intros s; cbn [prefix_ignoring_case].
  - split; [intros _; exists [], s; split; [reflexivity | constructor] | reflexivity].
  - destruct s as [|b s].
    + split; [discriminate|]. intros (mid & post & Hs & Hmid).
      inversion Hmid; subst. discriminate Hs.
    + rewrite Bool.andb_true_iff, IH. split.
      * intros (Hab & mid & post & -> & Hmid).
        exists (b :: mid), post. split; [reflexivity|]. constructor; assumption.
      * intros (mid & post & Hs & Hmid).
        inversion Hmid as [|a' m q' mid' Ham Hrest]; subst.
        cbn [app] in Hs. injection Hs as -> ->.
        split; [exact Ham|]. exists mid', post. split; [reflexivity | exact Hrest].
Qed.

(** [contains_ignoring_case] finds a stretch of [s] that is [q] up to case. *)
Lemma contains_ignoring_case_spec (q s : list N) :
  contains_ignoring_case q s = true
  <-> exists pre mid post,
        s = pre ++ mid ++ post
        /\ Forall2 (fun a b => Sqlite.same_char a b = true) q mid.
Proof.
  induction s as [|c s IH]; cbn [contains_ignoring_case];
    rewrite Bool.orb_true_iff, prefix_ignoring_case_spec.
  - split.
    + intros [(mid & post & Hs & Hmid) | H]; [|discriminate H].
      exists [], mid, post. split; assumption.
    + intros (pre & mid & post & Hs & Hmid). left.
      destruct pre; [|discriminate Hs]. exists mid, post. split; assumption.
  - rewrite IH. split.
    + intros [(mid & post & Hs & Hmid) | (pre & mid & post & Hs & Hmid)].
      * exists [], mid, post. split; assumption.
      * exists (c :: pre), mid, post. split; [rewrite Hs; reflexivity | exact Hmid].
    + intros (pre & mid & post & Hs & Hmid).
      destruct pre as [|c' pre].
      * left. exists mid, post. split; assumption.
      * right. cbn [app] in Hs. injection Hs as -> ->.
        exists pre, mid, post. split; [reflexivity | exact Hmid].
Qed.

End LikeFacts.

Section ListingProofs.
Context {L : Libs}.

Lemma matches_contains (q : string) (v : Sqlite.value) :
  plain q = true -> matches_text q v = contains_text q v.
Proof.
  intros Hplain. unfold matches_text, contains_text, Sqlite.like_value.
  cbn [Sqlite.text_affinity].
  destruct (Sqlite.text_affinity v); try reflexivity.
  apply like_contains. exact Hplain.
Qed.

Lemma matches_ascii (q t : string) :
  plain q = true -> ascii_only q = true -> ascii_only t = true ->
  matches_text q (Sqlite.Text t) = contains_ignoring_case (bytes q) (bytes t).
Proof.
  intros Hplain Hq Ht. rewrite matches_contains by exact Hplain.
  unfold contains_text. cbn [Sqlite.text_affinity].
  rewrite !chars_ascii by assumption. reflexivity.
Qed.

Lemma matches_nul (q r : string) (v : Sqlite.value) :
  matches_text (q ^^ String "000" r) v
  = Sqlite.like_value (Sqlite.Text ("%" ^^ q)) v.
Proof.
  unfold matches_text, Sqlite.like_value. cbn [Sqlite.text_affinity].
  destruct (Sqlite.text_affinity v); try reflexivity.
  apply like_nul.
Qed.

Lemma eqb_text (s : string) (v : Sqlite.value) :
  Sqlite.eqb (Sqlite.Text s) v = true <-> v = Sqlite.Text s.
Proof.
  destruct v as [|n|t]; cbn; try (split; discriminate).
  rewrite String.eqb_eq. split; congruence.
Qed.

Lemma exact_filter (v : JS.value) (column : Sqlite.value) :
  text_or_absent v ->
  (if JS.truthy v
   then Sqlite.eqb (Sqlite.text_affinity (Sqlite.bind v)) column
   else true) = true
  <-> (forall s, v = JS.Str s -> s <> "" -> column = Sqlite.Text s).
Proof.
  intros [-> | [s ->]]; cbn [JS.truthy].
  - split; [discriminate | reflexivity].
  - destruct (String.eqb_spec s "") as [-> | Hne]; cbn [negb].
    + split; [|reflexivity]. intros _ s' Hs' Hne. congruence.
    + cbn [Sqlite.bind Sqlite.text_affinity]. rewrite eqb_text. split.
      * intros -> s' Hs' _. congruence.
      * intros H. apply H; [reflexivity | exact Hne].
Qed.

Lemma selects_satisfies (query : JS.value) (p : Sqlite.product) :
  text_or_absent (JS.get "category" query) ->
  text_or_absent (JS.get "age_group" query) ->
  text_or_absent (JS.get "q" query) ->
  selects query p = true <-> satisfies query p.
Proof.
  intros Hc Ha Hq. unfold selects, satisfies.
  rewrite !Bool.andb_true_iff, (exact_filter _ _ Hc), (exact_filter _ _ Ha).
  assert (Hlike :
            (if JS.truthy (JS.get "q" query)
             then Sqlite.like_value
                    (Sqlite.Text ("%" ^^ to_string (JS.get "q" query) ^^ "%"))
                    (Sqlite.product_name p)
                  || Sqlite.like_value
                       (Sqlite.Text ("%" ^^ to_string (JS.get "q" query) ^^ "%"))
                       (Sqlite.product_description p)
             else true) = true
            <-> (forall s, JS.get "q" query = JS.Str s -> s <> "" ->
                   matches_text s (Sqlite.product_name p) = true
                   \/ matches_text s (Sqlite.product_description p) = true)).
  { destruct Hq as [-> | [s ->]]; cbn [JS.truthy].
    - split; [discriminate | reflexivity].
    - destruct (String.eqb_spec s "") as [-> | Hne]; cbn [negb].
      + split; [|reflexivity]. intros _ s' Hs' Hne. congruence.
      + rewrite Bool.orb_true_iff. cbn [to_string]. fold (matches_text s).
        split.
        * intros H s' Hs' _. injection Hs' as <-. exact H.
        * intros H. apply H; [reflexivity | exact Hne]. }
  rewrite Hlike. tauto.
Qed.

Lemma decode_row_resolves (r y : JS.value) (d d' : Sqlite.database) :
  decode_row r d = (Sqlite.Resolve y, d') ->
  exists images colors, y = JS.set "colors" colors (JS.set "images" images r).
Proof.
  unfold decode_row, await.
  destruct (parse_or_empty (JS.get "images" r) d) as [[images|err] d1]; [|discriminate].
  destruct (parse_or_empty (JS.get "colors" r) d1) as [[colors|err] d2]; [|discriminate].
  cbn [resolve]. intros H. injection H as <- _. exists images, colors. reflexivity.
Qed.

Lemma for_each_decode_rows (ps : list Sqlite.product) (rows : list JS.value)
  (d d' : Sqlite.database) :
  for_each decode_row (List.map Sqlite.product_row ps) d = (Sqlite.Resolve rows, d') ->
  Forall2 row_of ps rows.
Proof.
  revert rows d d'. induction ps as [|p ps IH]; intros rows d d'.
  - cbn. intros H. injection H as <- _. constructor.
  - cbn [List.map for_each]. unfold await at 1.
    destruct (decode_row (Sqlite.product_row p) d) as [[y|err] d1] eqn:Hrow;
      [|discriminate].
    unfold await.
    destruct (for_each decode_row (List.map Sqlite.product_row ps) d1)
      as [[ys|err] d2] eqn:Hrest; [|discriminate].
    cbn [resolve]. intros H. injection H as <- _.
    constructor; [|exact (IH ys d1 d2 Hrest)].
    exact (decode_row_resolves _ _ _ _ Hrow).
Qed.

(** What a 200 answer of [list_products] holds. *)
Lemma list_products_rows (req : request) (e : env) (db db' : Sqlite.database)
  (res : response) :
  list_products req e db = (Sqlite.Resolve (Done res), db') ->
  status res = 200 ->
  db' = db
  /\ exists rows, json res = JS.Arr rows /\ Forall2 row_of (listed (query req) db) rows.
Proof.
  rewrite list_products_run.
  destruct (for_each decode_row
              (List.map Sqlite.product_row (listed (query req) db)) db)
    as [[rows|err] d] eqn:Hrows; intros H Hstatus;
    injection H as <- <-; [|discriminate Hstatus].
  split; [reflexivity|]. exists rows. split; [reflexivity|].
  exact (for_each_decode_rows _ _ _ _ Hrows).
Qed.

Lemma listed_In (query : JS.value) (db : Sqlite.database) (p : Sqlite.product) :
  In p (listed query db) <-> In p (Sqlite.products db) /\ selects query p = true.
Proof. unfold listed. rewrite sort_In, List.filter_In. reflexivity. Qed.

End ListingProofs.

(** C3, as the code has it.  With category, age_group and q each absent or
    a string, the rows a listing answers are the rows of exactly the products
    that satisfy every filter present: category and age_group equal to the
    stored text, and name or description matching [LIKE '%q%'] as SQLite
    matches it.  [%] and [_] inside q are wildcards, and a NUL inside q ends
    the pattern: what follows it, the closing [%] included, is cut.  When q
    has none of the three, matching is containing the characters of q in a
    row, letters A-Z compared without regard to case, in the text up to its
    first NUL; the characters are those SQLite reads, which for texts of the
    characters 1 to 127 are the bytes.  An absent or empty filter imposes
    nothing. *)
Theorem listing_filters :
  forall (L : Libs) (req : request) (e : env) (db db' : Sqlite.database)
         (res : response),
    text_or_absent (JS.get "category" (query req)) ->
    text_or_absent (JS.get "age_group" (query req)) ->
    text_or_absent (JS.get "q" (query req)) ->
    list_products req e db = (Sqlite.Resolve (Done res), db') ->
    status res = 200 ->
    db' = db
    /\ (exists ps rows,
          json res = JS.Arr rows
          /\ Forall2 row_of ps rows
          /\ forall p, In p ps <-> In p (Sqlite.products db) /\ satisfies (query req) p)
    /\ (forall s v, plain s = true -> matches_text s v = contains_text s v)
    /\ (forall s t, plain s = true -> ascii_only s = true -> ascii_only t = true ->
          matches_text s (Sqlite.Text t) = contains_ignoring_case (bytes s) (bytes t))
    /\ (forall s r v,
          matches_text (s ^^ String "000" r) v
          = Sqlite.like_value (Sqlite.Text ("%" ^^ s)) v).
Proof.
  intros L req e db db' res Hc Ha Hq Hrun Hstatus.
  destruct (list_products_rows req e db db' res Hrun Hstatus) as [Hdb [rows [Hjson Hrows]]].
  split; [exact Hdb|]. split; [|split; [|split]].
  - exists (listed (query req) db), rows.
    split; [exact Hjson|]. split; [exact Hrows|].
    intros p. rewrite listed_In, (selects_satisfies _ p Hc Ha Hq). reflexivity.
  - intros s v. apply matches_contains.
  - intros s t. apply matches_ascii.
  - intros s r v. apply matches_nul.
Qed.

Lemma listing_filters_witness :
  let req := Demo.request_to GET ["api"; "products"] None
               (JS.Obj [("q", JS.Str "hood"); ("category", JS.Str "Jackets")])
               (JS.Obj []) in
  let run := list_products (L := Demo.libs) req Demo.environment Demo.catalog in
  let res := {| status := 200;
                json := match fst run with
                        | Sqlite.Resolve (Done r) => json r
                        | _ => JS.Undefined
                        end |} in
  run = (Sqlite.Resolve (Done res), Demo.catalog)
  /\ exists ps rows,
       json res = JS.Arr rows
       /\ Forall2 row_of ps rows
       /\ forall p, In p ps <->
            In p (Sqlite.products Demo.catalog)
            /\ satisfies (L := Demo.libs) (query req) p.
Proof.
  intros req run res.
  assert (Hrun : run = (Sqlite.Resolve (Done res), Demo.catalog))
    by (vm_compute; reflexivity).
  split; [exact Hrun|].
  refine (proj1 (proj2 (listing_filters Demo.libs req Demo.environment Demo.catalog
                          Demo.catalog res _ _ _ Hrun eq_refl))).
  - right. exists "Jackets". reflexivity.
  - left. reflexivity.
  - right. exists "hood". reflexivity.
Defined.

(** C3 as stated fails: with [q = "_"] the listing answers every product
    with a non-empty name, among them one whose name and description do not
    contain an underscore. *)
Lemma listing_underscore_is_a_wildcard :
  let req := Demo.request_to GET ["api"; "products"] None
               (JS.Obj [("q", JS.Str "_")]) (JS.Obj []) in
  exists rows r,
    fst (list_products (L := Demo.libs) req Demo.environment Demo.catalog)
    = Sqlite.Resolve (Done {| status := 200; json := JS.Arr rows |})
    /\ In r rows
    /\ JS.get "name" r = JS.Str "Plain tee"
    /\ JS.get "description" r = JS.Str "Soft cotton"
    /\ contains_ignoring_case (bytes "_") (bytes "Plain tee") = false
    /\ contains_ignoring_case (bytes "_") (bytes "Soft cotton") = false.
Proof.
  intros req. eexists. eexists.
  split; [vm_compute; reflexivity|].
  split; [right; left; reflexivity|].
  repeat split.
Qed.

Section OrderProofs.
Context {L : Libs}.

Lemma Sorted_impl {A} (R R' : A -> A -> Prop) (l : list A) :
  (forall a b, R a b -> R' a b) -> Sorted R l -> Sorted R' l.
Proof.
  intros Himp. induction 1 as [|a l Hs IH Hhd]; constructor; [exact IH|].
  destruct Hhd; constructor. apply Himp. assumption.
Qed.

Lemma listed_ordered (query : JS.value) (db : Sqlite.database) :
  ordered (sort_key_of (JS.get "sort" query)) (listed query db).
Proof.
  unfold listed.
  pose proof (sort_Sorted
                (Sqlite.order_le (order_of (sort_key_of (JS.get "sort" query))))
                (order_le_total _)
                (List.filter (selects query) (Sqlite.products db))) as Hs.
  destruct (sort_key_of (JS.get "sort" query)); cbn [order_of ordered] in *;
    try exact Hs.
  revert Hs. apply Sorted_impl. intros a b H. apply Z.leb_le. exact H.
Qed.

Lemma parse_or_empty_decodes (v : Sqlite.value) :
  decodes v ->
  exists j, forall d, parse_or_empty (Sqlite.to_js v) d = (Sqlite.Resolve j, d).
Proof.
  unfold parse_or_empty. intros [Hfalsy | [j Hj]].
  - rewrite Hfalsy. eexists. reflexivity.
  - destruct (JS.truthy (Sqlite.to_js v)); [|eexists; reflexivity].
    rewrite Hj. eexists. reflexivity.
Qed.

Lemma decode_row_total (p : Sqlite.product) :
  decodes (Sqlite.product_images p) -> decodes (Sqlite.product_colors p) ->
  exists r, forall d, decode_row (Sqlite.product_row p) d = (Sqlite.Resolve r, d).
Proof.
  intros Hi Hc.
  destruct (parse_or_empty_decodes _ Hi) as [images Himages].
  destruct (parse_or_empty_decodes _ Hc) as [colors Hcolors].
  eexists. intros d. unfold decode_row, await.
  change (JS.get "images" (Sqlite.product_row p))
    with (Sqlite.to_js (Sqlite.product_images p)).
  change (JS.get "colors" (Sqlite.product_row p))
    with (Sqlite.to_js (Sqlite.product_colors p)).
  rewrite Himages, Hcolors. reflexivity.
Qed.

Lemma for_each_decode_total (ps : list Sqlite.product) :
  (forall p, In p ps ->
     decodes (Sqlite.product_images p) /\ decodes (Sqlite.product_colors p)) ->
  exists rows,
    forall d, for_each decode_row (List.map Sqlite.product_row ps) d
              = (Sqlite.Resolve rows, d).
Proof.
  induction ps as [|p ps IH]; intros Hok.
  - exists []. reflexivity.
  - destruct (Hok p (or_introl eq_refl)) as [Hi Hc].
    destruct (decode_row_total p Hi Hc) as [r Hr].
    destruct IH as [rows Hrows]; [intros q Hq; apply Hok; right; exact Hq|].
    exists (r :: rows). intros d. cbn [List.map for_each]. unfold await.
    rewrite Hr, Hrows. reflexivity.
Qed.

Lemma listed_same (query1 query2 : JS.value) (db : Sqlite.database) :
  JS.get "category" query2 = JS.get "category" query1 ->
  JS.get "age_group" query2 = JS.get "age_group" query1 ->
  JS.get "q" query2 = JS.get "q" query1 ->
  sort_key_of (JS.get "sort" query2) = sort_key_of (JS.get "sort" query1) ->
  listed query2 db = listed query1 db.
Proof.
  intros Hc Ha Hq Hs. unfold listed. rewrite Hs. f_equal.
  apply List.filter_ext. intros p. unfold selects. rewrite Hc, Ha, Hq. reflexivity.
Qed.

End OrderProofs.

(** C4.  When the stored [images] and [colors] texts decode, a listing is
    answered 200 with the rows of products in the order its sort key
    promises: [price_asc] non-decreasing prices, [price_desc] non-increasing
    prices, [newest] non-increasing creation times, and any other or absent
    sort value non-increasing ids.  Two requests with the same filters whose
    sort values select the same order, for instance an unrecognized value and
    no value at all, are answered alike: an unrecognized value raises
    nothing. *)
Theorem listing_order :
  forall (L : Libs) (req : request) (e : env) (db : Sqlite.database),
    stored_json_ok db ->
    (exists ps rows,
        list_products req e db
        = (Sqlite.Resolve (Done {| status := 200; json := JS.Arr rows |}), db)
        /\ Forall2 row_of ps rows
        /\ ordered (sort_key_of (JS.get "sort" (query req))) ps)
    /\ (forall req2,
          JS.get "category" (query req2) = JS.get "category" (query req) ->
          JS.get "age_group" (query req2) = JS.get "age_group" (query req) ->
          JS.get "q" (query req2) = JS.get "q" (query req) ->
          sort_key_of (JS.get "sort" (query req2))
          = sort_key_of (JS.get "sort" (query req)) ->
          list_products req2 e db = list_products req e db).
Proof.
  intros L req e db Hjson. split.
  - destruct (for_each_decode_total (listed (query req) db)) as [rows Hrows].
    { intros p Hp. apply Hjson. apply listed_In in Hp. exact (proj1 Hp). }
    exists (listed (query req) db), rows.
    split; [rewrite list_products_run, Hrows; reflexivity|].
    split; [exact (for_each_decode_rows _ _ db db (Hrows db))|].
    apply listed_ordered.
  - intros req2 Hc Ha Hq Hs.
    rewrite !list_products_run, (listed_same _ _ db Hc Ha Hq Hs). reflexivity.
Qed.

Lemma listing_order_witness :
  let listing := fun sort =>
    list_products (L := Demo.libs)
      (Demo.request_to GET ["api"; "products"] None (JS.Obj [("sort", sort)])
         (JS.Obj []))
      Demo.environment Demo.catalog in
  stored_json_ok (L := Demo.libs) Demo.catalog
  /\ List.map (JS.get "price")
       match fst (listing (JS.Str "price_asc")) with
       | Sqlite.Resolve (Done {| status := _; json := JS.Arr rows |}) => rows
       | _ => []
       end
     = [JS.Num 28; JS.Num 45; JS.Num 60]
  /\ listing (JS.Str "cheapest") = listing JS.Undefined.
Proof.
  intros listing.
  assert (Hjson : stored_json_ok (L := Demo.libs) Demo.catalog).
  { intros p Hp. cbn in Hp.
    destruct Hp as [<- | [<- | [<- | []]]]; split; right; eexists; reflexivity. }
  split; [exact Hjson|]. split; [reflexivity|].
  apply (proj2 (listing_order Demo.libs
                  (Demo.request_to GET ["api"; "products"] None
                     (JS.Obj [("sort", JS.Undefined)]) (JS.Obj []))
                  Demo.environment Demo.catalog Hjson));
    reflexivity.
Defined.

(* ================================================================== *)
(** * Further properties of [server.js] *)
(* ================================================================== *)

(** ** The query builder and its placeholders *)

(** X1. The statement text of the product listing has exactly as many [?]
    placeholders as the builder binds parameters, whatever the request. *)
Theorem placeholders_match_parameters :
  forall (L : Libs) (query : JS.value),
    count_char "?" (fst (build_products_query query))
    = List.length (snd (build_products_query query)).
Proof.
  intros L query. unfold build_products_query, push.
  destruct (JS.truthy (JS.get "category" query));
    destruct (JS.truthy (JS.get "age_group" query));
    destruct (JS.truthy (JS.get "q" query));
    destruct (JS.is_string (JS.get "sort" query) "price_asc");
    destruct (JS.is_string (JS.get "sort" query) "price_desc");
    destruct (JS.is_string (JS.get "sort" query) "newest");
    reflexivity.
Qed.

(** ** The access guard *)

Section BearerFacts.

Lemma append_char_assoc (cur : string) (c : ascii) (s : string) :
  (cur ^^ String c "") ^^ s = cur ^^ String c s.
Proof. induction cur as [|d cur IH]; cbn; [reflexivity | rewrite IH; reflexivity]. Qed.

Lemma append_empty_r (s : string) : s ^^ "" = s.
Proof. induction s as [|c s IH]; cbn; [reflexivity | rewrite IH; reflexivity]. Qed.

Lemma split_from_word (cur tok rest : string) :
  no_space tok = true ->
  JS.split_from " " cur tok = [cur ^^ tok]
  /\ exists more,
       JS.split_from " " cur (tok ^^ String " " rest) = (cur ^^ tok) :: more.
Proof.
  revert cur. induction tok as [|c tok IH]; intros cur Hfree.
  - cbn. rewrite append_empty_r. split; [reflexivity | eexists; reflexivity].
  - cbn [no_space] in Hfree. apply Bool.andb_true_iff in Hfree.
    destruct Hfree as [Hc Hfree]. apply Bool.negb_true_iff in Hc.
    cbn [JS.split_from String.append]. rewrite Hc.
    destruct (IH (cur ^^ String c "") Hfree) as [H1 [more H2]].
    rewrite H1, H2, append_char_assoc. split; [reflexivity | eexists; reflexivity].
Qed.

Lemma bearer_token (tok rest : string) :
  no_space tok = true ->
  List.nth_error (JS.split " " ("Bearer " ^^ tok)) 1 = Some tok
  /\ List.nth_error (JS.split " " ("Bearer " ^^ tok ^^ String " " rest)) 1 = Some tok.
Proof.
  intros Hfree. unfold JS.split. cbn [String.append JS.split_from Ascii.eqb Bool.eqb].
  destruct (split_from_word "" tok rest Hfree) as [H1 [more H2]].
  rewrite H1, H2. split; reflexivity.
Qed.

Lemma startsWith_bearer (s : string) : JS.startsWith ("Bearer " ^^ s) "Bearer " = true.
Proof. destruct s; reflexivity. Qed.

End BearerFacts.

(** X2. The token of a request is the second space-separated word of its
    Authorization header: what follows a further space is ignored, and the
    guard passes the request on with the claims of that word when
    [jwt.verify] accepts it, and answers 401 [Invalid token] when it does
    not. *)
Theorem bearer_token_is_second_word :
  forall (L : Libs) (req : request) (e : env) (db : Sqlite.database)
         (tok rest : string),
    no_space tok = true ->
    authorization req = Some ("Bearer " ^^ tok)
    \/ authorization req = Some ("Bearer " ^^ tok ^^ String " " rest) ->
    authMiddleware req e db
    = match jwt_verify tok (JWT_SECRET e) (clock e) with
      | Some payload => (Sqlite.Resolve (Next (with_user req payload)), db)
      | None =>
          (Sqlite.Resolve
             (Done {| status := 401; json := message "Invalid token" |}), db)
      end.
Proof.
  intros L req e db tok rest Hfree Hauth.
  destruct (bearer_token tok rest Hfree) as [H1 H2].
  unfold authMiddleware.
  destruct Hauth as [-> | ->].
  - rewrite startsWith_bearer. cbn [String.eqb String.append orb negb].
    cbn [String.append] in H1.
    rewrite H1. destruct (jwt_verify tok (JWT_SECRET e) (clock e)); reflexivity.
  - rewrite startsWith_bearer. cbn [String.eqb String.append orb negb].
    cbn [String.append] in H2.
    rewrite H2. destruct (jwt_verify tok (JWT_SECRET e) (clock e)); reflexivity.
Qed.

Lemma bearer_token_is_second_word_witness :
  let req := Demo.request_to GET ["api"; "me"]
               (Some "Bearer shopper.jwt and some trailing words")
               (JS.Obj []) (JS.Obj []) in
  no_space "shopper.jwt" = true
  /\ authMiddleware (L := Demo.libs) req Demo.environment Demo.catalog
     = (Sqlite.Resolve
          (Next (with_user req
                   (JS.Obj [("id", JS.Num 2); ("email", JS.Str "alice@x.com");
                            ("is_admin", JS.Num 0)]))), Demo.catalog).
Proof.
  intros req. split; [reflexivity|].
  exact (bearer_token_is_second_word Demo.libs req Demo.environment Demo.catalog
           "shopper.jwt" "and some trailing words" eq_refl (or_intror eq_refl)).
Defined.

(** X3. A verified token whose claims carry the admin flag passes both
    guards: the stages after them run on the request with the claims attached
    as [req.user]. *)
Theorem admin_token_reaches_handler :
  forall (L : Libs) (req : request) (e : env) (db : Sqlite.database)
         (payload : JS.value) (rest : list stage),
    authenticated_as req e payload ->
    JS.truthy (JS.get "is_admin" payload) = true ->
    run_stages (authMiddleware :: adminMiddleware :: rest) req e db
    = run_stages rest (with_user req payload) e db.
Proof.
  intros L req e db payload rest Hauth Hflag.
  rewrite (auth_stage_passes _ req e db payload Hauth), run_stages_cons.
  unfold adminMiddleware. cbn [user with_user]. rewrite Hflag.
  destruct payload; try discriminate Hflag. reflexivity.
Qed.

Lemma admin_token_reaches_handler_witness :
  let req := Demo.request_to DELETE ["api"; "admin"; "products"; "2"]
               (Some "Bearer admin.jwt") (JS.Obj []) (JS.Obj []) in
  let admin := JS.Obj [("id", JS.Num 1); ("email", JS.Str "admin@caprio.com");
                       ("is_admin", JS.Num 1)] in
  authenticated_as (L := Demo.libs) req Demo.environment admin
  /\ run_stages [authMiddleware (L := Demo.libs); adminMiddleware;
                 delete_product (L := Demo.libs)] req Demo.environment Demo.catalog
     = run_stages [delete_product (L := Demo.libs)] (with_user req admin)
         Demo.environment Demo.catalog.
Proof.
  intros req admin.
  assert (Hauth : authenticated_as (L := Demo.libs) req Demo.environment admin).
  { exists "Bearer admin.jwt", "admin.jwt". repeat split. }
  split; [exact Hauth|].
  exact (admin_token_reaches_handler Demo.libs req Demo.environment Demo.catalog
           admin _ Hauth eq_refl).
Defined.

(** ** Accounts *)

Section AccountFacts.
Context {L : Libs}.

Lemma getAsync_user_by_id (id : JS.value) (now : string) (db : Sqlite.database) :
  getAsync "SELECT id, name, email, is_admin, created_at FROM users WHERE id = ?"
    [id] now db
  = (Sqlite.Resolve
       (List.hd JS.Undefined
          (List.map Sqlite.user_public_row
             (List.filter
                (fun u => Sqlite.eqb (Sqlite.rowid (Sqlite.user_id u))
                            (Sqlite.numeric_affinity (Sqlite.bind id)))
                (Sqlite.users db)))), db).
Proof. reflexivity. Qed.

Lemma runAsync_insert_admin (name email password : JS.value) (now : string)
  (db : Sqlite.database) :
  runAsync "INSERT INTO users (name, email, password, is_admin) VALUES (?,?,?,1)"
    [name; email; password] now db
  = match Sqlite.insert_user true
            [Sqlite.bind name; Sqlite.bind email; Sqlite.bind password] now db with
    | (Sqlite.Resolve r, db') =>
        (Sqlite.Resolve
           (JS.Obj [("lastID", JS.Num (inject_Z (Sqlite.lastID r)));
                    ("changes", JS.Num (inject_Z (Sqlite.changes r)))]), db')
    | (Sqlite.Reject err, db') => (Sqlite.Reject err, db')
    end.
Proof. reflexivity. Qed.

Lemma register_created_inv (req : request) (e : env) (db db' : Sqlite.database)
  (res : response) :
  register req e db = (Sqlite.Resolve (Done res), db') ->
  status res = 200 ->
  exists password,
    JS.truthy (JS.get "email" (body req)) = true
    /\ JS.get "password" (body req) = JS.Str password
    /\ rows_with_email (JS.get "email" (body req)) db = []
    /\ db' = with_new_user db
               (registered_user (body req)
                  (bcrypt_hash_string password 10 (entropy e)) e db)
    /\ json res
       = JS.Obj [("token",
           JS.Str (registration_token
                     (registered_user (body req)
                        (bcrypt_hash_string password 10 (entropy e)) e db)
                     (JS.get "email" (body req)) e))].
Proof.
  intros Hrun Hstatus.
  pose proof (register_cases req e db) as Hcase. rewrite Hrun in Hcase.
  inversion Hcase; subst; try discriminate Hstatus.
  exists password. repeat split; assumption.
Qed.

(** The bootstrap, by whether the admin email is stored already. *)
Lemma bootstrap_run (adminEmail adminPassword : string) (e : env)
  (db : Sqlite.database) :
  bootstrap adminEmail adminPassword e db
  = (Sqlite.Resolve tt,
     match rows_with_email (JS.Str adminEmail) db with
     | [] =>
         with_new_user db
           {| Sqlite.user_id :=
                Sqlite.next_rowid (Sqlite.seq_users db)
                  (List.map Sqlite.user_id (Sqlite.users db));
              Sqlite.user_name := Sqlite.Text "Admin";
              Sqlite.user_email := Sqlite.Text adminEmail;
              Sqlite.user_password :=
                Sqlite.Text (bcrypt_hash_string adminPassword 10 (entropy e));
              Sqlite.user_is_admin := Sqlite.Num 1;
              Sqlite.user_created_at := Sqlite.Text (CURRENT_TIMESTAMP e) |}
     | _ :: _ => db
     end).
Proof.
  unfold bootstrap, await. rewrite getAsync_user_id, truthy_first_row.
  destruct (rows_with_email (JS.Str adminEmail) db) as [|u rest] eqn:Hrows;
    cbn [List.length Nat.eqb negb]; [|reflexivity].
  cbn [bcrypt_hash resolve]. rewrite runAsync_insert_admin.
  unfold Sqlite.insert_user. cbn [Sqlite.param List.nth].
  apply existsb_filter_nil in Hrows. unfold has_email, stored_email in Hrows.
  rewrite Hrows. reflexivity.
Qed.

End AccountFacts.

(** X4. The startup bootstrap of the administrator account is idempotent.
    When no user has the admin email it appends one row with that email, the
    name [Admin], the bcrypt hash of the admin password and [is_admin] 1; when
    a user has it already it changes nothing; and run again on its own result
    (a restart) it changes nothing. *)
Theorem bootstrap_idempotent :
  forall (L : Libs) (adminEmail adminPassword : string) (e1 e2 : env)
         (db : Sqlite.database),
    let db1 := snd (bootstrap adminEmail adminPassword e1 db) in
    snd (bootstrap adminEmail adminPassword e2 db1) = db1
    /\ (rows_with_email (JS.Str adminEmail) db <> [] -> db1 = db)
    /\ (rows_with_email (JS.Str adminEmail) db = [] ->
        exists u,
          Sqlite.users db1 = Sqlite.users db ++ [u]
          /\ Sqlite.user_email u = Sqlite.Text adminEmail
          /\ Sqlite.user_name u = Sqlite.Text "Admin"
          /\ Sqlite.user_password u
             = Sqlite.Text (bcrypt_hash_string adminPassword 10 (entropy e1))
          /\ Sqlite.user_is_admin u = Sqlite.Num 1
          /\ rows_with_email (JS.Str adminEmail) db1 = [u]).
Proof.
  intros L adminEmail adminPassword e1 e2 db db1. subst db1.
  rewrite !bootstrap_run. cbn [snd].
  destruct (rows_with_email (JS.Str adminEmail) db) as [|u rest] eqn:Hrows.
  - match goal with
    | |- context [with_new_user db ?u] => set (admin := u)
    end.
    assert (Hone : rows_with_email (JS.Str adminEmail) (with_new_user db admin)
                   = [admin]).
    { unfold rows_with_email in *. cbn [with_new_user Sqlite.users].
      rewrite List.filter_app, Hrows. cbn [List.filter app].
      unfold has_email, stored_email.
      cbn [admin Sqlite.user_email Sqlite.bind Sqlite.text_affinity Sqlite.eqb].
      rewrite String.eqb_refl. reflexivity. }
    rewrite Hone. split; [reflexivity|]. split; [congruence|].
    intros _. exists admin. repeat split; try exact Hone.
  - rewrite Hrows. split; [reflexivity|]. split; [reflexivity|]. discriminate.
Qed.

(** X5. [GET /api/me] never discloses the password hash: it answers 200 with
    [{user}], where [user] is [undefined] when no stored user has the id of
    the claims (there is no 404), and otherwise the row of such a user without
    its [password] column; the database is left as it is. *)
Theorem me_hides_password :
  forall (L : Libs) (req : request) (e : env) (db : Sqlite.database),
    exists u,
      me req e db
      = (Sqlite.Resolve (Done {| status := 200; json := JS.Obj [("user", u)] |}), db)
      /\ JS.get "password" u = JS.Undefined
      /\ (u = JS.Undefined
          \/ exists stored,
               In stored (Sqlite.users db)
               /\ Sqlite.eqb (Sqlite.rowid (Sqlite.user_id stored)) (caller_id req) = true
               /\ u = Sqlite.user_public_row stored).
Proof.
  intros L req e db. unfold me, await. rewrite getAsync_user_by_id.
  fold (caller_id req).
  destruct (List.filter
              (fun u => Sqlite.eqb (Sqlite.rowid (Sqlite.user_id u)) (caller_id req))
              (Sqlite.users db)) as [|stored rest] eqn:Hrows.
  - exists JS.Undefined. split; [reflexivity|]. split; [reflexivity|]. left. reflexivity.
  - exists (Sqlite.user_public_row stored).
    split; [reflexivity|]. split; [reflexivity|]. right. exists stored.
    assert (Hin : In stored
                    (List.filter
                       (fun u => Sqlite.eqb (Sqlite.rowid (Sqlite.user_id u))
                                   (caller_id req)) (Sqlite.users db)))
      by (rewrite Hrows; left; reflexivity).
    apply List.filter_In in Hin. destruct Hin as [Hin Hid].
    split; [exact Hin|]. split; [exact Hid | reflexivity].
Qed.

(** X6. [POST /api/login] never writes: whatever the request, the database is
    left as it is; and for an email that no stored user has, a request with a
    body is answered 400 [Invalid email/password] whatever its password field
    holds. *)
Theorem login_never_writes :
  forall (L : Libs) (req : request) (e : env) (db : Sqlite.database),
    snd (login req e db) = db
    /\ (body req <> JS.Undefined -> body req <> JS.Null ->
        rows_with_email (JS.get "email" (body req)) db = [] ->
        login req e db
        = (Sqlite.Resolve
             (Done {| status := 400; json := message "Invalid email/password" |}), db)).
Proof.
  intros L req e db.
  pose proof (login_cases req e db) as Hcase.
  split.
  - inversion Hcase; reflexivity.
  - intros Hb1 Hb2 Hnone.
    inversion Hcase as [Hbody Heq | Hrows Heq | u rest Hrows Hthrow Heq
                       | u rest pw hash Hrows Hpass Hhash Hcmp Heq
                       | u rest pw hash Hrows Hpass Hhash Hcmp Heq];
      try (rewrite Hnone in Hrows; discriminate Hrows).
    + destruct Hbody; contradiction.
    + reflexivity.
Qed.

(** X7. Registration followed by login.  After a registration answered with
    a token for the id of the row it stored, a login with the same email and a
    string password is answered by what [bcrypt] says of that password against
    the hash stored at registration: 200 with a token for the same id, the
    stored email and [is_admin] 0 when it matches, 400 when it does not; the
    database stays as registration left it. *)
Theorem login_after_registration :
  forall (L : Libs) (signup attempt : request) (e1 e2 : env)
         (db db1 : Sqlite.database) (res1 : response) (password : string),
    register signup e1 db = (Sqlite.Resolve (Done res1), db1) ->
    status res1 = 200 ->
    JS.get "email" (body attempt) = JS.get "email" (body signup) ->
    JS.get "password" (body attempt) = JS.Str password ->
    exists id chosen,
      JS.get "password" (body signup) = JS.Str chosen
      /\ json res1
         = JS.Obj [("token",
             JS.Str (jwt_sign
                       (JS.Obj [("id", JS.Num (inject_Z id));
                                ("email", JS.get "email" (body signup));
                                ("is_admin", JS.Num 0)])
                       (JWT_SECRET e1) "7d" (clock e1)))]
      /\ login attempt e2 db1
         = (Sqlite.Resolve
              (Done
                 (if bcrypt_compare_string password
                       (bcrypt_hash_string chosen 10 (entropy e1))
                  then {| status := 200;
                          json := JS.Obj [("token",
                            JS.Str (jwt_sign
                                      (JS.Obj [("id", JS.Num (inject_Z id));
                                               ("email",
                                                Sqlite.to_js
                                                  (stored_email
                                                     (JS.get "email" (body signup))));
                                               ("is_admin", JS.Num 0)])
                                      (JWT_SECRET e2) "7d" (clock e2)))] |}
                  else {| status := 400;
                          json := message "Invalid email/password" |})), db1).
Proof.
  intros L signup attempt e1 e2 db db1 res1 password Hrun Hok Hsame Hpw.
  destruct (register_created_inv signup e1 db db1 res1 Hrun Hok)
    as (chosen & Hemail & Hchosen & Hnone & -> & Hjson).
  set (u := registered_user (body signup)
              (bcrypt_hash_string chosen 10 (entropy e1)) e1 db) in *.
  pose proof (rows_with_email_new_user _ db u Hemail Hnone eq_refl) as Hone.
  exists (Sqlite.user_id u), chosen.
  split; [exact Hchosen|]. split; [exact Hjson|].
  pose proof (login_cases attempt e2 (with_new_user db u)) as Hcase.
  assert (Hone2 := Hone). rewrite <- Hsame in Hone2.
  inversion Hcase as [Hbody Heq | Hrows Heq | u' rest Hrows Hthrow Heq
                     | u' rest pw hash Hrows Hpass Hhash Hcmp Heq
                     | u' rest pw hash Hrows Hpass Hhash Hcmp Heq];
    try (rewrite Hone2 in Hrows).
  - exfalso. rewrite <- Hsame in Hemail.
    destruct Hbody as [Hb | Hb]; rewrite Hb in Hemail; discriminate Hemail.
  - discriminate Hrows.
  - exfalso. injection Hrows as <- <-. exact (Hthrow password _ Hpw eq_refl).
  - injection Hrows as <- <-. rewrite Hpw in Hpass. injection Hpass as <-.
    cbn [u registered_user Sqlite.user_password] in Hhash. injection Hhash as <-.
    rewrite Hcmp. reflexivity.
  - injection Hrows as <- <-. rewrite Hpw in Hpass. injection Hpass as <-.
    cbn [u registered_user Sqlite.user_password] in Hhash. injection Hhash as <-.
    rewrite Hcmp. reflexivity.
Qed.

Lemma login_after_registration_witness :
  let signup := Demo.request_to POST ["api"; "register"] None (JS.Obj [])
                  (JS.Obj [("email", JS.Str "alice@x.com");
                           ("password", JS.Str "pw123456")]) in
  let attempt := Demo.request_to POST ["api"; "login"] None (JS.Obj [])
                   (JS.Obj [("email", JS.Str "alice@x.com");
                            ("password", JS.Str "pw123456")]) in
  let db1 := snd (register (L := Demo.libs) signup Demo.environment Demo.catalog) in
  register (L := Demo.libs) signup Demo.environment Demo.catalog
  = (Sqlite.Resolve
       (Done {| status := 200; json := JS.Obj [("token", JS.Str "shopper.jwt")] |}),
     db1)
  /\ exists id chosen,
       JS.get "password" (body signup) = JS.Str chosen
       /\ fst (login (L := Demo.libs) attempt Demo.environment db1)
          = Sqlite.Resolve
              (Done
                 (if bcrypt_compare_string (Libs := Demo.libs) "pw123456"
                       (bcrypt_hash_string (Libs := Demo.libs) chosen 10 "salt")
                  then {| status := 200;
                          json := JS.Obj [("token",
                            JS.Str (jwt_sign (Libs := Demo.libs)
                                      (JS.Obj [("id", JS.Num (inject_Z id));
                                               ("email", JS.Str "alice@x.com");
                                               ("is_admin", JS.Num 0)])
                                      "dev_secret_change_me" "7d" 1700000000))] |}
                  else {| status := 400;
                          json := message "Invalid email/password" |})).
Proof.
  intros signup attempt db1.
  split; [reflexivity|].
  destruct (login_after_registration Demo.libs signup attempt Demo.environment
              Demo.environment Demo.catalog db1
              {| status := 200; json := JS.Obj [("token", JS.Str "shopper.jwt")] |}
              "pw123456" eq_refl eq_refl eq_refl eq_refl)
    as (id & chosen & Hchosen & _ & Hlogin).
  exists id, chosen. split; [exact Hchosen|]. rewrite Hlogin. reflexivity.
Defined.

(** ** Products *)

Section ProductFacts.
Context {L : Libs}.

Lemma getAsync_product (id : JS.value) (now : string) (db : Sqlite.database) :
  getAsync "SELECT * FROM products WHERE id = ? OR slug = ?" [id; id] now db
  = (Sqlite.Resolve
       (List.hd JS.Undefined
          (List.map Sqlite.product_row
             (List.filter (product_hit id) (Sqlite.products db)))), db).
Proof. reflexivity. Qed.

Lemma runAsync_statement (sql : string) (st : Sqlite.statement)
  (params : list JS.value) (now : string) (db : Sqlite.database) :
  Sqlite.prepare sql = Some st ->
  runAsync sql params now db
  = match Sqlite.exec st (List.map Sqlite.bind params) now db with
    | (Sqlite.Resolve r, db') =>
        (Sqlite.Resolve
           (JS.Obj [("lastID", JS.Num (inject_Z (Sqlite.lastID r)));
                    ("changes", JS.Num (inject_Z (Sqlite.changes r)))]), db')
    | (Sqlite.Reject err, db') => (Sqlite.Reject err, db')
    end.
Proof. intros H. unfold runAsync, run_statement. rewrite H. reflexivity. Qed.

Lemma runAsync_insert_product (params : list JS.value) (now : string)
  (db : Sqlite.database) :
  runAsync "INSERT INTO products (name, slug, description, price, colors, images, category, age_group) VALUES (?,?,?,?,?,?,?,?)"
    params now db
  = match Sqlite.exec (Sqlite.InsertProduct false) (List.map Sqlite.bind params) now db with
    | (Sqlite.Resolve r, db') =>
        (Sqlite.Resolve
           (JS.Obj [("lastID", JS.Num (inject_Z (Sqlite.lastID r)));
                    ("changes", JS.Num (inject_Z (Sqlite.changes r)))]), db')
    | (Sqlite.Reject err, db') => (Sqlite.Reject err, db')
    end.
Proof. apply runAsync_statement. reflexivity. Qed.

Lemma runAsync_seed_product (params : list JS.value) (now : string)
  (db : Sqlite.database) :
  runAsync "INSERT OR IGNORE INTO products (name, slug, description, price, colors, images, category, age_group) VALUES (?,?,?,?,?,?,?,?)"
    params now db
  = match Sqlite.exec (Sqlite.InsertProduct true) (List.map Sqlite.bind params) now db with
    | (Sqlite.Resolve r, db') =>
        (Sqlite.Resolve
           (JS.Obj [("lastID", JS.Num (inject_Z (Sqlite.lastID r)));
                    ("changes", JS.Num (inject_Z (Sqlite.changes r)))]), db')
    | (Sqlite.Reject err, db') => (Sqlite.Reject err, db')
    end.
Proof. apply runAsync_statement. reflexivity. Qed.

Lemma runAsync_update_product (params : list JS.value) (now : string)
  (db : Sqlite.database) :
  runAsync "UPDATE products SET name=?, slug=?, description=?, price=?, colors=?, images=?, category=?, age_group=? WHERE id=?"
    params now db
  = match Sqlite.exec Sqlite.UpdateProduct (List.map Sqlite.bind params) now db with
    | (Sqlite.Resolve r, db') =>
        (Sqlite.Resolve
           (JS.Obj [("lastID", JS.Num (inject_Z (Sqlite.lastID r)));
                    ("changes", JS.Num (inject_Z (Sqlite.changes r)))]), db')
    | (Sqlite.Reject err, db') => (Sqlite.Reject err, db')
    end.
Proof. apply runAsync_statement. reflexivity. Qed.

Lemma runAsync_delete_product (params : list JS.value) (now : string)
  (db : Sqlite.database) :
  runAsync "DELETE FROM products WHERE id = ?" params now db
  = match Sqlite.exec Sqlite.DeleteProduct (List.map Sqlite.bind params) now db with
    | (Sqlite.Resolve r, db') =>
        (Sqlite.Resolve
           (JS.Obj [("lastID", JS.Num (inject_Z (Sqlite.lastID r)));
                    ("changes", JS.Num (inject_Z (Sqlite.changes r)))]), db')
    | (Sqlite.Reject err, db') => (Sqlite.Reject err, db')
    end.
Proof. apply runAsync_statement. reflexivity. Qed.

Lemma parse_or_empty_run (v : JS.value) :
  exists o, forall db, parse_or_empty v db = (o, db).
Proof. exact (pure_parse_or_empty v). Qed.

Lemma is_null_true (v : Sqlite.value) : Sqlite.is_null v = true <-> v = Sqlite.Null.
Proof. destruct v; cbn; split; congruence. Qed.

End ProductFacts.

(** X8. [GET /api/products/:id] looks the path parameter up as an id and as a
    slug alike.  It never writes; it answers 404 [Not found] exactly when no
    product has that id or that slug, and a 200 answer is the decoded row of a
    stored product that has that id or that slug. *)
Theorem get_product_by_id_or_slug :
  forall (L : Libs) (req : request) (e : env) (db : Sqlite.database),
    let id := JS.get "id" (params req) in
    snd (get_product req e db) = db
    /\ (List.filter (product_hit id) (Sqlite.products db) = [] ->
        get_product req e db
        = (Sqlite.Resolve (Done {| status := 404; json := message "Not found" |}), db))
    /\ (forall res,
          fst (get_product req e db) = Sqlite.Resolve (Done res) ->
          (status res = 404
           /\ List.filter (product_hit id) (Sqlite.products db) = [])
          \/ (status res = 200
              /\ exists p, In p (Sqlite.products db)
                           /\ product_hit id p = true
                           /\ row_of p (json res))).
Proof.
  intros L req e db id. unfold get_product, await. fold id.
  rewrite getAsync_product.
  destruct (List.filter (product_hit id) (Sqlite.products db)) as [|p rest] eqn:Hrows.
  - cbn. split; [reflexivity|]. split; [reflexivity|].
    intros res H. injection H as <-. left. split; reflexivity.
  - assert (Hin : In p (Sqlite.products db) /\ product_hit id p = true).
    { apply List.filter_In. rewrite Hrows. left. reflexivity. }
    cbn [List.map List.hd Sqlite.product_row JS.truthy negb].
    change (JS.get "images" (Sqlite.product_row p))
      with (Sqlite.to_js (Sqlite.product_images p)).
    destruct (parse_or_empty_run (Sqlite.to_js (Sqlite.product_images p)))
      as [[images|err] Himages]; rewrite Himages.
    + change (JS.get "colors" (JS.set "images" images (Sqlite.product_row p)))
        with (Sqlite.to_js (Sqlite.product_colors p)).
      destruct (parse_or_empty_run (Sqlite.to_js (Sqlite.product_colors p)))
        as [[colors|err] Hcolors]; rewrite Hcolors.
      * split; [reflexivity|]. split; [discriminate|].
        intros res H. injection H as <-. right. split; [reflexivity|].
        exists p. split; [exact (proj1 Hin)|]. split; [exact (proj2 Hin)|].
        exists images, colors. reflexivity.
      * split; [reflexivity|]. split; [discriminate|]. intros res H. discriminate H.
    + split; [reflexivity|]. split; [discriminate|]. intros res H. discriminate H.
Qed.

(** X9. [POST /api/admin/products] with a body.  Without a name the insert
    violates NOT NULL, and with a slug another product has it violates UNIQUE:
    both are answered 500 with the database unchanged.  Otherwise the answer
    is 200 with the id of the one appended product; that id is larger than
    every id in the table, rating and reviews start at 0, and a missing
    category or age_group is stored as the empty text. *)
Theorem create_product_outcomes :
  forall (L : Libs) (req : request) (e : env) (db : Sqlite.database),
    body req <> JS.Undefined -> body req <> JS.Null ->
    let name := Sqlite.text_affinity (Sqlite.bind (JS.get "name" (body req))) in
    let slug := Sqlite.text_affinity (Sqlite.bind (JS.get "slug" (body req))) in
    let taken :=
      List.existsb (fun p => Sqlite.eqb slug (Sqlite.product_slug p))
        (Sqlite.products db) in
    let db' := snd (create_product req e db) in
    (name = Sqlite.Null \/ taken = true ->
     create_product req e db
     = (Sqlite.Resolve (Done {| status := 500; json := message "Server error" |}), db))
    /\ (name <> Sqlite.Null -> taken = false ->
        exists p,
          create_product req e db
          = (Sqlite.Resolve
               (Done {| status := 200;
                        json := JS.Obj [("id", JS.Num (inject_Z (Sqlite.product_id p)))] |}),
             db')
          /\ Sqlite.products db' = Sqlite.products db ++ [p]
          /\ Sqlite.users db' = Sqlite.users db
          /\ Sqlite.wishlists db' = Sqlite.wishlists db
          /\ (forall q, In q (Sqlite.products db) ->
                (Sqlite.product_id q < Sqlite.product_id p)%Z)
          /\ Sqlite.product_name p = name
          /\ Sqlite.product_slug p = slug
          /\ Sqlite.product_rating p = Sqlite.Num 0
          /\ Sqlite.product_reviews p = Sqlite.Num 0
          /\ Sqlite.product_category p
             = Sqlite.text_affinity
                 (Sqlite.bind (JS.or_else (JS.get "category" (body req)) (JS.Str "")))
          /\ Sqlite.product_age_group p
             = Sqlite.text_affinity
                 (Sqlite.bind (JS.or_else (JS.get "age_group" (body req)) (JS.Str "")))).
Proof.
  intros L req e db Hb1 Hb2. cbv zeta.
  unfold create_product, await. rewrite destructure_object by assumption.
  unfold try_catch, await. rewrite runAsync_insert_product.
  unfold Sqlite.exec.
  change (Nat.ltb _ _) with false. cbv iota.
  unfold Sqlite.insert_product, product_params.
  cbn [List.map Sqlite.product_of_params Sqlite.product_name Sqlite.product_slug
       Sqlite.param List.nth].
  destruct (Sqlite.is_null
              (Sqlite.text_affinity (Sqlite.bind (JS.get "name" (body req)))))
    eqn:Hnull.
  - apply is_null_true in Hnull. split; [intros _; reflexivity|].
    intros Hname. contradiction.
  - assert (Hname : Sqlite.text_affinity (Sqlite.bind (JS.get "name" (body req)))
                    <> Sqlite.Null).
    { intros H. apply is_null_true in H. congruence. }
    destruct (List.existsb _ (Sqlite.products db)) eqn:Htaken.
    + split; [intros _; reflexivity|]. intros _ H. discriminate H.
    + split; [intros [H | H]; [contradiction | discriminate H]|].
      intros _ _.
      match goal with
      | |- context [Sqlite.products db ++ [?x]] => exists x
      end.
      split; [reflexivity|].
      cbn [snd Sqlite.changed send resolve Sqlite.products Sqlite.users
           Sqlite.wishlists Sqlite.product_id
           Sqlite.product_name Sqlite.product_slug Sqlite.product_rating
           Sqlite.product_reviews Sqlite.product_category Sqlite.product_age_group].
      repeat split.
      intros q Hq. apply next_rowid_fresh. apply List.in_map. exact Hq.
Qed.

Lemma create_product_outcomes_witness :
  let req := Demo.request_to POST ["api"; "admin"; "products"] (Some "Bearer admin.jwt")
               (JS.Obj [])
               (JS.Obj [("name", JS.Str "Rain jacket II"); ("slug", JS.Str "Rain jacket");
                        ("price", JS.Num 70)]) in
  body req <> JS.Undefined /\ body req <> JS.Null
  /\ create_product (L := Demo.libs) req Demo.environment Demo.catalog
     = (Sqlite.Resolve (Done {| status := 500; json := message "Server error" |}),
        Demo.catalog).
Proof.
  intros req.
  assert (H1 : body req <> JS.Undefined) by discriminate.
  assert (H2 : body req <> JS.Null) by discriminate.
  split; [exact H1|]. split; [exact H2|].
  apply (proj1 (create_product_outcomes Demo.libs req Demo.environment Demo.catalog
                  H1 H2)).
  right. reflexivity.
Defined.

Lemma filter_negb_none {A} (f : A -> bool) (l : list A) :
  List.filter f l = [] -> List.filter (fun x => negb (f x)) l = l.
Proof.
  induction l as [|x l IH]; [reflexivity|]. cbn [List.filter].
  destruct (f x); [discriminate|]. intros H. cbn [negb]. rewrite (IH H). reflexivity.
Qed.

(** X10. [DELETE /api/admin/products/:id] always answers [success], also
    when no product has the id (there is no 404).  It removes exactly the
    products with that id and nothing else: users and wishlist entries, also
    those that name the product, stay as they were. *)
Theorem delete_product_removes :
  forall (L : Libs) (req : request) (e : env) (db : Sqlite.database),
    let id := JS.get "id" (params req) in
    exists db',
      delete_product req e db = (Sqlite.Resolve (Done ok_success), db')
      /\ (forall p, In p (Sqlite.products db') <->
            In p (Sqlite.products db) /\ product_with_id id p = false)
      /\ (List.filter (product_with_id id) (Sqlite.products db) = [] ->
          Sqlite.products db' = Sqlite.products db)
      /\ Sqlite.users db' = Sqlite.users db
      /\ Sqlite.wishlists db' = Sqlite.wishlists db.
Proof.
  intros L req e db id. unfold delete_product, try_catch, await. fold id.
  rewrite runAsync_delete_product. unfold Sqlite.exec.
  change (Nat.ltb _ _) with false. cbv iota.
  cbn [Sqlite.delete_product Sqlite.changed List.map Sqlite.param List.nth].
  fold (product_with_id id).
  eexists. split; [reflexivity|].
  cbn [Sqlite.products Sqlite.users Sqlite.wishlists].
  split; [|split; [|split; reflexivity]].
  - intros p. rewrite List.filter_In, Bool.negb_true_iff. reflexivity.
  - intros Hnone. exact (filter_negb_none (product_with_id id) _ Hnone).
Qed.

(** X11. [PUT /api/admin/products/:id] never adds or removes a product and
    never touches ids, ratings, review counts, creation times, users or
    wishlists; products with another id stay as they were; and with a body and
    an id no product has it answers [success] and changes nothing (there is
    no 404). *)
Theorem update_product_keeps_identity :
  forall (L : Libs) (req : request) (e : env) (db : Sqlite.database),
    let id := JS.get "id" (params req) in
    let db' := snd (update_product req e db) in
    List.map Sqlite.product_id (Sqlite.products db')
    = List.map Sqlite.product_id (Sqlite.products db)
    /\ List.map Sqlite.product_rating (Sqlite.products db')
       = List.map Sqlite.product_rating (Sqlite.products db)
    /\ List.map Sqlite.product_reviews (Sqlite.products db')
       = List.map Sqlite.product_reviews (Sqlite.products db)
    /\ List.map Sqlite.product_created_at (Sqlite.products db')
       = List.map Sqlite.product_created_at (Sqlite.products db)
    /\ Sqlite.users db' = Sqlite.users db
    /\ Sqlite.wishlists db' = Sqlite.wishlists db
    /\ (forall p, In p (Sqlite.products db) -> product_with_id id p = false ->
          In p (Sqlite.products db'))
    /\ (body req <> JS.Undefined -> body req <> JS.Null ->
        List.filter (product_with_id id) (Sqlite.products db) = [] ->
        update_product req e db = (Sqlite.Resolve (Done ok_success), db)).
Proof.
  intros L req e db id db'. subst db'.
  destruct (body req) eqn:Hb;
    try (unfold update_product, await; rewrite Hb; cbn [destructure throw snd];
         repeat split; auto; intros; congruence).
  all: unfold update_product, await;
    rewrite destructure_object by (rewrite Hb; discriminate).
  all: unfold try_catch, await; rewrite runAsync_update_product.
  all: unfold Sqlite.exec; change (Nat.ltb _ _) with false; cbv iota.
  all: unfold Sqlite.update_product, product_params.
  all: cbn [List.map Datatypes.app Sqlite.param List.nth]; fold id;
    fold (product_with_id id).
  all: destruct (List.filter (product_with_id id) (Sqlite.products db))
         as [|target rest] eqn:Hhits;
    [cbn [Sqlite.changed send resolve snd]; repeat split; auto|].
  all: destruct (Sqlite.is_null _);
    [cbn [send resolve snd]; repeat split; auto; intros; discriminate|].
  all: destruct (List.existsb _ _);
    [cbn [send resolve snd]; repeat split; auto; intros; discriminate|].
  all: cbn [Sqlite.changed send resolve snd Sqlite.products Sqlite.users
            Sqlite.wishlists].
  all: rewrite !List.map_map.
  all: repeat match goal with
              | |- _ /\ _ => split
              | |- List.map _ _ = List.map _ _ =>
                  apply List.map_ext; intros p; destruct (Sqlite.eqb _ _);
                  reflexivity
              | |- forall p, In p _ -> _ =>
                  intros p Hp Hmiss; apply List.in_map_iff; exists p;
                  unfold product_with_id in Hmiss; rewrite Hmiss; auto
              | |- _ <> _ -> _ => intros; discriminate
              | |- _ = _ => reflexivity
              end.
Qed.

Section SeedFacts.
Context {L : Libs}.

Lemma seed_statement (ps : list JS.value) (now : string) (db : Sqlite.database) :
  List.length ps = 8%nat ->
  exists r,
    runAsync "INSERT OR IGNORE INTO products (name, slug, description, price, colors, images, category, age_group) VALUES (?,?,?,?,?,?,?,?)"
      ps now db
    = (Sqlite.Resolve r,
       snd (Sqlite.insert_product true (List.map Sqlite.bind ps) now db)).
Proof.
  intros Hlen. rewrite runAsync_seed_product. unfold Sqlite.exec.
  cbn [Sqlite.arity]. rewrite List.length_map, Hlen. cbn [Nat.ltb Nat.leb].
  unfold Sqlite.insert_product.
  destruct (Sqlite.is_null _); [eexists; reflexivity|].
  destruct (List.existsb _ _); eexists; reflexivity.
Qed.

(** INSERT OR IGNORE of a product with a name and a slug: afterwards a
    product with the slug is stored, at most one product was appended and
    nothing else changed. *)
Lemma seed_insert (ps : list Sqlite.value) (now : string) (db : Sqlite.database) :
  let slug := Sqlite.text_affinity (Sqlite.param ps 1) in
  let db' := snd (Sqlite.insert_product true ps now db) in
  Sqlite.text_affinity (Sqlite.param ps 0) <> Sqlite.Null ->
  slug <> Sqlite.Null ->
  List.existsb (fun p => Sqlite.eqb slug (Sqlite.product_slug p)) (Sqlite.products db')
  = true
  /\ (exists added,
         Sqlite.products db' = Sqlite.products db ++ added
         /\ (List.length added <= 1)%nat)
  /\ Sqlite.users db' = Sqlite.users db
  /\ Sqlite.wishlists db' = Sqlite.wishlists db.
Proof.
  intros slug db' Hname Hslug. subst db'. unfold Sqlite.insert_product.
  cbn [Sqlite.product_of_params Sqlite.product_name Sqlite.product_slug].
  fold slug.
  destruct (Sqlite.is_null (Sqlite.text_affinity (Sqlite.param ps 0))) eqn:Hnull.
  { apply is_null_true in Hnull. contradiction. }
  destruct (List.existsb _ (Sqlite.products db)) eqn:Hex;
    cbn [snd Sqlite.changed Sqlite.products Sqlite.users Sqlite.wishlists].
  - split; [exact Hex|]. split; [|split; reflexivity].
    exists []. rewrite List.app_nil_r. split; [reflexivity | cbn; lia].
  - split; [|split; [|split; reflexivity]].
    + rewrite List.existsb_app. cbn [List.existsb Sqlite.product_slug].
      rewrite eqb_refl by exact Hslug. rewrite Bool.orb_true_r. reflexivity.
    + eexists. split; [reflexivity | cbn; lia].
Qed.

(** An INSERT OR IGNORE of a product whose slug is stored skips the row and
    leaves the counter on the rowid it drew. *)
Lemma seed_insert_present (ps : list Sqlite.value) (now : string)
  (db : Sqlite.database) :
  List.existsb
    (fun p => Sqlite.eqb (Sqlite.text_affinity (Sqlite.param ps 1))
                (Sqlite.product_slug p)) (Sqlite.products db) = true ->
  snd (Sqlite.insert_product true ps now db)
  = Sqlite.skipped_product db
      (Sqlite.next_rowid (Sqlite.seq_products db)
         (List.map Sqlite.product_id (Sqlite.products db))).
Proof.
  intros Hex. unfold Sqlite.insert_product.
  cbn [Sqlite.product_of_params Sqlite.product_name Sqlite.product_slug].
  destruct (Sqlite.is_null _); [reflexivity|]. rewrite Hex. reflexivity.
Qed.

Lemma existsb_app_l {A} (f : A -> bool) (l added : list A) :
  List.existsb f l = true -> List.existsb f (l ++ added) = true.
Proof. intros H. rewrite List.existsb_app, H. reflexivity. Qed.

End SeedFacts.

(** X12. [POST /api/admin/seed-demo] is idempotent on the rows.  It always
    answers [seeded]; it appends at most the two demo products (none whose
    slug is taken) and leaves the users and the wishlists alone; afterwards
    both demo slugs are stored; and run again on its own result it adds,
    removes and changes no row of any table.  The second run is not without
    trace: each of its two skipped inserts draws a rowid, and the
    AUTOINCREMENT counter of the products table ends higher than it was. *)
Theorem seed_demo_idempotent :
  forall (L : Libs) (req1 req2 : request) (e1 e2 : env) (db : Sqlite.database),
    let db1 := snd (seed_demo req1 e1 db) in
    fst (seed_demo req1 e1 db)
    = Sqlite.Resolve (Done {| status := 200; json := JS.Obj [("seeded", JS.Bool true)] |})
    /\ same_rows (snd (seed_demo req2 e2 db1)) db1
    /\ (Sqlite.seq_products db1 < Sqlite.seq_products (snd (seed_demo req2 e2 db1)))%Z
    /\ (exists added,
           Sqlite.products db1 = Sqlite.products db ++ added
           /\ (List.length added <= 2)%nat)
    /\ Sqlite.users db1 = Sqlite.users db
    /\ Sqlite.wishlists db1 = Sqlite.wishlists db
    /\ List.existsb
         (fun p => Sqlite.eqb (Sqlite.Text "everest-adventure-hoodie")
                     (Sqlite.product_slug p)) (Sqlite.products db1) = true
    /\ List.existsb
         (fun p => Sqlite.eqb (Sqlite.Text "cosmic-explorer-tee")
                     (Sqlite.product_slug p)) (Sqlite.products db1) = true.
Proof.
  intros L req1 req2 e1 e2 db.
  assert (Hrun : forall req e d,
             exists ps1 ps2 : list Sqlite.value,
               Sqlite.text_affinity (Sqlite.param ps1 0)
               = Sqlite.Text "Everest Adventure Hoodie"
               /\ Sqlite.text_affinity (Sqlite.param ps1 1)
                  = Sqlite.Text "everest-adventure-hoodie"
               /\ Sqlite.text_affinity (Sqlite.param ps2 0)
                  = Sqlite.Text "Cosmic Explorer Glow-in-the-Dark Tee"
               /\ Sqlite.text_affinity (Sqlite.param ps2 1)
                  = Sqlite.Text "cosmic-explorer-tee"
               /\ forall now1 now2,
                    now1 = CURRENT_TIMESTAMP e -> now2 = CURRENT_TIMESTAMP e ->
                    seed_demo req e d
                    = (Sqlite.Resolve
                         (Done {| status := 200;
                                  json := JS.Obj [("seeded", JS.Bool true)] |}),
                       snd (Sqlite.insert_product true ps2 now2
                              (snd (Sqlite.insert_product true ps1 now1 d))))).
  { intros req e d. do 2 eexists.
    split; [|split; [|split; [|split]]]; cycle 4.
    - intros now1 now2 -> ->.
      unfold seed_demo, try_catch, demo_products. cbn [for_each].
      unfold await.
      match goal with
      | |- context [runAsync _ ?ps _ d] =>
          destruct (seed_statement ps (CURRENT_TIMESTAMP e) d eq_refl) as [r1 H1];
          rewrite H1
      end.
      match goal with
      | |- context [runAsync _ ?ps _ ?d1] =>
          destruct (seed_statement ps (CURRENT_TIMESTAMP e) d1 eq_refl) as [r2 H2];
          rewrite H2
      end.
      reflexivity.
    - reflexivity.
    - reflexivity.
    - reflexivity.
    - reflexivity. }
  intros db1. subst db1.
  destruct (Hrun req1 e1 db) as (ps1 & ps2 & Hn1 & Hs1 & Hn2 & Hs2 & Hfirst).
  rewrite (Hfirst _ _ eq_refl eq_refl). cbn [fst snd].
  set (now1 := CURRENT_TIMESTAMP e1).
  set (d1 := snd (Sqlite.insert_product true ps1 now1 db)).
  set (d2 := snd (Sqlite.insert_product true ps2 now1 d1)).
  destruct (seed_insert ps1 now1 db) as (Hin1 & [added1 [Hadd1 Hlen1]] & Hu1 & Hw1);
    [rewrite Hn1; discriminate | rewrite Hs1; discriminate |].
  destruct (seed_insert ps2 now1 d1) as (Hin2 & [added2 [Hadd2 Hlen2]] & Hu2 & Hw2);
    [rewrite Hn2; discriminate | rewrite Hs2; discriminate |].
  fold d1 in Hin1, Hadd1, Hu1, Hw1. fold d2 in Hin2, Hadd2, Hu2, Hw2.
  rewrite Hs1 in Hin1. rewrite Hs2 in Hin2.
  assert (Hin1' : List.existsb
                    (fun p => Sqlite.eqb (Sqlite.Text "everest-adventure-hoodie")
                                (Sqlite.product_slug p)) (Sqlite.products d2) = true).
  { rewrite Hadd2. apply existsb_app_l. exact Hin1. }
  assert (Hagain :
            exists id1 id2,
              snd (seed_demo req2 e2 d2)
              = Sqlite.skipped_product (Sqlite.skipped_product d2 id1) id2
              /\ (Sqlite.seq_products d2 < id1)%Z /\ (id1 < id2)%Z).
  { destruct (Hrun req2 e2 d2) as (qs1 & qs2 & Gn1 & Gs1 & Gn2 & Gs2 & Hsecond).
    rewrite (Hsecond _ _ eq_refl eq_refl). cbn [snd].
    rewrite (seed_insert_present qs1) by (rewrite Gs1; exact Hin1').
    rewrite (seed_insert_present qs2)
      by (rewrite Gs2; cbn [Sqlite.skipped_product Sqlite.products]; exact Hin2).
    do 2 eexists. split; [reflexivity|].
    cbn [Sqlite.skipped_product Sqlite.seq_products Sqlite.products].
    split; exact (proj1 (next_rowid_fresh _ _)). }
  destruct Hagain as (id1 & id2 & Hagain & Hid1 & Hid2).
  split; [reflexivity|]. split; [|split; [|split; [|split; [|split; [|split]]]]].
  - rewrite Hagain. split; [|split]; reflexivity.
  - rewrite Hagain. cbn [Sqlite.skipped_product Sqlite.seq_products]. lia.
  - exists (added1 ++ added2). rewrite Hadd2, Hadd1, List.app_assoc.
    split; [reflexivity|]. rewrite List.length_app. lia.
  - rewrite Hu2, Hu1. reflexivity.
  - rewrite Hw2, Hw1. reflexivity.
  - exact Hin1'.
  - exact Hin2.
Qed.

(** ** The route table *)

Section RouteTableFacts.
Context {L : Libs}.

Lemma public_handlers_ignore_authorization :
  ignores_authorization register /\ ignores_authorization login
  /\ ignores_authorization list_products /\ ignores_authorization get_product.
Proof. repeat split. Qed.

Lemma find_public_route (v : method) (p : list string) :
  public_endpoint v p ->
  exists handler bound r,
    find_route app v p = Some (r, bound)
    /\ route_stages r = [handler]
    /\ ignores_authorization handler.
Proof.
  destruct public_handlers_ignore_authorization as (Hr & Hl & Hp & Hg).
  intros [[-> ->] | [[-> ->] | [[-> ->] | (id & Hid & -> & ->)]]].
  - exists register. do 2 eexists. split; [reflexivity|]. split; [reflexivity|exact Hr].
  - exists login. do 2 eexists. split; [reflexivity|]. split; [reflexivity|exact Hl].
  - exists list_products. do 2 eexists.
    split; [reflexivity|]. split; [reflexivity|exact Hp].
  - apply String.eqb_neq in Hid. exists get_product. do 2 eexists.
    split; [cbn; rewrite Hid; reflexivity|]. split; [reflexivity | exact Hg].
Qed.

Lemma find_route_outside_api (routes : list route) (v : method) (p : list string) :
  Forall (fun r => exists tl, route_path r = Lit "api" :: tl) routes ->
  outside_api p = true ->
  find_route routes v p = None.
Proof.
  intros Hall Hp. induction Hall as [|r routes [tl Hr] _ IH]; [reflexivity|].
  cbn [find_route]. destruct (method_eqb (route_verb r) v); [|exact IH].
  rewrite Hr. destruct p as [|x p']; cbn [match_path]; [exact IH|].
  cbn [outside_api] in Hp. apply Bool.negb_true_iff in Hp. rewrite Hp. exact IH.
Qed.

Lemma app_under_api :
  Forall (fun r => exists tl, route_path r = Lit "api" :: tl) app.
Proof. repeat constructor; eexists; reflexivity. Qed.

End RouteTableFacts.

(** X13. Registration, login, the product listing and the product page are
    open: on these four endpoints the answer and the database after the
    request do not depend on the Authorization header, present or not, valid
    or not. *)
Theorem public_routes_ignore_authorization :
  forall (L : Libs) (req : request) (e : env) (db : Sqlite.database)
         (auth : option string),
    public_endpoint (verb req) (path req) ->
    serve (with_authorization req auth) e db = serve req e db.
Proof.
  intros L req e db auth Hpublic. unfold serve. rewrite !dispatch_find_route.
  cbn [verb path with_authorization].
  destruct (find_public_route _ _ Hpublic) as (handler & bound & r & Hfind & Hst & Hh).
  rewrite Hfind, Hst. cbn [run_stages]. unfold await.
  change (with_params (with_authorization req auth) (JS.Obj bound))
    with (with_authorization (with_params req (JS.Obj bound)) auth).
  rewrite Hh. reflexivity.
Qed.

Lemma public_routes_ignore_authorization_witness :
  let req := Demo.request_to GET ["api"; "products"; "2"] None (JS.Obj []) (JS.Obj []) in
  public_endpoint (verb req) (path req)
  /\ serve (L := Demo.libs) (with_authorization req (Some "Bearer forged.jwt"))
       Demo.environment Demo.catalog
     = serve (L := Demo.libs) req Demo.environment Demo.catalog.
Proof.
  intros req.
  assert (H : public_endpoint (verb req) (path req)).
  { right. right. right. exists "2". repeat split. discriminate. }
  split; [exact H|].
  exact (public_routes_ignore_authorization Demo.libs req Demo.environment
           Demo.catalog (Some "Bearer forged.jwt") H).
Defined.

(** X14. Every route of the application lives under [/api]: a request whose
    path does not start with the segment [api], in whatever case its letters
    are written, matches no route, runs no handler and leaves the database as
    it is. *)
Theorem serve_outside_api :
  forall (L : Libs) (req : request) (e : env) (db : Sqlite.database),
    outside_api (path req) = true ->
    find_route app (verb req) (path req) = None
    /\ serve req e db
       = (Sqlite.Resolve {| status := 404; json := JS.Undefined |}, db).
Proof.
  intros L req e db Hpath.
  pose proof (find_route_outside_api app (verb req) (path req) app_under_api Hpath)
    as Hnone.
  split; [exact Hnone|].
  unfold serve. rewrite dispatch_find_route, Hnone. reflexivity.
Qed.

Lemma serve_outside_api_witness :
  let req := Demo.request_to POST ["admin"; "products"] (Some "Bearer admin.jwt")
               (JS.Obj []) (JS.Obj [("name", JS.Str "x")]) in
  outside_api (path req) = true
  /\ serve (L := Demo.libs) req Demo.environment Demo.catalog
     = (Sqlite.Resolve {| status := 404; json := JS.Undefined |}, Demo.catalog).
Proof.
  intros req.
  assert (H : outside_api (path req) = true) by reflexivity.
  split; [exact H|].
  exact (proj2 (serve_outside_api Demo.libs req Demo.environment Demo.catalog H)).
Defined.

(** ** The wishlist *)

(** X15. Adding a (user, product) pair and then removing it: both requests
    are answered [success], no row for the pair is left, and when the pair was
    not in the wishlist before, the rows of the wishlists table are back to
    what they were.  The product id of the body and the one of the path are
    the same value once stored. *)
Theorem wishlist_add_then_remove :
  forall (L : Libs) (add remove : request) (e1 e2 : env) (db : Sqlite.database),
    caller_id add <> Sqlite.Null ->
    body_product add <> Sqlite.Null ->
    caller_id remove = caller_id add ->
    path_product remove = body_product add ->
    let run1 := add_wishlist add e1 db in
    let run2 := remove_wishlist remove e2 (snd run1) in
    let pair := Sqlite.same_pair (caller_id add) (body_product add) in
    fst run1 = Sqlite.Resolve (Done ok_success)
    /\ fst run2 = Sqlite.Resolve (Done ok_success)
    /\ List.filter pair (Sqlite.wishlists (snd run2)) = []
    /\ (List.filter pair (Sqlite.wishlists db) = [] ->
        Sqlite.wishlists (snd run2) = Sqlite.wishlists db).
Proof.
  intros L add remove e1 e2 db Hu Hp Hu2 Hp2 run1 run2 pair.
  destruct (body_product_needs_body add Hp) as [Hb1 Hb2].
  subst run2 run1. rewrite remove_wishlist_run.
  rewrite add_wishlist_run by assumption. cbn [fst snd].
  cbn [Sqlite.delete_wishlist snd Sqlite.changed Sqlite.wishlists Sqlite.param List.nth].
  fold (caller_id remove) (path_product remove). rewrite Hu2, Hp2. fold pair.
  split; [reflexivity|]. split; [reflexivity|]. split.
  - apply filter_none. intros w Hw. apply List.filter_In in Hw.
    destruct Hw as [_ Hw]. apply Bool.negb_true_iff in Hw. exact Hw.
  - intros Hnone. unfold Sqlite.insert_wishlist. cbn [Sqlite.param List.nth].
    fold (caller_id add) (body_product add). fold pair.
    rewrite (proj2 (existsb_filter_nil pair (Sqlite.wishlists db)) Hnone).
    cbn [snd Sqlite.changed Sqlite.wishlists].
    rewrite List.filter_app. cbn [List.filter].
    unfold pair at 2. rewrite same_pair_refl by (assumption || reflexivity).
    cbn [negb]. rewrite List.app_nil_r.
    apply filter_negb_none. exact Hnone.
Qed.

Lemma wishlist_add_then_remove_witness :
  let shopper := JS.Obj [("id", JS.Num 2); ("email", JS.Str "alice@x.com");
                         ("is_admin", JS.Num 0)] in
  let add := with_user
               (Demo.request_to POST ["api"; "wishlist"] (Some "Bearer shopper.jwt")
                  (JS.Obj []) (JS.Obj [("product_id", JS.Num 3)]))
               shopper in
  let remove :=
    with_user
      {| verb := DELETE; path := ["api"; "wishlist"; "3"];
         authorization := Some "Bearer shopper.jwt"; query := JS.Obj [];
         body := JS.Obj []; params := JS.Obj [("product_id", JS.Str "3")];
         user := JS.Undefined |} shopper in
  let db1 := snd (add_wishlist (L := Demo.libs) add Demo.environment Demo.catalog) in
  let db2 := snd (remove_wishlist (L := Demo.libs) remove Demo.environment db1) in
  path_product (L := Demo.libs) remove = body_product (L := Demo.libs) add
  /\ List.length (Sqlite.wishlists db1) = 1%nat
  /\ Sqlite.wishlists db2 = Sqlite.wishlists Demo.catalog.
Proof.
  intros shopper add remove db1 db2.
  split; [reflexivity|]. split; [reflexivity|].
  apply (wishlist_add_then_remove Demo.libs add remove Demo.environment
           Demo.environment Demo.catalog).
  - discriminate.
  - discriminate.
  - reflexivity.
  - reflexivity.
  - reflexivity.
Defined.

(** ** Handlers keep what their statements keep *)

Section Keeping.
Context {L : Libs}.
Variable I : Sqlite.database -> Prop.
Variable allowed : Sqlite.statement -> bool.
Hypothesis exec_keeps :
  forall st ps now db,
    allowed st = true -> I db -> I (snd (Sqlite.exec st ps now db)).

Lemma keeps_resolve {A} (a : A) : keeps I (resolve a).
Proof. intros db H. exact H. Qed.

Lemma keeps_throw {A} (err : string) : keeps I (throw (A := A) err).
Proof. intros db H. exact H. Qed.

Lemma keeps_send (s : Z) (j : JS.value) : keeps I (send s j).
Proof. intros db H. exact H. Qed.

Lemma keeps_await {A B} (m : async A) (k : A -> async B) :
  keeps I m -> (forall a, keeps I (k a)) -> keeps I (await m k).
Proof.
  intros Hm Hk db H. unfold await. specialize (Hm db H).
  destruct (m db) as [[a|err] db']; cbn [snd] in *; [apply Hk; exact Hm | exact Hm].
Qed.

Lemma keeps_try_catch {A} (m : async A) (h : string -> async A) :
  keeps I m -> (forall err, keeps I (h err)) -> keeps I (try_catch m h).
Proof.
  intros Hm Hh db H. unfold try_catch. specialize (Hm db H).
  destruct (m db) as [[a|err] db']; cbn [snd] in *; [exact Hm | apply Hh; exact Hm].
Qed.

Lemma keeps_for_each {A B} (f : A -> async B) (l : list A) :
  (forall x, keeps I (f x)) -> keeps I (for_each f l).
Proof.
  intros Hf. induction l as [|x l IH]; cbn [for_each].
  - apply keeps_resolve.
  - apply keeps_await; [apply Hf|]. intros y.
    apply keeps_await; [exact IH|]. intros ys. apply keeps_resolve.
Qed.

Lemma keeps_pure {A} (m : async A) : pure m -> keeps I m.
Proof. intros [o Ho] db H. rewrite Ho. exact H. Qed.

Lemma keeps_run_statement (sql : string) (ps : list JS.value) (now : string) :
  (forall st, Sqlite.prepare sql = Some st -> allowed st = true) ->
  keeps I (run_statement sql ps now).
Proof.
  intros Hsql db H. unfold run_statement.
  destruct (Sqlite.prepare sql) as [st|]; [|exact H].
  apply exec_keeps; [apply Hsql; reflexivity | exact H].
Qed.

Lemma keeps_runAsync (sql : string) (ps : list JS.value) (now : string) :
  (forall st, Sqlite.prepare sql = Some st -> allowed st = true) ->
  keeps I (runAsync sql ps now).
Proof.
  intros Hsql db H. unfold runAsync.
  pose proof (keeps_run_statement sql ps now Hsql db H) as Hk.
  destruct (run_statement sql ps now db) as [[r|err] db']; exact Hk.
Qed.

Lemma keeps_allAsync (sql : string) (ps : list JS.value) (now : string) :
  (forall st, Sqlite.prepare sql = Some st -> allowed st = true) ->
  keeps I (allAsync sql ps now).
Proof.
  intros Hsql db H. unfold allAsync.
  pose proof (keeps_run_statement sql ps now Hsql db H) as Hk.
  destruct (run_statement sql ps now db) as [[r|err] db']; exact Hk.
Qed.

Lemma keeps_getAsync (sql : string) (ps : list JS.value) (now : string) :
  (forall st, Sqlite.prepare sql = Some st -> allowed st = true) ->
  keeps I (getAsync sql ps now).
Proof.
  intros Hsql db H. unfold getAsync.
  pose proof (keeps_run_statement sql ps now Hsql db H) as Hk.
  destruct (run_statement sql ps now db) as [[r|err] db']; exact Hk.
Qed.

Lemma keeps_destructure (v : JS.value) : keeps I (destructure v).
Proof. destruct v; intros db H; exact H. Qed.

Lemma keeps_parse_or_empty (v : JS.value) : keeps I (parse_or_empty v).
Proof. apply keeps_pure. apply pure_parse_or_empty. Qed.

Lemma keeps_bcrypt_hash (data : JS.value) (rounds : Z) (e : env) :
  keeps I (bcrypt_hash data rounds e).
Proof. destruct data; intros db H; exact H. Qed.

Lemma keeps_bcrypt_compare (data hash : JS.value) : keeps I (bcrypt_compare data hash).
Proof. destruct data, hash; intros db H; exact H. Qed.

Lemma keeps_authMiddleware (req : request) (e : env) : keeps I (authMiddleware req e).
Proof.
  unfold authMiddleware.
  destruct (authorization req) as [auth|]; [|apply keeps_send].
  destruct (_ || _); [apply keeps_send|]. cbv zeta.
  destruct (List.nth_error _ 1) as [token|]; [|apply keeps_send].
  destruct (jwt_verify _ _ _); [apply keeps_resolve | apply keeps_send].
Qed.

Lemma keeps_adminMiddleware (req : request) (e : env) : keeps I (adminMiddleware req e).
Proof.
  unfold adminMiddleware. destruct (_ || _); [apply keeps_send | apply keeps_resolve].
Qed.

(** [GET /api/products] runs one statement, a SELECT over the products. *)
Lemma keeps_list_products (req : request) (e : env) :
  (forall cs o, allowed (Sqlite.SelectProducts cs o) = true) ->
  keeps I (list_products req e).
Proof.
  intros Hsel. unfold list_products.
  rewrite (surjective_pairing (build_products_query (query req))).
  apply keeps_try_catch; [|intros err; apply keeps_send].
  apply keeps_await.
  - apply keeps_allAsync. intros st Hst.
    rewrite prepare_products_query in Hst. injection Hst as <-. apply Hsel.
  - intros rows. apply keeps_await; [|intros parsed; apply keeps_send].
    apply keeps_for_each. intros r.
    apply keeps_await; [apply keeps_parse_or_empty|]. intros images.
    apply keeps_await; [apply keeps_parse_or_empty|]. intros colors.
    apply keeps_resolve.
Qed.

Lemma run_stages_keeps (stages : list stage) :
  (forall h, In h stages -> forall req e, keeps I (h req e)) ->
  forall req e, keeps I (run_stages stages req e).
Proof.
  induction stages as [|s stages IH]; intros Hall req e; cbn [run_stages].
  - apply keeps_resolve.
  - apply keeps_await; [apply Hall; left; reflexivity|].
    intros [req'|res]; [|apply keeps_resolve].
    apply IH. intros h Hh. apply Hall. right. exact Hh.
Qed.

Lemma dispatch_keeps (routes : list route) :
  (forall r, In r routes ->
     forall h, In h (route_stages r) -> forall req e, keeps I (h req e)) ->
  forall req e, keeps I (dispatch routes req e).
Proof.
  induction routes as [|r routes IH]; intros Hall req e; cbn [dispatch].
  - apply keeps_resolve.
  - assert (Hrest : forall req e, keeps I (dispatch routes req e)).
    { apply IH. intros r' Hr'. apply Hall. right. exact Hr'. }
    destruct (method_eqb (route_verb r) (verb req)); [|apply Hrest].
    destruct (match_path (route_path r) (path req)); [|apply Hrest].
    apply run_stages_keeps. apply Hall. left. reflexivity.
Qed.

End Keeping.

(** The statement a text of [server.js] prepares is among the allowed ones. *)
Ltac statement_allowed :=
  let st := fresh "st" in
  let Hst := fresh "Hst" in
  intros st Hst; vm_compute in Hst; injection Hst as <-; reflexivity.

(** One step through the body of a handler, [Hexec] saying what the allowed
    statements keep. *)
Ltac keeps_step Hexec :=
  first
    [ apply keeps_send | apply keeps_resolve | apply keeps_throw
    | apply (keeps_authMiddleware _) | apply (keeps_adminMiddleware _)
    | apply (keeps_list_products _ _ Hexec); reflexivity
    | apply (keeps_runAsync _ _ Hexec); statement_allowed
    | apply (keeps_getAsync _ _ Hexec); statement_allowed
    | apply (keeps_allAsync _ _ Hexec); statement_allowed
    | apply keeps_destructure | apply keeps_parse_or_empty
    | apply keeps_bcrypt_hash | apply keeps_bcrypt_compare
    | apply keeps_try_catch; [|intros ?]
    | apply keeps_for_each; intros ?
    | apply keeps_await; [|intros ?]
    | match goal with
      | |- keeps _ (if ?b then _ else _) => destruct b
      end
    | progress cbv beta zeta ].

Ltac keeps_handler Hexec :=
  unfold register, login, me, get_product, create_product, update_product,
    delete_product, list_wishlist, add_wishlist, remove_wishlist, seed_demo,
    bootstrap;
  repeat keeps_step Hexec.

Ltac keeps_stages Hexec :=
  let h := fresh "h" in
  let Hh := fresh "Hh" in
  let req := fresh "req" in
  let e := fresh "e" in
  intros h Hh req e; cbn [In] in Hh;
  repeat (destruct Hh as [<- | Hh]; [keeps_handler Hexec|]);
  contradiction.


(** ** What the statements leave alone *)

Section Frames.
Context {L : Libs}.

Lemma exec_reads (db0 : Sqlite.database) (st : Sqlite.statement)
  (ps : list Sqlite.value) (now : string) (db : Sqlite.database) :
  reads st = true -> db = db0 -> snd (Sqlite.exec st ps now db) = db0.
Proof.
  intros Hst <-. unfold Sqlite.exec.
  destruct (Nat.ltb _ _); [reflexivity|].
  destruct st; try discriminate Hst; reflexivity.
Qed.

Lemma exec_users_same (st : Sqlite.statement) (ps : list Sqlite.value)
  (now : string) (db : Sqlite.database) :
  (forall admin, st <> Sqlite.InsertUser admin) ->
  Sqlite.users (snd (Sqlite.exec st ps now db)) = Sqlite.users db.
Proof.
  intros Hst. unfold Sqlite.exec.
  destruct (Nat.ltb _ _); [reflexivity|].
  destruct st; try reflexivity.
  - destruct (Hst admin). reflexivity.
  - unfold Sqlite.insert_product. cbv zeta.
    destruct (Sqlite.is_null _); [destruct or_ignore; reflexivity|].
    destruct (List.existsb _ _); [destruct or_ignore; reflexivity|]. reflexivity.
  - unfold Sqlite.update_product. cbv zeta.
    destruct (List.filter _ _); [reflexivity|].
    destruct (Sqlite.is_null _); [reflexivity|].
    destruct (List.existsb _ _); reflexivity.
  - unfold Sqlite.insert_wishlist. cbv zeta.
    destruct (List.existsb _ _); reflexivity.
Qed.

Lemma exec_spares_products (P : list Sqlite.product) (st : Sqlite.statement)
  (ps : list Sqlite.value) (now : string) (db : Sqlite.database) :
  spares_products st = true ->
  Sqlite.products db = P -> Sqlite.products (snd (Sqlite.exec st ps now db)) = P.
Proof.
  intros Hst <-. unfold Sqlite.exec.
  destruct (Nat.ltb _ _); [reflexivity|].
  destruct st; try discriminate Hst; try reflexivity.
  - unfold Sqlite.insert_user. cbv zeta.
    destruct (List.existsb _ _); reflexivity.
  - unfold Sqlite.insert_wishlist. cbv zeta.
    destruct (List.existsb _ _); reflexivity.
Qed.

Lemma exec_spares_admins (before : list Sqlite.user) (st : Sqlite.statement)
  (ps : list Sqlite.value) (now : string) (db : Sqlite.database) :
  spares_admins st = true ->
  grown_by_shoppers before db ->
  grown_by_shoppers before (snd (Sqlite.exec st ps now db)).
Proof.
  intros Hst (added & Husers & Hflags).
  destruct st as [| | |admin| | | | | | | |];
    try (exists added; split; [|exact Hflags];
         rewrite exec_users_same by (intros admin; discriminate); exact Husers).
  destruct admin; [discriminate Hst|].
  unfold Sqlite.exec. destruct (Nat.ltb _ _); [exists added; split; assumption|].
  unfold Sqlite.insert_user. cbv zeta.
  destruct (List.existsb _ _); [exists added; split; assumption|].
  cbn [snd Sqlite.changed Sqlite.users].
  match goal with
  | |- grown_by_shoppers _ {| Sqlite.users := _ ++ [?u] |} => exists (added ++ [u])
  end.
  cbn [Sqlite.users]. split.
  - rewrite Husers, <- List.app_assoc. reflexivity.
  - apply Forall_app. split; [exact Hflags|]. constructor; [reflexivity|constructor].
Qed.

(** Only the routes of the request's method are tried. *)
Lemma dispatch_by_method (routes : list route) (req : request) (e : env) :
  dispatch routes req e
  = dispatch (List.filter (fun r => method_eqb (route_verb r) (verb req)) routes) req e.
Proof.
  induction routes as [|r routes IH]; [reflexivity|].
  cbn [dispatch List.filter].
  destruct (method_eqb (route_verb r) (verb req)) eqn:Hv; [|exact IH].
  cbn [dispatch]. rewrite Hv.
  destruct (match_path (route_path r) (path req)); [reflexivity | exact IH].
Qed.

Lemma find_route_In (routes : list route) (v : method) (p : list string)
  (r : route) (bound : list (string * JS.value)) :
  find_route routes v p = Some (r, bound) -> In r routes.
Proof.
  induction routes as [|r' routes IH]; [discriminate|].
  cbn [find_route]. intros H.
  destruct (method_eqb (route_verb r') v); [|right; apply IH; exact H].
  destruct (match_path (route_path r') p); [|right; apply IH; exact H].
  injection H as <- _. left. reflexivity.
Qed.

(** A request either fails the authentication stage or carries claims. *)
Lemma auth_cases (req : request) (e : env) :
  unauthenticated req e \/ exists payload, authenticated_as req e payload.
Proof.
  unfold unauthenticated, authenticated_as.
  destruct (authorization req) as [auth|]; [|left; left; reflexivity].
  destruct (JS.startsWith auth "Bearer ") eqn:Hpre.
  - destruct (List.nth_error (JS.split " " auth) 1) as [token|] eqn:Htok.
    + destruct (jwt_verify token (JWT_SECRET e) (clock e)) as [payload|] eqn:Hver.
      * right. exists payload, auth, token. repeat split; assumption.
      * left. right. exists auth. split; [reflexivity|]. right.
        intros token' Heq. rewrite Htok in Heq. injection Heq as <-. exact Hver.
    + left. right. exists auth. split; [reflexivity|]. right.
      intros token' Heq. rewrite Htok in Heq. discriminate Heq.
  - left. right. exists auth. split; [reflexivity|]. left. exact Hpre.
Qed.

Lemma claims_unique (req : request) (e : env) (p1 p2 : JS.value) :
  authenticated_as req e p1 -> authenticated_as req e p2 -> p1 = p2.
Proof.
  intros (a1 & t1 & Ha1 & _ & Ht1 & Hv1) (a2 & t2 & Ha2 & _ & Ht2 & Hv2).
  rewrite Ha1 in Ha2. injection Ha2 as <-.
  rewrite Ht1 in Ht2. injection Ht2 as <-.
  rewrite Hv1 in Hv2. injection Hv2 as <-. reflexivity.
Qed.

Lemma unauthenticated_no_claims (req : request) (e : env) (payload : JS.value) :
  unauthenticated req e -> authenticated_as req e payload -> False.
Proof.
  intros Hbad Hok.
  destruct (authMiddleware_rejects req e Sqlite.empty Hbad) as [text Hrej].
  rewrite (authMiddleware_accepts req e Sqlite.empty payload Hok) in Hrej.
  discriminate Hrej.
Qed.

Lemma administrator_or_not (req : request) (e : env) :
  administrator req e
  \/ unauthenticated req e
  \/ exists payload,
       authenticated_as req e payload
       /\ JS.truthy (JS.get "is_admin" payload) = false.
Proof.
  destruct (auth_cases req e) as [Hbad | [payload Hok]]; [right; left; exact Hbad|].
  destruct (JS.truthy (JS.get "is_admin" payload)) eqn:Hflag.
  - left. exists payload. split; assumption.
  - right. right. exists payload. split; assumption.
Qed.

(** Behind the two guards nothing is written for who is no administrator. *)
Lemma guards_stop_shoppers (rest : list stage) (req : request) (ps : JS.value)
  (e : env) (db : Sqlite.database) :
  ~ administrator req e ->
  snd (run_stages (authMiddleware :: adminMiddleware :: rest)
         (with_params req ps) e db) = db.
Proof.
  intros Hno.
  destruct (administrator_or_not req e) as [Hyes | [Hbad | (payload & Hok & Hflag)]].
  - contradiction.
  - destruct (auth_stage_stops (adminMiddleware :: rest) (with_params req ps) e db Hbad)
      as [text Heq].
    rewrite Heq. reflexivity.
  - rewrite (admin_stage_stops rest (with_params req ps) e db payload Hok Hflag).
    reflexivity.
Qed.

End Frames.

(** ** What the requests leave alone *)

(** X18. GET requests never write: whatever the path, the query, the headers
    and the stored rows, the database after a GET request is the database
    before it. *)
Theorem get_requests_never_write `{L : Libs} (req : request) (e : env)
  (db : Sqlite.database) :
  verb req = GET -> snd (serve req e db) = db.
Proof.
  intros Hverb.
  assert (Hkeeps : keeps (fun d => d = db) (serve req e)).
  { unfold serve. rewrite dispatch_by_method, Hverb.
    cbn [app List.filter method_eqb route_verb].
    apply dispatch_keeps. intros r Hr. cbn [In] in Hr.
    repeat (destruct Hr as [<- | Hr];
            [cbn [route_stages]; keeps_stages (exec_reads db)|]).
    contradiction. }
  apply Hkeeps. reflexivity.
Qed.

Lemma get_requests_never_write_witness :
  snd (serve (L := Demo.libs)
         (Demo.request_to GET ["api"; "products"] None
            (JS.Obj [("q", JS.Str "hood")]) JS.Undefined)
         Demo.environment Demo.catalog)
  = Demo.catalog.
Proof.
  apply (get_requests_never_write (L := Demo.libs)). reflexivity.
Defined.

(** X19. Only an administrator changes the catalogue: when the products
    table after a request differs from the table before it, the request
    carried a token that [jwt.verify] accepts and whose claims have the admin
    flag. *)
Theorem catalogue_changes_need_admin `{L : Libs} (req : request) (e : env)
  (db : Sqlite.database) :
  Sqlite.products (snd (serve req e db)) <> Sqlite.products db ->
  administrator req e.
Proof.
  intros Hdiff.
  destruct (administrator_or_not req e) as [Hyes | Hno]; [exact Hyes|].
  exfalso. apply Hdiff.
  assert (Hnot : ~ administrator req e).
  { intros (payload & Hok & Hflag).
    destruct Hno as [Hbad | (payload' & Hok' & Hflag')].
    - exact (unauthenticated_no_claims req e payload Hbad Hok).
    - rewrite (claims_unique req e payload payload' Hok Hok') in Hflag.
      rewrite Hflag in Hflag'. discriminate Hflag'. }
  clear Hdiff Hno.
  unfold serve. rewrite dispatch_find_route.
  destruct (find_route app (verb req) (path req)) as [[r bound]|] eqn:Hfind;
    [|reflexivity].
  apply find_route_In in Hfind. cbn [app In] in Hfind.
  repeat (destruct Hfind as [<- | Hfind];
          [cbn [route_stages];
           first
             [ rewrite guards_stop_shoppers by exact Hnot; reflexivity
             | apply (run_stages_keeps (fun d => Sqlite.products d = Sqlite.products db));
               [keeps_stages (exec_spares_products (Sqlite.products db)) | reflexivity] ]|]).
  contradiction.
Qed.

Lemma catalogue_changes_need_admin_witness :
  let create :=
    Demo.request_to POST ["api"; "admin"; "products"] (Some "Bearer admin.jwt")
      (JS.Obj []) (JS.Obj [("name", JS.Str "Scarf"); ("slug", JS.Str "scarf")]) in
  Sqlite.products (snd (serve (L := Demo.libs) create Demo.environment Demo.catalog))
  <> Sqlite.products Demo.catalog
  /\ administrator (L := Demo.libs) create Demo.environment.
Proof.
  intros create.
  assert (Hdiff : Sqlite.products
                    (snd (serve (L := Demo.libs) create Demo.environment Demo.catalog))
                  <> Sqlite.products Demo.catalog).
  { vm_compute. intros Heq. discriminate Heq. }
  split; [exact Hdiff|].
  exact (catalogue_changes_need_admin (L := Demo.libs) create Demo.environment
           Demo.catalog Hdiff).
Defined.

(** X20. No request touches a stored account or makes an administrator:
    after any request the users table is the table before it, in the same
    order, followed by the rows the request added, none of which has the
    admin flag. *)
Theorem requests_keep_accounts `{L : Libs} (req : request) (e : env)
  (db : Sqlite.database) :
  grown_by_shoppers (Sqlite.users db) (snd (serve req e db)).
Proof.
  assert (Hkeeps : keeps (grown_by_shoppers (Sqlite.users db)) (serve req e)).
  { unfold serve. apply dispatch_keeps. intros r Hr. cbn [app In] in Hr.
    repeat (destruct Hr as [<- | Hr];
            [cbn [route_stages];
             keeps_stages (exec_spares_admins (Sqlite.users db))|]).
    contradiction. }
  apply Hkeeps. exists []. split; [rewrite List.app_nil_r; reflexivity | constructor].
Qed.
